(** * GHContribScraperReportGen: the fetch / filter / dedupe pipeline

    A shallow embedding of [src/modules/api.py], [src/modules/reports.py],
    [src/modules/diff.py], [src/modules/metadata.py] and [src/main.py],
    followed by the properties of the pipeline stated over it.

    Conventions of the embedding:
    - a Python [str] is a [string]; the text handled here (logins, owner
      names, repository names, tokens, SHAs) is ASCII;
    - a Python [dict] is an insertion-ordered association list with unique
      keys ([PyDict]): assignment to an existing key keeps its position,
      iteration follows insertion order;
    - a [datetime] is a [Z], a count of time units since a fixed epoch in
      UTC, compared as integers;
    - [sys.exit(n)] and the calls of the GitHub client that may raise are
      made explicit: a function that may exit returns an [option] or an
      [Outcome], a remote listing that raised is [None];
    - the local file system is a log of the operations performed on it, in
      program order ([Effect]); they are taken to succeed, but for the one
      creation of a directory that must not be there yet
      ([DiffGenerator_init]), and the text of a file is kept as the
      sequence of its fragments ([Piece]);
    - logging is not part of the model. *)

From Stdlib Require Import ZArith List String Ascii Bool Lia Sorted Permutation.
Import ListNotations.
Local Open Scope string_scope.
Local Open Scope list_scope.

(* ================================================================= *)
(** * Part I. The program *)
(* ================================================================= *)

(** ** Python strings *)

Module PyStr.

(** [c.isspace()] on the ASCII range: TAB..CR and FS..SPACE. *)
Definition is_space (c : ascii) : bool :=
  let n := N_of_ascii c in
  (((9 <=? n) && (n <=? 13)) || ((28 <=? n) && (n <=? 32)))%N.

Definition lower_char (c : ascii) : ascii :=
  let n := N_of_ascii c in
  if ((65 <=? n) && (n <=? 90))%N then ascii_of_N (n + 32) else c.

(** [s.lower()] *)
Fixpoint lower (s : string) : string :=
  match s with
  | EmptyString => EmptyString
  | String c r => String (lower_char c) (lower r)
  end.

Fixpoint lstrip (s : string) : string :=
  match s with
  | EmptyString => EmptyString
  | String c r => if is_space c then lstrip r else s
  end.

Fixpoint rstrip (s : string) : string :=
  match s with
  | EmptyString => EmptyString
  | String c r =>
      match rstrip r with
      | EmptyString => if is_space c then EmptyString else String c EmptyString
      | r' => String c r'
      end
  end.

(** [s.strip()] *)
Definition strip (s : string) : string := rstrip (lstrip s).

(** [sep in s] for a one-character [sep] *)
Fixpoint contains (sep : ascii) (s : string) : bool :=
  match s with
  | EmptyString => false
  | String c r => if (c =? sep)%char then true else contains sep r
  end.

(** [s.split(sep)] for a one-character [sep]: never the empty list. *)
Fixpoint split (sep : ascii) (s : string) : list string :=
  match s with
  | EmptyString => [EmptyString]
  | String c r =>
      if (c =? sep)%char then EmptyString :: split sep r
      else match split sep r with
           | [] => [String c EmptyString]
           | h :: t => String c h :: t
           end
  end.

(** [s.split(sep, 1)] when [sep in s]: the text before the first [sep]
    and the text after it. *)
Fixpoint split1 (sep : ascii) (s : string) : string * string :=
  match s with
  | EmptyString => (EmptyString, EmptyString)
  | String c r =>
      if (c =? sep)%char then (EmptyString, r)
      else let (h, t) := split1 sep r in (String c h, t)
  end.

(** Truth value of a string: [bool(s)] *)
Definition truthy (s : string) : bool := negb (s =? "").

End PyStr.

(** ** Python dictionaries with string keys *)

Module PyDict.
Section Dict.
Context {V : Type}.

Definition t := list (string * V).

Definition empty : t := [].

(** [d.get(k)] *)
Fixpoint get (d : t) (k : string) : option V :=
  match d with
  | [] => None
  | (k', v) :: r => if k' =? k then Some v else get r k
  end.

(** [k in d] *)
Definition mem (d : t) (k : string) : bool :=
  match get d k with Some _ => true | None => false end.

(** [d[k] = v]: an existing key keeps its position, a new key goes last. *)
Fixpoint set (d : t) (k : string) (v : V) : t :=
  match d with
  | [] => [(k, v)]
  | (k', v') :: r => if k' =? k then (k', v) :: r else (k', v') :: set r k v
  end.

Definition remove (d : t) (k : string) : t :=
  filter (fun entry => negb (fst entry =? k)) d.

(** [d.pop(k, None)], returning the value and the dictionary left. *)
Definition pop (d : t) (k : string) : option V * t := (get d k, remove d k).

Definition keys (d : t) : list string := map fst d.
Definition values (d : t) : list V := map snd d.
Definition items (d : t) : list (string * V) := d.

End Dict.
Arguments t : clear implicits.
End PyDict.

(** ** Credential router ([api.py], [parse_token_map]) *)

(** One iteration of the loop of [parse_token_map] over [token_str.split(',')]. *)
Definition parse_token_pair (tokens : PyDict.t string) (pair : string) : PyDict.t string :=
  if PyStr.contains ":" pair then
    let (owner, token) := PyStr.split1 ":" pair in
    PyDict.set tokens (PyStr.lower (PyStr.strip owner)) (PyStr.strip token)
  else
    PyDict.set tokens "_default" (PyStr.strip pair).

Definition parse_token_map (token_str : string) : PyDict.t string :=
  fold_left parse_token_pair (PyStr.split "," token_str) PyDict.empty.

(** ** Data model: the objects of the GitHub client library *)

Definition datetime := Z.

Module NamedUser.
Record t := { login : string }.
End NamedUser.

(** The author or committer signature stored in a git commit. *)
Module GitAuthor.
Record t := { name : string; date : datetime }.
End GitAuthor.

Module GitCommit.
Record t := { author : GitAuthor.t; committer : GitAuthor.t; message : string }.
End GitCommit.

Module File.
Record t := {
  filename : string;
  status : string;
  additions : Z;
  deletions : Z;
  patch : option string
}.
End File.

Module CommitStats.
Record t := { additions : Z; deletions : Z; total : Z }.
End CommitStats.

Module Commit.
Record t := {
  sha : string;
  commit : GitCommit.t;
  author : option NamedUser.t;      (* the GitHub account of the author, if any *)
  committer : option NamedUser.t;   (* the GitHub account of the committer, if any *)
  parents : list string;
  html_url : string;
  stats : CommitStats.t;
  files : list File.t
}.
End Commit.

Module Repository.
Record t := {
  full_name : string;
  description : option string;
  owner : NamedUser.t
}.
End Repository.

Module PullRequest.
Record t := {
  number : Z;
  user : NamedUser.t;
  updated_at : option datetime;
  base_repo : Repository.t          (* [pr.base.repo] *)
}.
End PullRequest.

(** [@dataclass CommitRecord] *)
Record CommitRecord := {
  repo_full_name : string;
  commit : Commit.t
}.

(** [ssl_verify: bool | str] *)
Inductive SslVerify :=
| VerifyOn
| VerifyOff
| VerifyBundle (path : string).

(** A [GitHubAPI] object: its token and the SSL mode of its client. *)
Record GitHubAPI := {
  token : string;
  verify : SslVerify
}.

(** ** The world outside the program *)

(** The process environment and the library calls on dates and paths. *)
Class Host := {
  GITHUB_TOKEN : option string;
  GITHUB_REPOSITORIES : option string;
  REQUESTS_CA_BUNDLE : option string;
  SSL_CERT_FILE : option string;
  path_exists : string -> bool;
  now : datetime;
  (** [datetime.strptime(s, fmt)], [None] when it raises [ValueError] *)
  strptime : string -> string -> option datetime;
  (** [d.strftime(fmt)] *)
  strftime : datetime -> string -> string;
  isoformat : datetime -> string
}.

(** The remote service, as the client library presents it.  A paginated
    listing that is consumed by a loop is the list of the entries it yields
    before it is exhausted or raises. *)
Class GitHub := {
  (** [client.get_user().login], [None] when the call raises *)
  get_user_login : GitHubAPI -> option string;
  (** [client.get_repo(full_name)], [None] when the call raises *)
  get_repo : GitHubAPI -> string -> option Repository.t;
  (** [list(repo.get_commits(author=username, since=since))],
      [None] when the listing raises *)
  get_commits : Repository.t -> string -> datetime -> option (list Commit.t);
  (** [repo.get_pulls(state='all', sort='updated', direction='desc')] *)
  get_pulls : Repository.t -> list PullRequest.t;
  (** [pr.get_commits()] *)
  pr_get_commits : PullRequest.t -> list Commit.t
}.

(** ** Loops *)

(** The result of one pass through the body of a [for] loop. *)
Inductive LoopStep (S : Type) :=
| Next (s : S)     (* fall through or [continue] *)
| Break (s : S).   (* [break], or an exception caught around the loop *)
Arguments Next {S} s.
Arguments Break {S} s.

(** [for x in items: body]: the state when the loop is left and the number
    of entries taken from [items]. *)
Fixpoint for_loop {A S : Type} (body : S -> A -> LoopStep S)
    (items : list A) (s : S) : S * nat :=
  match items with
  | [] => (s, 0%nat)
  | x :: rest =>
      match body s x with
      | Next s' => let (r, n) := for_loop body rest s' in (r, Datatypes.S n)
      | Break s' => (s', 1%nat)
      end
  end.

(** A loop whose body may call [sys.exit]: [None] once it has. *)
Fixpoint for_loop_exit {A S : Type} (body : S -> A -> option S)
    (items : list A) (s : S) : option S :=
  match items with
  | [] => Some s
  | x :: rest =>
      match body s x with
      | Some s' => for_loop_exit body rest s'
      | None => None
      end
  end.

(** ** Remote API client ([api.py], class [GitHubAPI]) *)

Section Client.
Context {host : Host} {github : GitHub}.

(** [GitHubAPI.__init__]; [None] when it raises [ValueError]. *)
Definition GitHubAPI_init (token : option string) (ssl_verify : SslVerify)
  : option GitHubAPI :=
  let self_token :=
    match token with
    | Some t => if PyStr.truthy t then Some t else GITHUB_TOKEN
    | None => GITHUB_TOKEN
    end in
  match self_token with
  | None => None
  | Some t =>
      if negb (PyStr.truthy t) then None
      else
        let ssl_verify :=
          match ssl_verify with
          | VerifyOn =>
              let ca_bundle :=
                match REQUESTS_CA_BUNDLE with
                | Some b => if PyStr.truthy b then Some b else SSL_CERT_FILE
                | None => SSL_CERT_FILE
                end in
              match ca_bundle with
              | Some b =>
                  if PyStr.truthy b && path_exists b then VerifyBundle b else VerifyOn
              | None => VerifyOn
              end
          | other => other
          end in
        Some {| token := t; verify := ssl_verify |}
  end.

Definition fetch_repo_by_full_name (self : GitHubAPI) (repo_full_name : string)
  : option Repository.t :=
  get_repo self repo_full_name.

Definition is_not_merge (c : Commit.t) : bool :=
  (List.length (Commit.parents c) <=? 1)%nat.

Definition not_committed_by_GitHub (c : Commit.t) : bool :=
  negb (GitAuthor.name (GitCommit.committer (Commit.commit c)) =? "GitHub").

Definition fetch_repo_commit_records (self : GitHubAPI) (repo : Repository.t)
    (username : string) (since : datetime)
    (include_merge_commits exclude_pr_merge_commits : bool) : list CommitRecord :=
  match get_commits repo username since with
  | None => []
  | Some commits =>
      let commits :=
        if negb include_merge_commits then filter is_not_merge commits
        else commits in
      let commits :=
        if exclude_pr_merge_commits then filter not_committed_by_GitHub commits
        else commits in
      map (Build_CommitRecord (Repository.full_name repo)) commits
  end.

(** The body of the loop over one repository's pull-request feed.  The
    failed assertion on [updated_at] is caught around the loop. *)
Definition scan_pull (username : string) (since : datetime)
    (all_pull_requests : list PullRequest.t) (pr : PullRequest.t)
  : LoopStep (list PullRequest.t) :=
  match PullRequest.updated_at pr with
  | None => Break all_pull_requests
  | Some updated_at =>
      if (updated_at <? since)%Z then Break all_pull_requests
      else if NamedUser.login (PullRequest.user pr) =? username
           then Next (all_pull_requests ++ [pr])
           else Next all_pull_requests
  end.

Definition fetch_user_pull_requests_in_repos (self : GitHubAPI)
    (repos : list Repository.t) (username : string) (since : datetime)
  : list PullRequest.t :=
  fold_left
    (fun all_pull_requests repo =>
       fst (for_loop (scan_pull username since) (get_pulls repo) all_pull_requests))
    repos [].

Definition fetch_user_commit_records_in_pr_after_date (self : GitHubAPI)
    (pr : PullRequest.t) (username : string) (since : datetime)
  : list CommitRecord :=
  fold_left
    (fun user_commit_records c =>
       match Commit.author c with
       | Some a =>
           if NamedUser.login a =? username then
             if (since <=? GitAuthor.date (GitCommit.author (Commit.commit c)))%Z then
               if (1 <? List.length (Commit.parents c))%nat then user_commit_records
               else user_commit_records ++
                      [Build_CommitRecord
                         (Repository.full_name (PullRequest.base_repo pr)) c]
             else user_commit_records
           else user_commit_records
       | None => user_commit_records
       end)
    (pr_get_commits pr) [].

End Client.

(** ** Credential routing and aggregation ([api.py], module level) *)

(** Membership in a Python [set], kept as the list of its elements. *)
Definition in_str_set (x : string) (s : list string) : bool :=
  existsb (String.eqb x) s.

Definition in_pr_set (x : string * Z) (s : list (string * Z)) : bool :=
  existsb (fun y => (fst x =? fst y) && (snd x =? snd y)%Z) s.

(** [grouped_repos: defaultdict(list)] with [grouped_repos[owner].append(name)] *)
Definition defaultdict_append {A : Type} (d : PyDict.t (list A)) (k : string) (x : A)
  : PyDict.t (list A) :=
  match PyDict.get d k with
  | Some l => PyDict.set d k (l ++ [x])
  | None => PyDict.set d k [x]
  end.

Definition group_repos_by_owner (repo_full_names : list string)
  : PyDict.t (list string) :=
  fold_left
    (fun grouped_repos repo_full_name =>
       if PyStr.contains "/" repo_full_name then
         let (owner, _) := PyStr.split1 "/" repo_full_name in
         defaultdict_append grouped_repos (PyStr.lower owner) repo_full_name
       else grouped_repos   (* [ValueError]: skipped with a warning *))
    repo_full_names PyDict.empty.

Section Aggregator.
Context {host : Host} {github : GitHub}.

(** The first block of [initialize_apis]: the client of the default token.
    [None] is [sys.exit(1)]; otherwise the default client, if any, and the
    table holding it under its login. *)
Definition initialize_default_api (default_token : option string)
    (ssl_verify : SslVerify)
  : option (option GitHubAPI * PyDict.t GitHubAPI) :=
  match default_token with
  | None => Some (None, PyDict.empty)
  | Some tok =>
      if PyStr.truthy tok then
        match GitHubAPI_init (Some tok) ssl_verify with
        | None => None
        | Some default_api =>
            match get_user_login default_api with
            | None => None
            | Some login =>
                Some (Some default_api,
                      PyDict.set PyDict.empty (PyStr.lower login) default_api)
            end
        end
      else Some (None, PyDict.empty)
  end.

(** One iteration of [for owner, token in token_map.items()]. *)
Definition initialize_owner_api (ssl_verify : SslVerify)
    (apis : PyDict.t GitHubAPI) (entry : string * string) : PyDict.t GitHubAPI :=
  let (owner, tok) := entry in
  if PyDict.mem apis owner then apis
  else
    match GitHubAPI_init (Some tok) ssl_verify with
    | None => apis
    | Some api =>
        match get_user_login api with
        | None => apis
        | Some _ => PyDict.set apis owner api
        end
    end.

(** [initialize_apis]; [None] is [sys.exit(1)]. *)
Definition initialize_apis (token_map : PyDict.t string) (ssl_verify : SslVerify)
  : option (PyDict.t GitHubAPI) :=
  let (default_token, token_map) := PyDict.pop token_map "_default" in
  match initialize_default_api default_token ssl_verify with
  | None => None
  | Some (default_api, apis) =>
      let apis :=
        fold_left (initialize_owner_api ssl_verify) (PyDict.items token_map) apis in
      match default_api with
      | Some api =>
          if negb (PyDict.mem apis "_default")
          then Some (PyDict.set apis "_default" api)
          else Some apis
      | None => Some apis
      end
  end.

(** [apis.get(owner) or default_api] *)
Definition api_for_owner (apis : PyDict.t GitHubAPI) (owner : string)
  : option GitHubAPI :=
  match PyDict.get apis owner with
  | Some api => Some api
  | None => PyDict.get apis "_default"
  end.

(** [fetch_repositories]; [None] is [sys.exit(1)]. *)
Definition fetch_repositories (apis : PyDict.t GitHubAPI)
    (repos_by_owner : PyDict.t (list string)) : option (list Repository.t) :=
  for_loop_exit
    (fun repos (entry : string * list string) =>
       let (owner, owner_repos) := entry in
       match api_for_owner apis owner with
       | None => None
       | Some api =>
           Some (fold_left
                   (fun repos repo_full_name =>
                      match fetch_repo_by_full_name api repo_full_name with
                      | Some repo => repos ++ [repo]
                      | None => repos
                      end)
                   owner_repos repos)
       end)
    (PyDict.items repos_by_owner) [].

(** The local function [get_api_for_repo]; [None] is [sys.exit(1)]. *)
Definition get_api_for_repo (apis : PyDict.t GitHubAPI) (repo : Repository.t)
  : option GitHubAPI :=
  api_for_owner apis (PyStr.lower (NamedUser.login (Repository.owner repo))).

(** State of the loop over [repos]. *)
Record RepoLoop := {
  all_commit_records : list CommitRecord;
  all_pull_requests : list PullRequest.t;
  processed_repo_names : list string
}.

Definition process_repo (apis : PyDict.t GitHubAPI) (username : string)
    (since_date : datetime) (fetch_pr_commits include_merge_commits : bool)
    (st : RepoLoop) (repo : Repository.t) : option RepoLoop :=
  if in_str_set (Repository.full_name repo) (processed_repo_names st) then Some st
  else
    match get_api_for_repo apis repo with
    | None => None
    | Some api_client =>
        let commits :=
          fetch_repo_commit_records api_client repo username since_date
            include_merge_commits fetch_pr_commits in
        let prs :=
          if fetch_pr_commits
          then fetch_user_pull_requests_in_repos api_client [repo] username since_date
          else [] in
        Some {| all_commit_records := all_commit_records st ++ commits;
                all_pull_requests := all_pull_requests st ++ prs;
                processed_repo_names :=
                  Repository.full_name repo :: processed_repo_names st |}
    end.

(** State of the loop over [all_pull_requests]. *)
Record PrLoop := {
  all_pr_commit_records : list CommitRecord;
  processed_pr_numbers : list (string * Z)
}.

Definition process_pr (apis : PyDict.t GitHubAPI) (username : string)
    (since_date : datetime) (st : PrLoop) (pr : PullRequest.t) : option PrLoop :=
  let repo_full_name := Repository.full_name (PullRequest.base_repo pr) in
  let pr_key := (repo_full_name, PullRequest.number pr) in
  if in_pr_set pr_key (processed_pr_numbers st) then Some st
  else
    match get_api_for_repo apis (PullRequest.base_repo pr) with
    | None => None
    | Some pr_api =>
        let pr_commit_records :=
          fetch_user_commit_records_in_pr_after_date pr_api pr username since_date in
        Some {| all_pr_commit_records := all_pr_commit_records st ++ pr_commit_records;
                processed_pr_numbers := pr_key :: processed_pr_numbers st |}
    end.

(** The deduplication loop: [unique_commit_records] keyed by commit SHA. *)
Definition add_unique (unique_commit_records : PyDict.t CommitRecord)
    (record : CommitRecord) : PyDict.t CommitRecord :=
  if negb (PyDict.mem unique_commit_records (Commit.sha (commit record)))
  then PyDict.set unique_commit_records (Commit.sha (commit record)) record
  else unique_commit_records.

Definition deduplicate (all_commit_records all_pr_commit_records : list CommitRecord)
  : list CommitRecord :=
  PyDict.values
    (fold_left add_unique (all_commit_records ++ all_pr_commit_records) PyDict.empty).

(** The two streams that [process_commits_and_prs] merges; [None] is
    [sys.exit(1)] in [get_api_for_repo]. *)
Definition collect_commit_records (repos : list Repository.t)
    (apis : PyDict.t GitHubAPI) (username : string) (since_date : datetime)
    (fetch_pr_commits include_merge_commits : bool)
  : option (list CommitRecord * list CommitRecord) :=
  match for_loop_exit
          (process_repo apis username since_date fetch_pr_commits include_merge_commits)
          repos
          {| all_commit_records := []; all_pull_requests := [];
             processed_repo_names := [] |} with
  | None => None
  | Some st =>
      if fetch_pr_commits then
        match for_loop_exit (process_pr apis username since_date)
                (all_pull_requests st)
                {| all_pr_commit_records := []; processed_pr_numbers := [] |} with
        | None => None
        | Some st' => Some (all_commit_records st, all_pr_commit_records st')
        end
      else Some (all_commit_records st, [])
  end.

Definition process_commits_and_prs (repos : list Repository.t)
    (apis : PyDict.t GitHubAPI) (username : string) (since_date : datetime)
    (fetch_pr_commits include_merge_commits : bool) : option (list CommitRecord) :=
  match collect_commit_records repos apis username since_date
          fetch_pr_commits include_merge_commits with
  | None => None
  | Some (all_commit_records, all_pr_commit_records) =>
      Some (deduplicate all_commit_records all_pr_commit_records)
  end.

End Aggregator.

(** ** Files written by the program *)

(** The value handed to [json.dump] / [json.dumps]. *)
#[local] Set Warnings "-register-all".
Inductive Json :=
| JStr (s : string)
| JInt (n : Z)
| JArr (l : list Json)
| JObj (l : list (string * Json)).

(** A fragment of the text of a file. *)
Inductive Piece :=
| Lit (s : string)     (* literal text *)
| Num (n : Z)          (* an [int] formatted in an f-string *)
| Dumps (j : Json).    (* the serialisation of a JSON value *)

(** The operations on the local file system, in program order. *)
Inductive Effect :=
| MakeDirs (path : string)
| WriteFile (path : string) (content : list Piece).

Definition newline : string := String (ascii_of_nat 10) EmptyString.
Definition tab : string := String (ascii_of_nat 9) EmptyString.

Fixpoint ends_with_slash (s : string) : bool :=
  match s with
  | EmptyString => false
  | String c EmptyString => (c =? "/")%char
  | String _ r => ends_with_slash r
  end.

(** [os.path.join(a, b)] on POSIX *)
Definition path_join (a b : string) : string :=
  match b with
  | String "/" _ => b
  | _ => if (a =? "") || ends_with_slash a then a ++ b else a ++ "/" ++ b
  end.

(** ** Report renderer ([reports.py]) *)

Record ReportGenerator := {
  md_report_path : string;
  text_report_path : string;
  json_report_path : string;
  commit_fields : list string
}.

Definition author_date (c : Commit.t) : datetime :=
  GitAuthor.date (GitCommit.author (Commit.commit c)).

(** [l.sort(key=lambda c: c.commit.author.date)]: the stable sort, written
    as insertion from the right. *)
Fixpoint insert_by_date (c : Commit.t) (l : list Commit.t) : list Commit.t :=
  match l with
  | [] => [c]
  | x :: r =>
      if (author_date c <=? author_date x)%Z then c :: l
      else x :: insert_by_date c r
  end.

Definition sort_by_date (l : list Commit.t) : list Commit.t :=
  fold_right insert_by_date [] l.

(** [sorted(names)] on strings *)
Fixpoint insert_str (s : string) (l : list string) : list string :=
  match l with
  | [] => [s]
  | x :: r => if (s <=? x)%string then s :: l else x :: insert_str s r
  end.

Definition sorted_strs (l : list string) : list string :=
  fold_right insert_str [] l.

(** [set(keys)]: the distinct elements; the order is fixed by [sorted]. *)
Fixpoint set_of (l : list string) : list string :=
  match l with
  | [] => []
  | x :: r => if in_str_set x r then set_of r else x :: set_of r
  end.

Section Reports.
Context {host : Host}.

Definition ReportGenerator_init (output_path : string)
    (fields : option (list string)) : ReportGenerator * list Effect :=
  ({| md_report_path := path_join output_path "report.md";
      text_report_path := path_join output_path "report.txt";
      json_report_path := path_join output_path "report.json";
      commit_fields :=
        match fields with
        | Some (f :: fs) => f :: fs
        | _ => ["date"; "url"; "message"]
        end |},
   [MakeDirs output_path]).

Definition file_changed (f : File.t) : Json :=
  JObj [("filename", JStr (File.filename f));
        ("status", JStr (File.status f));
        ("additions", JInt (File.additions f));
        ("deletions", JInt (File.deletions f))].

Definition _build_commit_data (self : ReportGenerator) (c : Commit.t)
  : PyDict.t Json :=
  let has field := in_str_set field (commit_fields self) in
  let commit_data := PyDict.empty in
  let commit_data :=
    if has "date"
    then PyDict.set commit_data "date" (JStr (isoformat (author_date c)))
    else commit_data in
  let commit_data :=
    if has "url" then PyDict.set commit_data "url" (JStr (Commit.html_url c))
    else commit_data in
  let commit_data :=
    if has "message"
    then PyDict.set commit_data "message"
           (JStr (GitCommit.message (Commit.commit c)))
    else commit_data in
  let commit_data :=
    if has "sha" then PyDict.set commit_data "sha" (JStr (Commit.sha c))
    else commit_data in
  let commit_data :=
    if has "stats"
    then PyDict.set commit_data "stats"
           (JObj [("additions", JInt (CommitStats.additions (Commit.stats c)));
                  ("deletions", JInt (CommitStats.deletions (Commit.stats c)));
                  ("total", JInt (CommitStats.total (Commit.stats c)))])
    else commit_data in
  if has "files_changed"
  then PyDict.set commit_data "files_changed"
         (JArr (map file_changed (Commit.files c)))
  else commit_data.

(** The repository groups in the order in which a report walks them, each
    with its commits in the order in which they are written. *)
Definition Groups := list (string * list Commit.t).

(** [for repo_full_name in sorted(set(d.keys()))], skipping absent names. *)
Definition groups_sorted_by_name (commits_by_repo_full_name : PyDict.t (list Commit.t))
  : Groups :=
  flat_map
    (fun repo_full_name =>
       match PyDict.get commits_by_repo_full_name repo_full_name with
       | Some commits => [(repo_full_name, commits)]
       | None => []
       end)
    (sorted_strs (set_of (PyDict.keys commits_by_repo_full_name))).

(** [for repo_full_name, commits in d.items()] *)
Definition groups_in_dict_order (commits_by_repo_full_name : PyDict.t (list Commit.t))
  : Groups :=
  PyDict.items commits_by_repo_full_name.

Definition markdown_groups := groups_sorted_by_name.
Definition text_groups := groups_sorted_by_name.
Definition json_groups := groups_in_dict_order.

Definition _generate_markdown_report (self : ReportGenerator)
    (repo_descriptions : PyDict.t string)
    (commits_by_repo_full_name : PyDict.t (list Commit.t)) : list Effect :=
  [WriteFile (md_report_path self)
     (flat_map
        (fun group : string * list Commit.t =>
           let (repo_full_name, commits) := group in
           [Lit ("## " ++ repo_full_name ++ newline ++ newline)]
           ++ match PyDict.get repo_descriptions repo_full_name with
              | Some d => [Lit (d ++ newline ++ newline)]
              | None => []
              end
           ++ flat_map
                (fun c =>
                   [Lit ("```json" ++ newline);
                    Dumps (JObj (_build_commit_data self c));
                    Lit (newline ++ "```" ++ newline ++ newline)])
                commits
           ++ [Lit newline])
        (markdown_groups commits_by_repo_full_name))].

Definition _generate_text_report (self : ReportGenerator)
    (repo_descriptions : PyDict.t string)
    (commits_by_repo_full_name : PyDict.t (list Commit.t)) : list Effect :=
  [WriteFile (text_report_path self)
     (flat_map
        (fun group : string * list Commit.t =>
           let (repo_full_name, commits) := group in
           [Lit ("- " ++ repo_full_name ++ newline ++ newline)]
           ++ match PyDict.get repo_descriptions repo_full_name with
              | Some d => [Lit tab; Dumps (JStr d); Lit (newline ++ newline)]
              | None => []
              end
           ++ flat_map
                (fun c =>
                   flat_map
                     (fun kv : string * Json =>
                        [Lit (tab ++ fst kv ++ ": "); Dumps (snd kv); Lit newline])
                     (PyDict.items (_build_commit_data self c))
                   ++ [Lit newline])
                commits)
        (text_groups commits_by_repo_full_name))].

Definition _generate_json_report (self : ReportGenerator)
    (repo_descriptions : PyDict.t string)
    (commits_by_repo_full_name : PyDict.t (list Commit.t)) : list Effect :=
  let report_data :=
    map
      (fun group : string * list Commit.t =>
         let (repo_full_name, commits) := group in
         JObj [("name", JStr repo_full_name);
               ("description",
                JStr match PyDict.get repo_descriptions repo_full_name with
                     | Some d => d
                     | None => ""
                     end);
               ("commits",
                JArr (map (fun c => JObj (_build_commit_data self c)) commits))])
      (json_groups commits_by_repo_full_name) in
  [WriteFile (json_report_path self) [Dumps (JArr report_data)]].

(** The grouping and sorting steps of [generate_reports]. *)
Definition group_commits (commit_records : list CommitRecord)
  : PyDict.t (list Commit.t) :=
  let commits_by_repo_full_name :=
    fold_left
      (fun d record => defaultdict_append d (repo_full_name record) (commit record))
      commit_records PyDict.empty in
  map (fun entry : string * list Commit.t => (fst entry, sort_by_date (snd entry)))
    commits_by_repo_full_name.

Definition generate_reports (self : ReportGenerator)
    (commit_records : list CommitRecord)
    (repo_descriptions : option (PyDict.t string))
    (report_formats : option (list string)) : list Effect :=
  let repo_descriptions :=
    match repo_descriptions with Some d => d | None => PyDict.empty end in
  let report_formats :=
    match report_formats with Some f => f | None => ["text"] end in
  let commits_by_repo_full_name := group_commits commit_records in
  (if in_str_set "markdown" report_formats
   then _generate_markdown_report self repo_descriptions commits_by_repo_full_name
   else [])
  ++ (if in_str_set "text" report_formats
      then _generate_text_report self repo_descriptions commits_by_repo_full_name
      else [])
  ++ (if in_str_set "json" report_formats
      then _generate_json_report self repo_descriptions commits_by_repo_full_name
      else []).

End Reports.

(** ** Diff archiver ([diff.py]) *)

Record DiffGenerator := {
  limit_files : Z;
  limit_lines_changed : Z;
  files_dir : string
}.

(** [DiffGenerator.__init__].  Its [os.makedirs(self.files_dir)] has no
    [exist_ok]: it raises [FileExistsError] when the directory is there
    already, and the result is then [None].  The program creates nothing
    under that name before this call, so the directory is there exactly
    when it was there at the start of the run. *)
Definition DiffGenerator_init {host : Host} (output_path : string)
    (limit_files limit_lines_changed : Z) : option (DiffGenerator * list Effect) :=
  let files_dir := path_join output_path "commits" in
  if path_exists files_dir then None
  else
    Some ({| limit_files := limit_files;
             limit_lines_changed := limit_lines_changed;
             files_dir := files_dir |},
          [MakeDirs files_dir]).

(** The body of the walk over [record.commit.files]; the state is
    [(num_files, file_limit_exceeded)]. *)
Definition count_file (self : DiffGenerator) (st : Z * bool) (file : File.t)
  : LoopStep (Z * bool) :=
  let num_files := (fst st + 1)%Z in
  if (limit_files self <? num_files)%Z then Break (num_files, true)
  else Next (num_files, snd st).

Definition walk_files (self : DiffGenerator) (record : CommitRecord)
  : (Z * bool) * nat :=
  for_loop (count_file self) (Commit.files (commit record)) (0%Z, false).

Definition dashes : string :=
  "------------------------------------------------------------".

Definition diff_of_file (file : File.t) : list Piece :=
  [Lit ("File: " ++ File.filename file ++ newline ++ "Status: " ++ File.status file
        ++ newline ++ "Changes: +");
   Num (File.additions file); Lit " -"; Num (File.deletions file); Lit newline]
  ++ match File.patch file with
     | Some p =>
         if PyStr.truthy p then [Lit ("Patch:" ++ newline ++ p ++ newline)] else []
     | None => []
     end
  ++ [Lit (dashes ++ newline)].

(** One iteration of the loop of [save_commit_diffs] over [commit_records]. *)
Definition save_commit_diff (self : DiffGenerator) (record : CommitRecord)
  : list Effect :=
  if (limit_lines_changed self <? CommitStats.total (Commit.stats (commit record)))%Z
  then []
  else
    let file_limit_exceeded := snd (fst (walk_files self record)) in
    if file_limit_exceeded then []
    else
      let repo_name := last (PyStr.split "/" (repo_full_name record)) "" in
      let commit := commit record in
      if negb (PyStr.truthy repo_name) || negb (PyStr.truthy (Commit.sha commit))
      then []
      else
        let diff_path := path_join (files_dir self) (Commit.sha commit ++ ".diff") in
        [WriteFile diff_path (flat_map diff_of_file (Commit.files commit))].

Definition save_commit_diffs (self : DiffGenerator)
    (commit_records : list CommitRecord) : list Effect :=
  flat_map (save_commit_diff self) commit_records.

(** ** Metadata ([metadata.py]) and the command line ([main.py]) *)

(** The namespace that [parser.parse_args()] returns.  A command line that
    [argparse] refuses ends the process with status 2 inside [parse_args],
    before there is a namespace: [main] below starts after that call. *)
Module Args.
Record t := {
  username : string;
  since : string;
  token : option string;
  repositories : option string;
  output : string;
  ca_bundle : option string;
  no_verify_ssl : bool;
  fetch_pr_commits : bool;
  include_merge_commits : bool;
  commit_fields : list string;
  report_formats : list string;
  limit_download_diffs : Z * Z
}.
End Args.

(** How the process ends, and what it did to the file system before. *)
Record Outcome := {
  exit_code : Z;
  effects : list Effect
}.

Definition parse_repo_list (repos_str : string) : list string :=
  if negb (PyStr.truthy repos_str) then []
  else
    map PyStr.strip
      (filter (fun repo => PyStr.truthy (PyStr.strip repo))
         (PyStr.split "," repos_str)).

(** [a or b] on optional strings *)
Definition str_or (a : option string) (b : option string) : option string :=
  match a with
  | Some s => if PyStr.truthy s then Some s else b
  | None => b
  end.

Section Main.
Context {host : Host} {github : GitHub}.

Definition save_metadata (output_path username : string)
    (repo_full_names : list string) (since : datetime) : list Effect :=
  [MakeDirs output_path;
   WriteFile (path_join output_path "metadata.json")
     [Dumps (JObj [("username", JStr username);
                   ("repositories", JArr (map JStr repo_full_names));
                   ("since", JStr (isoformat since))])]].

(** [parse_date]; [None] when it raises [ValueError]. *)
Definition parse_date (date_str : string) : option datetime :=
  match strptime date_str "%Y-%m-%d" with
  | Some d => Some d
  | None => strptime date_str "%Y-%m-%d %H:%M:%S"
  end.

(** [validate_args]; [None] is [sys.exit(1)]. *)
Definition validate_args (args : Args.t) : option (datetime * SslVerify) :=
  match parse_date (Args.since args) with
  | None => None
  | Some since_date =>
      if (now <? since_date)%Z then None
      else if Args.no_verify_ssl args then Some (since_date, VerifyOff)
      else
        match Args.ca_bundle args with
        | Some bundle =>
            if PyStr.truthy bundle then
              if negb (path_exists bundle) then None
              else Some (since_date, VerifyBundle bundle)
            else Some (since_date, VerifyOn)
        | None => Some (since_date, VerifyOn)
        end
  end.

Definition is_empty {A : Type} (l : list A) : bool :=
  match l with [] => true | _ => false end.

Definition main (args : Args.t) : Outcome :=
  if negb (PyStr.truthy (Args.username args)) then
    {| exit_code := 2; effects := [] |}
  else
  match validate_args args with
  | None => {| exit_code := 1; effects := [] |}
  | Some (since_date, ssl_verify) =>
  let token_str :=
    match str_or (Args.token args) GITHUB_TOKEN with Some s => s | None => "" end in
  if negb (PyStr.truthy token_str) then {| exit_code := 1; effects := [] |}
  else
  let token_map := parse_token_map token_str in
  match initialize_apis token_map ssl_verify with
  | None => {| exit_code := 1; effects := [] |}
  | Some apis =>
  if is_empty apis then {| exit_code := 1; effects := [] |}
  else
  let repo_full_names_str :=
    match str_or (Args.repositories args) GITHUB_REPOSITORIES with
    | Some s => s
    | None => ""
    end in
  let repo_full_names := parse_repo_list repo_full_names_str in
  if is_empty repo_full_names then {| exit_code := 1; effects := [] |}
  else
  let repos_by_owner := group_repos_by_owner repo_full_names in
  let timestamp := strftime now "%Y%m%d_%H%M%S" in
  let output_path := path_join (Args.output args) timestamp in
  let done :=
    MakeDirs output_path
    :: save_metadata output_path (Args.username args) repo_full_names since_date in
  match fetch_repositories apis repos_by_owner with
  | None => {| exit_code := 1; effects := done |}
  | Some repos =>
  if is_empty repos then {| exit_code := 1; effects := done |}
  else
  match process_commits_and_prs repos apis (Args.username args) since_date
          (Args.fetch_pr_commits args) (Args.include_merge_commits args) with
  | None => {| exit_code := 1; effects := done |}
  | Some all_unique_commit_records =>
  if is_empty all_unique_commit_records then {| exit_code := 0; effects := done |}
  else
  let repo_descriptions :=
    fold_left
      (fun d repo =>
         match Repository.description repo with
         | Some desc =>
             if PyStr.truthy desc then PyDict.set d (Repository.full_name repo) desc
             else d
         | None => d
         end)
      repos PyDict.empty in
  let (report_generator, made_reports_dir) :=
    ReportGenerator_init output_path (Some (Args.commit_fields args)) in
  let reports :=
    generate_reports report_generator all_unique_commit_records
      (Some repo_descriptions) (Some (Args.report_formats args)) in
  match DiffGenerator_init output_path
          (fst (Args.limit_download_diffs args))
          (snd (Args.limit_download_diffs args)) with
  | None =>
      (* the exception is not caught: the interpreter ends with status 1 *)
      {| exit_code := 1; effects := done ++ made_reports_dir ++ reports |}
  | Some (diff_generator, made_commits_dir) =>
  let diffs := save_commit_diffs diff_generator all_unique_commit_records in
  {| exit_code := 0;
     effects := done ++ made_reports_dir ++ reports ++ made_commits_dir ++ diffs |}
  end end end end end.

End Main.

(** ** A small world to run the program in *)

Module Sample.

Definition user (login : string) : NamedUser.t := {| NamedUser.login := login |}.

Definition file (name : string) : File.t :=
  {| File.filename := name; File.status := "modified";
     File.additions := 1%Z; File.deletions := 0%Z; File.patch := Some "+x" |}.

Definition mk_commit (sha : string) (author committer : option string)
    (committer_name : string) (date : datetime) (parents : list string)
    (files : list File.t) : Commit.t :=
  {| Commit.sha := sha;
     Commit.commit :=
       {| GitCommit.author := {| GitAuthor.name := "Alice"; GitAuthor.date := date |};
          GitCommit.committer :=
            {| GitAuthor.name := committer_name; GitAuthor.date := date |};
          GitCommit.message := "change " ++ sha |};
     Commit.author := option_map user author;
     Commit.committer := option_map user committer;
     Commit.parents := parents;
     Commit.html_url := "https://github.com/commit/" ++ sha;
     Commit.stats :=
       {| CommitStats.additions := Z.of_nat (List.length files);
          CommitStats.deletions := 0%Z;
          CommitStats.total := Z.of_nat (List.length files) |};
     Commit.files := files |}.

(** An ordinary commit, a merge commit, a commit made through the web
    interface, and a commit written by alice but committed by bob. *)
Definition c_plain : Commit.t :=
  mk_commit "a1" (Some "alice") (Some "alice") "Alice" 10%Z ["p0"] [file "README.md"].
Definition c_merge : Commit.t :=
  mk_commit "m1" (Some "alice") (Some "alice") "Alice" 20%Z ["p1"; "p2"] [].
Definition c_web : Commit.t :=
  mk_commit "w1" (Some "alice") (Some "web-flow") "GitHub" 25%Z ["p3"] [file "doc.md"].
Definition c_rebased : Commit.t :=
  mk_commit "b2" (Some "alice") (Some "bob") "Bob" 30%Z ["p4"] [file "main.py"].
Definition c_bob : Commit.t :=
  mk_commit "b3" (Some "bob") (Some "alice") "Alice" 35%Z ["p5"] [file "lib.py"].

(** An empty commit, and commits touching 30 and 31 files. *)
Definition c_empty : Commit.t :=
  mk_commit "e0" (Some "alice") (Some "alice") "Alice" 40%Z ["p6"] [].
Definition c_30_files : Commit.t :=
  mk_commit "f30" (Some "alice") (Some "alice") "Alice" 41%Z ["p7"]
    (repeat (file "src.py") 30).
Definition c_31_files : Commit.t :=
  mk_commit "f31" (Some "alice") (Some "alice") "Alice" 42%Z ["p8"]
    (repeat (file "src.py") 31).

Definition acme_tool : Repository.t :=
  {| Repository.full_name := "acme/tool";
     Repository.description := Some "A tool";
     Repository.owner := user "Acme" |}.

Definition zeta_lib : Repository.t :=
  {| Repository.full_name := "zeta/lib";
     Repository.description := None;
     Repository.owner := user "zeta" |}.

Definition mk_pr (number : Z) (author : string) (updated_at : option datetime)
  : PullRequest.t :=
  {| PullRequest.number := number;
     PullRequest.user := user author;
     PullRequest.updated_at := updated_at;
     PullRequest.base_repo := acme_tool |}.

Definition pr9 := mk_pr 9%Z "alice" (Some 50%Z).
Definition pr8 := mk_pr 8%Z "bob" (Some 40%Z).
Definition pr7 := mk_pr 7%Z "alice" (Some 30%Z).
Definition pr6 := mk_pr 6%Z "alice" (Some 5%Z).
Definition pr5 := mk_pr 5%Z "alice" (Some 45%Z).

Definition host : Host :=
  {| GITHUB_TOKEN := None;
     GITHUB_REPOSITORIES := None;
     REQUESTS_CA_BUNDLE := None;
     SSL_CERT_FILE := None;
     path_exists := fun _ => false;
     now := 1000%Z;
     strptime := fun s fmt =>
       if fmt =? "%Y-%m-%d" then
         if s =? "2024-01-01" then Some 15%Z
         else if s =? "2024-06-01" then Some 100%Z
         else None
       else None;
     strftime := fun _ _ => "20240701_120000";
     isoformat := fun d => if (d =? 100)%Z then "2024-06-01T00:00:00" else "2024-01-01T00:00:00" |}.

Definition github : GitHub :=
  {| get_user_login := fun api =>
       if token api =? "tok" then Some "Alice"
       else if token api =? "t-acme" then Some "acme-bot"
       else None;
     get_repo := fun _ full_name =>
       if full_name =? "acme/tool" then Some acme_tool
       else if full_name =? "zeta/lib" then Some zeta_lib
       else None;
     get_commits := fun repo username since =>
       if (Repository.full_name repo =? "acme/tool") && (username =? "alice") then
         Some (filter (fun c => (since <=? author_date c)%Z)
                 [c_plain; c_merge; c_web; c_rebased])
       else if Repository.full_name repo =? "zeta/lib" then Some []
       else None;
     get_pulls := fun repo =>
       if Repository.full_name repo =? "acme/tool"
       then [pr9; pr8; pr7; pr6; pr5]
       else [];
     pr_get_commits := fun pr =>
       if (PullRequest.number pr =? 9)%Z then [c_plain; c_rebased; c_bob; c_merge]
       else [] |}.

Definition api (tok : string) : GitHubAPI := {| token := tok; verify := VerifyOn |}.

(** The client table when the only credential is a token for [acme]. *)
Definition acme_apis : PyDict.t GitHubAPI := [("acme", api "tok")].

Definition record (c : Commit.t) : CommitRecord := Build_CommitRecord "acme/tool" c.

(** The default limits of the command line, and a negative file ceiling. *)
Definition diffs : DiffGenerator :=
  {| limit_files := 30%Z; limit_lines_changed := 3000%Z; files_dir := "out/commits" |}.
Definition diffs_negative : DiffGenerator :=
  {| limit_files := (-1)%Z; limit_lines_changed := 3000%Z; files_dir := "out/commits" |}.

(** A run for alice over both repositories, from a date after her last commit. *)
Definition args : Args.t :=
  {| Args.username := "alice";
     Args.since := "2024-06-01";
     Args.token := Some "tok";
     Args.repositories := Some "acme/tool, zeta/lib";
     Args.output := "output";
     Args.ca_bundle := None;
     Args.no_verify_ssl := false;
     Args.fetch_pr_commits := true;
     Args.include_merge_commits := false;
     Args.commit_fields := ["date"; "sha"];
     Args.report_formats := ["text"; "json"];
     Args.limit_download_diffs := (30, 3000)%Z |}.

End Sample.

(** ** Vocabulary of the properties *)

(** The key under which [parse_token_map] files one comma-separated piece,
    and the value it files there. *)
Definition token_key (pair : string) : string :=
  if PyStr.contains ":" pair
  then PyStr.lower (PyStr.strip (fst (PyStr.split1 ":" pair)))
  else "_default".

Definition token_value (pair : string) : string :=
  if PyStr.contains ":" pair
  then PyStr.strip (snd (PyStr.split1 ":" pair))
  else PyStr.strip pair.

(** The value written last under [k] by a sequence of pieces. *)
Definition last_written (k : string) (pairs : list string) : option string :=
  option_map token_value (find (fun p => token_key p =? k) (rev pairs)).

(** A piece that names an owner other than the sentinel. *)
Definition scoped_pair (pair : string) : bool :=
  PyStr.contains ":" pair && negb (token_key pair =? "_default").

(** The longest prefix of a list whose elements all satisfy [f]. *)
Fixpoint take_while {A : Type} (f : A -> bool) (l : list A) : list A :=
  match l with
  | [] => []
  | x :: r => if f x then x :: take_while f r else []
  end.

(** The pull request was updated at [since] or later. *)
Definition updated_since (since : datetime) (pr : PullRequest.t) : bool :=
  match PullRequest.updated_at pr with
  | Some t => (since <=? t)%Z
  | None => false
  end.

Definition pr_by (username : string) (pr : PullRequest.t) : bool :=
  NamedUser.login (PullRequest.user pr) =? username.

(** The run of [fetch_user_pull_requests_in_repos] with a count, for each
    repository in turn, of the entries that its loop takes from the feed. *)
Definition scan_repos_counting {github : GitHub} (repos : list Repository.t)
    (username : string) (since : datetime) : list PullRequest.t * list nat :=
  fold_left
    (fun (st : list PullRequest.t * list nat) repo =>
       let (all_pull_requests, taken) :=
         for_loop (scan_pull username since) (get_pulls repo) (fst st) in
       (all_pull_requests, snd st ++ [taken]))
    repos ([], []).

Definition pull_requests_consumed {github : GitHub} (repos : list Repository.t)
    (username : string) (since : datetime) : list nat :=
  snd (scan_repos_counting repos username since).

(** A feed in which every entry has an update time, latest first. *)
Definition later_or_same (a b : PullRequest.t) : Prop :=
  match PullRequest.updated_at a, PullRequest.updated_at b with
  | Some ta, Some tb => (tb <= ta)%Z
  | _, _ => False
  end.

Definition descending (feed : list PullRequest.t) : Prop :=
  StronglySorted later_or_same feed
  /\ Forall (fun pr => PullRequest.updated_at pr <> None) feed.

(** The GitHub account of the author of the commit is [username]. *)
Definition authored_by (username : string) (c : Commit.t) : bool :=
  match Commit.author c with
  | Some a => NamedUser.login a =? username
  | None => false
  end.

(** The GitHub account of the committer of the commit is [username]. *)
Definition committed_by (username : string) (c : Commit.t) : bool :=
  match Commit.committer c with
  | Some a => NamedUser.login a =? username
  | None => false
  end.

(** The listing as the sentence of the specification words it: the
    committer's login is compared with [username]. *)
Definition spec_ListUserCommitsInPR {github : GitHub} (pr : PullRequest.t) (username : string)
    (since : datetime) : list CommitRecord :=
  map (Build_CommitRecord (Repository.full_name (PullRequest.base_repo pr)))
    (filter
       (fun c => committed_by username c
                 && (since <=? author_date c)%Z
                 && is_not_merge c)
       (pr_get_commits pr)).

(** The identity of a commit record: the SHA of its commit. *)
Definition sha_of (r : CommitRecord) : string := Commit.sha (commit r).

(** The first record of a list that carries a given SHA. *)
Definition first_with_sha (sha : string) (l : list CommitRecord) : option CommitRecord :=
  find (fun r => sha_of r =? sha) l.

(** The repositories of a list that are the first with their full name,
    given the names already [seen]. *)
Fixpoint unique_repos (seen : list string) (repos : list Repository.t)
  : list Repository.t :=
  match repos with
  | [] => []
  | repo :: rest =>
      if in_str_set (Repository.full_name repo) seen then unique_repos seen rest
      else repo :: unique_repos (Repository.full_name repo :: seen) rest
  end.

(** What the deduplication loop maintains: keys are distinct and each
    record is filed under its own SHA. *)
Definition keyed_by_sha (d : PyDict.t CommitRecord) : Prop :=
  NoDup (PyDict.keys d) /\ Forall (fun entry => fst entry = sha_of (snd entry)) d.

(** Insertion into a list ordered by a total comparison, the scheme of
    [insert_by_date] and of [insert_str]. *)
Fixpoint insert_by {A : Type} (le : A -> A -> bool) (x : A) (l : list A) : list A :=
  match l with
  | [] => [x]
  | y :: r => if le x y then x :: l else y :: insert_by le x r
  end.

Definition date_le (a b : Commit.t) : bool := (author_date a <=? author_date b)%Z.

(** The order that a boolean comparison decides. *)
Definition holds {A : Type} (le : A -> A -> bool) (a b : A) : Prop := le a b = true.

(** The distinct elements of a list of names in the order in which they
    are first met, the names [seen] before left out. *)
Fixpoint first_seen (seen : list string) (names : list string) : list string :=
  match names with
  | [] => []
  | k :: rest =>
      if in_str_set k seen then first_seen seen rest
      else k :: first_seen (seen ++ [k]) rest
  end.

(** The commits of a repository among the records, in the order of the records. *)
Definition commits_of (repo_name : string) (records : list CommitRecord)
  : list Commit.t :=
  map commit (filter (fun r => repo_full_name r =? repo_name) records).

(** The list filed under a key of a [defaultdict(list)], empty if absent. *)
Definition filed_under {A : Type} (d : PyDict.t (list A)) (k : string) : list A :=
  match PyDict.get d k with Some l => l | None => [] end.

(** The input on which the JSON report is not in alphabetical order: one
    commit in [zeta/lib], then one in [acme/tool]. *)
Definition unsorted_records : list CommitRecord :=
  [Build_CommitRecord "zeta/lib" Sample.c_web;
   Build_CommitRecord "acme/tool" Sample.c_plain].

(** The name of the repository without its owner, as [save_commit_diffs]
    takes it from the full name. *)
Definition repo_name_of (record : CommitRecord) : string :=
  last (PyStr.split "/" (repo_full_name record)) "".

(** The file that holds the diff of a commit. *)
Definition diff_file (self : DiffGenerator) (record : CommitRecord) : Effect :=
  WriteFile (path_join (files_dir self) (Commit.sha (commit record) ++ ".diff"))
    (flat_map diff_of_file (Commit.files (commit record))).

Definition changed_files (record : CommitRecord) : Z :=
  Z.of_nat (List.length (Commit.files (commit record))).

Definition changed_lines (record : CommitRecord) : Z :=
  CommitStats.total (Commit.stats (commit record)).

(** The values that [main] derives from the command line and the environment. *)
Definition token_str_of {host : Host} (args : Args.t) : string :=
  match str_or (Args.token args) GITHUB_TOKEN with Some s => s | None => "" end.

Definition repo_full_names_of {host : Host} (args : Args.t) : list string :=
  parse_repo_list
    match str_or (Args.repositories args) GITHUB_REPOSITORIES with
    | Some s => s
    | None => ""
    end.

Definition output_path_of {host : Host} (args : Args.t) : string :=
  path_join (Args.output args) (strftime now "%Y%m%d_%H%M%S").

(** The file [metadata.json] of a run. *)
Definition metadata_file {host : Host} (args : Args.t) (since_date : datetime)
  : Effect :=
  WriteFile (path_join (output_path_of args) "metadata.json")
    [Dumps (JObj [("username", JStr (Args.username args));
                  ("repositories", JArr (map JStr (repo_full_names_of args)));
                  ("since", JStr (isoformat since_date))])].

(** ** Vocabulary of the further properties *)

(** The owner under which [group_repos_by_owner] files a repository name. *)
Definition owner_key (repo_full_name : string) : string :=
  PyStr.lower (fst (PyStr.split1 "/" repo_full_name)).

(** The text is empty or does not start with white space. *)
Definition no_leading_space (s : string) : Prop :=
  match s with
  | EmptyString => True
  | String c _ => PyStr.is_space c = false
  end.

(** Every key of the table has something filed under it. *)
Definition keys_are_filed {A} (d : PyDict.t (list A)) : Prop :=
  forall k, In k (PyDict.keys d) <-> filed_under d k <> [].

(** A client that was built from a non-empty token and whose token the
    remote service accepts. *)
Definition authenticated {github : GitHub} (api : GitHubAPI) : Prop :=
  PyStr.truthy (token api) = true /\ get_user_login api <> None.

(** The repositories that a client can fetch among a list of names. *)
Definition fetched_by {github : GitHub} (api : GitHubAPI) (names : list string)
  : list Repository.t :=
  flat_map
    (fun name =>
       match fetch_repo_by_full_name api name with
       | Some repo => [repo]
       | None => []
       end)
    names.

(** The key under which the aggregator remembers a pull request. *)
Definition pr_key (pr : PullRequest.t) : string * Z :=
  (Repository.full_name (PullRequest.base_repo pr), PullRequest.number pr).

(** The pull requests of a list that are the first with their base
    repository and number, given the keys already [seen]. *)
Fixpoint unique_prs (seen : list (string * Z)) (prs : list PullRequest.t)
  : list PullRequest.t :=
  match prs with
  | [] => []
  | pr :: rest =>
      if in_pr_set (pr_key pr) seen then unique_prs seen rest
      else pr :: unique_prs (pr_key pr :: seen) rest
  end.

(** The client that serves a repository, if the table has one. *)
Definition has_client (apis : PyDict.t GitHubAPI) (repo : Repository.t) : bool :=
  match api_for_owner apis (PyStr.lower (NamedUser.login (Repository.owner repo))) with
  | Some _ => true
  | None => false
  end.

(** The commit fields that [_build_commit_data] knows, in the order in
    which it writes them. *)
Definition known_fields : list string :=
  ["date"; "url"; "message"; "sha"; "stats"; "files_changed"].

(** The condition under which [save_commit_diffs] writes the diff of a
    record. *)
Definition within_limits (self : DiffGenerator) (record : CommitRecord) : bool :=
  (changed_lines record <=? limit_lines_changed self)%Z
  && ((changed_files record <=? limit_files self)%Z
      || match Commit.files (commit record) with [] => true | _ => false end)
  && PyStr.truthy (repo_name_of record)
  && PyStr.truthy (Commit.sha (commit record)).

(** The commits written with a given author date, in the order written. *)
Definition dated (t : datetime) (l : list Commit.t) : list Commit.t :=
  filter (fun c => (author_date c =? t)%Z) l.

(** The path of a file operation. *)
Definition effect_path (e : Effect) : string :=
  match e with
  | MakeDirs path => path
  | WriteFile path _ => path
  end.

Definition is_write (e : Effect) : bool :=
  match e with
  | MakeDirs _ => false
  | WriteFile _ _ => true
  end.

(** ** A second small world: a feed in the promised order *)

Module SampleSorted.

Definition github : GitHub :=
  {| get_user_login := @get_user_login Sample.github;
     get_repo := @get_repo Sample.github;
     get_commits := @get_commits Sample.github;
     get_pulls := fun repo =>
       if Repository.full_name repo =? "acme/tool"
       then [Sample.pr9; Sample.pr8; Sample.pr7; Sample.pr6]
       else [];
     pr_get_commits := @pr_get_commits Sample.github |}.

(** Two commits of one day, a later one between them in the input. *)
Definition c_same_day : Commit.t :=
  Sample.mk_commit "a2" (Some "alice") (Some "alice") "Alice" 10%Z ["p9"]
    [Sample.file "notes.md"].

(** A line ceiling of two lines. *)
Definition diffs_two_lines : DiffGenerator :=
  {| limit_files := 30%Z; limit_lines_changed := 2%Z; files_dir := "out/commits" |}.

(** A command line whose since-date does not parse. *)
Definition args_bad_date : Args.t :=
  {| Args.username := "alice";
     Args.since := "yesterday";
     Args.token := Some "tok";
     Args.repositories := Some "acme/tool";
     Args.output := "output";
     Args.ca_bundle := None;
     Args.no_verify_ssl := false;
     Args.fetch_pr_commits := false;
     Args.include_merge_commits := false;
     Args.commit_fields := ["date"];
     Args.report_formats := ["text"];
     Args.limit_download_diffs := (30, 3000)%Z |}.

End SampleSorted.

(** ** The reports as they are written *)

(** The repositories that the records name, each once, in the order in
    which the records first name them. *)
Definition repositories_named (records : list CommitRecord) : list string :=
  first_seen [] (map repo_full_name records).

(** The group of a repository: its commits among the records, oldest
    first, those of one date in the order of the records. *)
Definition group_of (records : list CommitRecord) (name : string)
  : string * list Commit.t :=
  (name, sort_by_date (commits_of name records)).

Section Rendering.
Context {host : Host}.

(** What the text report holds for one group: the heading, the description
    if the repository has one, and the fields of each commit. *)
Definition text_section (self : ReportGenerator) (descriptions : PyDict.t string)
    (group : string * list Commit.t) : list Piece :=
  [Lit ("- " ++ fst group ++ newline ++ newline)]
  ++ match PyDict.get descriptions (fst group) with
     | Some d => [Lit tab; Dumps (JStr d); Lit (newline ++ newline)]
     | None => []
     end
  ++ flat_map
       (fun c =>
          flat_map
            (fun kv : string * Json =>
               [Lit (tab ++ fst kv ++ ": "); Dumps (snd kv); Lit newline])
            (PyDict.items (_build_commit_data self c))
          ++ [Lit newline])
       (snd group).

(** What the markdown report holds for one group. *)
Definition markdown_section (self : ReportGenerator) (descriptions : PyDict.t string)
    (group : string * list Commit.t) : list Piece :=
  [Lit ("## " ++ fst group ++ newline ++ newline)]
  ++ match PyDict.get descriptions (fst group) with
     | Some d => [Lit (d ++ newline ++ newline)]
     | None => []
     end
  ++ flat_map
       (fun c =>
          [Lit ("```json" ++ newline);
           Dumps (JObj (_build_commit_data self c));
           Lit (newline ++ "```" ++ newline ++ newline)])
       (snd group)
  ++ [Lit newline].

(** The object of one group in the JSON report. *)
Definition json_entry (self : ReportGenerator) (descriptions : PyDict.t string)
    (group : string * list Commit.t) : Json :=
  JObj [("name", JStr (fst group));
        ("description",
         JStr match PyDict.get descriptions (fst group) with
              | Some d => d
              | None => ""
              end);
        ("commits", JArr (map (fun c => JObj (_build_commit_data self c)) (snd group)))].

End Rendering.

(** ** The first file operations of a run *)



(** ** A third small world: the merge button, and a second run *)

Module SampleMerged.

(** A merge made with the merge button: two parents, committed under the
    name [GitHub]. *)
Definition c_merge_button : Commit.t :=
  Sample.mk_commit "g1" (Some "alice") (Some "web-flow") "GitHub" 22%Z ["p1"; "p2"] [].

Definition github : GitHub :=
  {| get_user_login := @get_user_login Sample.github;
     get_repo := @get_repo Sample.github;
     get_commits := fun repo username since =>
       if (Repository.full_name repo =? "acme/tool") && (username =? "alice") then
         Some (filter (fun c => (since <=? author_date c)%Z)
                 [Sample.c_plain; c_merge_button])
       else Some [];
     get_pulls := fun _ => [];
     pr_get_commits := fun _ => [] |}.


(** A run for alice over one repository, from a date before her commits. *)
Definition args : Args.t :=
  {| Args.username := "alice";
     Args.since := "2024-01-01";
     Args.token := Some "tok";
     Args.repositories := Some "acme/tool";
     Args.output := "output";
     Args.ca_bundle := None;
     Args.no_verify_ssl := false;
     Args.fetch_pr_commits := false;
     Args.include_merge_commits := false;
     Args.commit_fields := ["sha"];
     Args.report_formats := ["text"];
     Args.limit_download_diffs := (30, 3000)%Z |}.

End SampleMerged.

(* ================================================================= *)
(** * Part II. Properties *)
(* ================================================================= *)

(** ** Facts about dictionaries *)

Module PyDictFacts.
Section Facts.
Context {V : Type}.
Implicit Types (d : PyDict.t V) (k : string) (v : V).

Lemma get_set d k v k' :
  PyDict.get (PyDict.set d k v) k' = if k =? k' then Some v else PyDict.get d k'.
Proof.
  induction d as [|[k0 v0] d IH]; simpl.
  - reflexivity.
  - destruct (String.eqb_spec k0 k) as [->|Hne]; simpl.
    + destruct (k =? k'); reflexivity.
    + rewrite IH. destruct (String.eqb_spec k0 k') as [->|Hne'].
      * apply String.eqb_neq in Hne. rewrite String.eqb_sym, Hne. reflexivity.
      * reflexivity.
Qed.

Lemma get_set_same d k v : PyDict.get (PyDict.set d k v) k = Some v.
Proof. rewrite get_set, String.eqb_refl. reflexivity. Qed.

Lemma get_set_other d k v k' :
  k <> k' -> PyDict.get (PyDict.set d k v) k' = PyDict.get d k'.
Proof. intros Hne. rewrite get_set. apply String.eqb_neq in Hne. now rewrite Hne. Qed.

Lemma get_remove_same d k : PyDict.get (PyDict.remove d k) k = None.
Proof.
  induction d as [|[k0 v0] d IH]; simpl; [reflexivity|].
  destruct (k0 =? k) eqn:E; simpl; [exact IH|].
  rewrite E. exact IH.
Qed.

Lemma keys_remove d k : ~ In k (PyDict.keys (PyDict.remove d k)).
Proof.
  unfold PyDict.keys, PyDict.remove. rewrite in_map_iff.
  intros [[k0 v0] [Hk Hin]]. apply filter_In in Hin as [_ Hf].
  simpl in *. subst k0. rewrite String.eqb_refl in Hf. discriminate.
Qed.

Lemma get_none_not_key d k : PyDict.get d k = None <-> ~ In k (PyDict.keys d).
Proof.
  induction d as [|[k0 v0] d IH]; simpl.
  - tauto.
  - destruct (String.eqb_spec k0 k) as [->|Hne].
    + split; [discriminate | intros H; exfalso; apply H; now left].
    + rewrite IH. tauto.
Qed.

Lemma get_some_in d k v : PyDict.get d k = Some v -> In (k, v) d.
Proof.
  induction d as [|[k0 v0] d IH]; simpl; [discriminate|].
  destruct (String.eqb_spec k0 k) as [->|Hne].
  - intros [= ->]. now left.
  - intros H. right. now apply IH.
Qed.

Lemma in_get_nodup d k v :
  NoDup (PyDict.keys d) -> In (k, v) d -> PyDict.get d k = Some v.
Proof.
  induction d as [|[k0 v0] d IH]; simpl; [tauto|].
  intros Hnd [Heq|Hin].
  - injection Heq as -> ->. now rewrite String.eqb_refl.
  - inversion Hnd as [|? ? Hnotin Hnd']; subst.
    destruct (String.eqb_spec k0 k) as [->|Hne].
    + exfalso. apply Hnotin. unfold PyDict.keys.
      change k with (fst (k, v)). now apply in_map.
    + now apply IH.
Qed.

Lemma keys_set d k v :
  PyDict.keys (PyDict.set d k v) =
  if PyDict.mem d k then PyDict.keys d else PyDict.keys d ++ [k].
Proof.
  unfold PyDict.mem.
  induction d as [|[k0 v0] d IH]; simpl; [reflexivity|].
  destruct (String.eqb_spec k0 k) as [->|Hne]; simpl; [reflexivity|].
  rewrite IH. destruct (PyDict.get d k); reflexivity.
Qed.

Lemma nodup_keys_set d k v :
  NoDup (PyDict.keys d) -> NoDup (PyDict.keys (PyDict.set d k v)).
Proof.
  intros Hnd. rewrite keys_set. unfold PyDict.mem.
  destruct (PyDict.get d k) eqn:E; [exact Hnd|].
  apply get_none_not_key in E.
  apply (Permutation_NoDup (Permutation_cons_append _ _)).
  now constructor.
Qed.

End Facts.
End PyDictFacts.

(** ** Facts about strings *)

Module PyStrFacts.

Lemma split_nonempty sep s : PyStr.split sep s <> [].
Proof.
  destruct s as [|c r]; simpl; [discriminate|].
  destruct (c =? sep)%char; [discriminate|].
  destruct (PyStr.split sep r); discriminate.
Qed.

(** Splitting a text with a separator in the middle. *)
Lemma split_app_sep sep a b :
  PyStr.split sep (a ++ String sep b) = PyStr.split sep a ++ PyStr.split sep b.
Proof.
  induction a as [|c r IH]; simpl.
  - now rewrite Ascii.eqb_refl.
  - destruct (c =? sep)%char.
    + now rewrite IH.
    + rewrite IH. pose proof (split_nonempty sep r) as Hne.
      destruct (PyStr.split sep r); [contradiction|reflexivity].
Qed.

Lemma split_no_sep sep p : PyStr.contains sep p = false -> PyStr.split sep p = [p].
Proof.
  induction p as [|c r IH]; simpl; [reflexivity|].
  destruct (c =? sep)%char; [discriminate|].
  intros H. now rewrite (IH H).
Qed.

Lemma split_pieces_no_sep sep s :
  Forall (fun p => PyStr.contains sep p = false) (PyStr.split sep s).
Proof.
  induction s as [|c r IH]; simpl.
  - now constructor.
  - destruct (c =? sep)%char eqn:E.
    + now constructor.
    + pose proof (split_nonempty sep r) as Hne.
      destruct (PyStr.split sep r); [contradiction|].
      inversion IH; subst. constructor; [|assumption].
      simpl. now rewrite E.
Qed.

End PyStrFacts.

(** ** Credential router *)

Lemma parse_token_pair_set tokens pair :
  parse_token_pair tokens pair = PyDict.set tokens (token_key pair) (token_value pair).
Proof.
  unfold parse_token_pair, token_key, token_value.
  destruct (PyStr.contains ":" pair); [|reflexivity].
  destruct (PyStr.split1 ":" pair); reflexivity.
Qed.

Lemma find_app_first {A} (f : A -> bool) l1 l2 :
  find f (l1 ++ l2) =
  match find f l1 with Some y => Some y | None => find f l2 end.
Proof.
  induction l1 as [|a l1 IH]; simpl; [reflexivity|].
  destruct (f a); [reflexivity|exact IH].
Qed.

Lemma find_none_forallb {A} (f : A -> bool) l :
  forallb (fun x => negb (f x)) l = true -> find f l = None.
Proof.
  induction l as [|a l IH]; simpl; [reflexivity|].
  destruct (f a); simpl; [discriminate|exact IH].
Qed.

Lemma forallb_rev {A} (f : A -> bool) l : forallb f (rev l) = forallb f l.
Proof.
  induction l as [|a l IH]; simpl; [reflexivity|].
  rewrite forallb_app, IH. simpl. rewrite andb_true_r. apply andb_comm.
Qed.

Lemma fold_parse_last_wins pairs : forall tokens k,
  PyDict.get (fold_left parse_token_pair pairs tokens) k =
  match last_written k pairs with
  | Some v => Some v
  | None => PyDict.get tokens k
  end.
Proof.
  unfold last_written.
  induction pairs as [|p pairs IH] using rev_ind; intros tokens k.
  - reflexivity.
  - rewrite fold_left_app, rev_app_distr. simpl.
    rewrite parse_token_pair_set, PyDictFacts.get_set.
    destruct (token_key p =? k); [reflexivity|].
    apply IH.
Qed.

Lemma parse_token_map_keys_nodup s : NoDup (PyDict.keys (parse_token_map s)).
Proof.
  unfold parse_token_map.
  assert (H : forall pairs tokens, NoDup (PyDict.keys tokens) ->
            NoDup (PyDict.keys (fold_left parse_token_pair pairs tokens))).
  { induction pairs as [|p pairs IH]; intros tokens Hnd; simpl; [exact Hnd|].
    apply IH. rewrite parse_token_pair_set. now apply PyDictFacts.nodup_keys_set. }
  apply H. constructor.
Qed.

Lemma last_written_after k before p after :
  last_written k (before ++ p :: after) =
  match last_written k after with
  | Some v => Some v
  | None => if token_key p =? k then Some (token_value p) else last_written k before
  end.
Proof.
  unfold last_written. rewrite rev_app_distr. simpl. rewrite <- app_assoc. simpl.
  rewrite find_app_first.
  destruct (find _ (rev after)); simpl; [reflexivity|].
  destruct (token_key p =? k); reflexivity.
Qed.

Lemma last_written_none_scoped pairs :
  forallb scoped_pair pairs = true -> last_written "_default" pairs = None.
Proof.
  intros H. unfold last_written. rewrite find_none_forallb; [reflexivity|].
  rewrite forallb_rev. rewrite forallb_forall in *. intros p Hp.
  specialize (H p Hp). unfold scoped_pair in H.
  now apply andb_prop in H as [_ H].
Qed.

Lemma parse_token_map_get s k :
  PyDict.get (parse_token_map s) k = last_written k (PyStr.split "," s).
Proof.
  unfold parse_token_map. rewrite fold_parse_last_wins.
  destruct (last_written k _); reflexivity.
Qed.

(** C6, as stated, fails: a specification made only of [owner:token] pairs
    can fill the default slot, when the owner is the sentinel name itself. *)
Lemma parse_token_map_default_slot_counterexample :
  ~ (forall token_str,
       forallb (PyStr.contains ":") (PyStr.split "," token_str) = true ->
       PyDict.get (parse_token_map token_str) "_default" = None).
Proof.
  intros H. specialize (H "_default:tok" eq_refl). discriminate H.
Qed.

(** C6 (amended).  For every token specification, the entry of the map
    under a key is the trimmed token of the last comma-separated piece filed
    under that key, where an [owner:token] piece is filed under the trimmed,
    lowercased owner and a bare token under ["_default"].  Hence the last
    bare token is the default when no later pair names the owner
    [_default], and the default slot is empty when every piece is a pair
    whose owner is not [_default]. *)
Theorem parse_token_map_last_write_wins (token_str : string) :
  let pairs := PyStr.split "," token_str in
  (forall k, PyDict.get (parse_token_map token_str) k = last_written k pairs)
  /\ (forall p, PyStr.contains ":" p = true ->
        token_key p = PyStr.lower (PyStr.strip (fst (PyStr.split1 ":" p)))
        /\ token_value p = PyStr.strip (snd (PyStr.split1 ":" p)))
  /\ (forall before bare after,
        pairs = before ++ bare :: after ->
        PyStr.contains ":" bare = false ->
        forallb scoped_pair after = true ->
        PyDict.get (parse_token_map token_str) "_default" = Some (PyStr.strip bare))
  /\ (forallb scoped_pair pairs = true ->
        PyDict.get (parse_token_map token_str) "_default" = None).
Proof.
  intros pairs. repeat split.
  - intros k. apply parse_token_map_get.
  - unfold token_key. now rewrite H.
  - unfold token_value. now rewrite H.
  - intros before bare after Hsplit Hbare Hafter.
    rewrite parse_token_map_get. fold pairs. rewrite Hsplit, last_written_after.
    rewrite (last_written_none_scoped _ Hafter).
    unfold token_key, token_value. rewrite Hbare. reflexivity.
  - intros Hall. rewrite parse_token_map_get. fold pairs.
    now apply last_written_none_scoped.
Qed.

Lemma parse_token_map_last_write_wins_witness :
  PyStr.split "," "acme: t1,first,Corp :t2, second ,ACME:t3"
    = ["acme: t1"; "first"; "Corp :t2"] ++ " second " :: ["ACME:t3"]
  /\ PyStr.contains ":" " second " = false
  /\ forallb scoped_pair ["ACME:t3"] = true
  /\ PyDict.get (parse_token_map "acme: t1,first,Corp :t2, second ,ACME:t3") "_default"
     = Some "second"
  /\ PyDict.get (parse_token_map "acme: t1,first,Corp :t2, second ,ACME:t3") "acme"
     = Some "t3"
  /\ (forallb scoped_pair (PyStr.split "," "acme:t1,corp:t2") = true
      /\ PyDict.get (parse_token_map "acme:t1,corp:t2") "_default" = None).
Proof.
  destruct (parse_token_map_last_write_wins "acme: t1,first,Corp :t2, second ,ACME:t3")
    as (Hget & _ & Hbare & _).
  destruct (parse_token_map_last_write_wins "acme:t1,corp:t2") as (_ & _ & _ & Hnone).
  split; [reflexivity|]. split; [reflexivity|]. split; [reflexivity|].
  split; [|split; [|split; [reflexivity|]]].
  - exact (Hbare ["acme: t1"; "first"; "Corp :t2"] " second " ["ACME:t3"]
             eq_refl eq_refl eq_refl).
  - rewrite Hget. reflexivity.
  - exact (Hnone eq_refl).
Defined.

Section Router.
Context {host : Host} {github : GitHub}.

Lemma initialize_owner_apis_get_other ssl_verify k entries : forall apis,
  ~ In k (map fst entries) ->
  PyDict.get (fold_left (initialize_owner_api ssl_verify) entries apis) k
  = PyDict.get apis k.
Proof.
  induction entries as [|[owner tok] entries IH]; intros apis Hk; simpl.
  - reflexivity.
  - simpl in Hk. rewrite IH by tauto.
    unfold initialize_owner_api.
    destruct (PyDict.mem apis owner); [reflexivity|].
    destruct (GitHubAPI_init (Some tok) ssl_verify) as [api|]; [|reflexivity].
    destruct (get_user_login api); [|reflexivity].
    apply PyDictFacts.get_set_other. tauto.
Qed.

Lemma initialize_default_api_table default_token ssl_verify default_api by_login :
  initialize_default_api default_token ssl_verify = Some (default_api, by_login) ->
  PyDict.get by_login "_default" = None \/ PyDict.get by_login "_default" = default_api.
Proof.
  unfold initialize_default_api.
  destruct default_token as [tok|]; [|intros [= <- <-]; now left].
  destruct (PyStr.truthy tok); [|intros [= <- <-]; now left].
  destruct (GitHubAPI_init (Some tok) ssl_verify) as [api|]; [|discriminate].
  destruct (get_user_login api) as [login|]; [|discriminate].
  intros [= <- <-]. simpl.
  destruct (PyStr.lower login =? "_default"); [now right|now left].
Qed.

(** The [_default] slot of the client table is the client of the default
    token, and nothing else. *)
Lemma initialize_apis_default_slot token_map ssl_verify apis :
  initialize_apis token_map ssl_verify = Some apis ->
  exists default_api by_login,
    initialize_default_api (PyDict.get token_map "_default") ssl_verify
      = Some (default_api, by_login)
    /\ PyDict.get apis "_default" = default_api.
Proof.
  unfold initialize_apis, PyDict.pop.
  destruct (initialize_default_api _ ssl_verify) as [[default_api by_login]|] eqn:E;
    [|discriminate].
  intros H. exists default_api, by_login. split; [reflexivity|].
  pose proof (initialize_default_api_table _ _ _ _ E) as Hslot.
  pose proof (initialize_owner_apis_get_other ssl_verify "_default"
                (PyDict.items (PyDict.remove token_map "_default")) by_login
                (PyDictFacts.keys_remove token_map "_default")) as Hkeep.
  set (apis' := fold_left _ _ by_login) in *.
  destruct default_api as [api|].
  - unfold PyDict.mem in H. destruct (PyDict.get apis' "_default") as [x|] eqn:G;
      simpl in H; injection H as <-.
    + rewrite G. rewrite Hkeep in G. destruct Hslot as [Hs|Hs]; congruence.
    + apply PyDictFacts.get_set_same.
  - injection H as <-. rewrite Hkeep.
    destruct Hslot as [Hs|Hs]; exact Hs.
Qed.

(** C10.  A pair whose owner is literally [_default] is filed by
    [parse_token_map] under the key of the bare tokens; among the pieces
    filed there the last one wins, whichever kind it is; and
    [initialize_apis] takes the entry out as the default token before its
    loop over the owners, so that the [_default] slot of the client table
    only ever holds the client of the default token. *)
Theorem default_owner_pair_is_default_token
    (token_str : string) (before after : list string) (tok : string) :
  PyStr.split "," token_str = before ++ ("_default:" ++ tok)%string :: after ->
  (forall tokens,
      parse_token_pair tokens ("_default:" ++ tok)%string
      = PyDict.set tokens "_default" (PyStr.strip tok)
      /\ forall bare, PyStr.contains ":" bare = false ->
           parse_token_pair tokens bare = PyDict.set tokens "_default" (PyStr.strip bare))
  /\ PyDict.get (parse_token_map token_str) "_default"
     = match last_written "_default" after with
       | Some later => Some later
       | None => Some (PyStr.strip tok)
       end
  /\ forall ssl_verify apis,
       initialize_apis (parse_token_map token_str) ssl_verify = Some apis ->
       ~ In "_default"
           (PyDict.keys (snd (PyDict.pop (parse_token_map token_str) "_default")))
       /\ exists default_api by_login,
            initialize_default_api
              (PyDict.get (parse_token_map token_str) "_default") ssl_verify
            = Some (default_api, by_login)
            /\ PyDict.get apis "_default" = default_api.
Proof.
  intros Hsplit. split; [|split].
  - intros tokens. split; [reflexivity|].
    intros bare Hbare. unfold parse_token_pair. now rewrite Hbare.
  - rewrite parse_token_map_get, Hsplit, last_written_after.
    destruct (last_written "_default" after); reflexivity.
  - intros ssl_verify apis Hinit. split.
    + apply PyDictFacts.keys_remove.
    + now apply initialize_apis_default_slot.
Qed.

End Router.

Lemma default_owner_pair_is_default_token_witness :
  PyStr.split "," "first,_default:tok,acme:t-acme"
    = ["first"] ++ ("_default:" ++ "tok")%string :: ["acme:t-acme"]
  /\ PyDict.get (parse_token_map "first,_default:tok,acme:t-acme") "_default"
     = Some "tok"
  /\ option_map (fun apis => PyDict.get apis "_default")
       (@initialize_apis Sample.host Sample.github
          (parse_token_map "first,_default:tok,acme:t-acme") VerifyOn)
     = Some (Some (Sample.api "tok")).
Proof.
  pose proof (@default_owner_pair_is_default_token Sample.host Sample.github
                "first,_default:tok,acme:t-acme" ["first"] ["acme:t-acme"] "tok" eq_refl)
    as (_ & Hget & Hinit).
  split; [reflexivity|]. split; [exact Hget|].
  destruct (@initialize_apis Sample.host Sample.github
              (parse_token_map "first,_default:tok,acme:t-acme") VerifyOn)
    as [apis|] eqn:E; [|discriminate E].
  destruct (Hinit VerifyOn apis E) as (_ & default_api & by_login & Hdef & Hslot).
  simpl. rewrite Hslot. vm_compute in Hdef. injection Hdef as <- _. reflexivity.
Defined.

(** ** Remote API client *)

Lemma filter_map_record {A B} (f : B -> bool) (g : A -> B) l :
  filter f (map g l) = map g (filter (fun x => f (g x)) l).
Proof.
  induction l as [|a l IH]; simpl; [reflexivity|].
  destruct (f (g a)); simpl; now rewrite IH.
Qed.

Lemma filter_comm {A} (f g : A -> bool) l :
  filter f (filter g l) = filter g (filter f l).
Proof.
  induction l as [|a l IH]; simpl; [reflexivity|].
  destruct (f a) eqn:F, (g a) eqn:G; simpl; rewrite ?F, ?G, IH; reflexivity.
Qed.

Lemma in_map_record name c l :
  In (Build_CommitRecord name c) (map (Build_CommitRecord name) l) <-> In c l.
Proof.
  rewrite in_map_iff. split.
  - intros [x [Hx Hin]]. now injection Hx as <-.
  - intros H. now exists c.
Qed.

Section ClientFacts.
Context {github : GitHub}.

(** What [fetch_repo_commit_records] returns, filter by filter. *)
Lemma fetch_repo_commit_records_spec api repo username since include exclude :
  fetch_repo_commit_records api repo username since include exclude
  = match get_commits repo username since with
    | None => []
    | Some commits =>
        map (Build_CommitRecord (Repository.full_name repo))
          (filter (fun c => (include || is_not_merge c)
                            && (negb exclude || not_committed_by_GitHub c))
             commits)
    end.
Proof.
  unfold fetch_repo_commit_records.
  destruct (get_commits repo username since) as [commits|]; [|reflexivity].
  f_equal. destruct include, exclude; simpl.
  - induction commits as [|c l IH]; simpl; [reflexivity|].
    destruct (not_committed_by_GitHub c); simpl; now rewrite IH.
  - induction commits as [|c l IH]; simpl; [reflexivity|]. now rewrite IH at 1.
  - induction commits as [|c l IH]; simpl; [reflexivity|].
    destruct (is_not_merge c); simpl; [|exact IH].
    destruct (not_committed_by_GitHub c); simpl; now rewrite IH.
  - induction commits as [|c l IH]; simpl; [reflexivity|].
    destruct (is_not_merge c); simpl; rewrite ?andb_true_r; simpl; now rewrite IH.
Qed.

(** C8.  With everything else equal, the listing without merge commits is
    the listing with merge commits restricted to the commits that have at
    most one parent; a commit with two parents is absent from the former,
    and present in the latter as soon as the remote listing has it and the
    other filter lets it through. *)
Theorem merge_commit_filtering api repo username since exclude :
  fetch_repo_commit_records api repo username since false exclude
  = filter (fun r => is_not_merge (commit r))
      (fetch_repo_commit_records api repo username since true exclude)
  /\ forall c,
       List.length (Commit.parents c) = 2%nat ->
       ~ In (Build_CommitRecord (Repository.full_name repo) c)
           (fetch_repo_commit_records api repo username since false exclude)
       /\ (In (Build_CommitRecord (Repository.full_name repo) c)
             (fetch_repo_commit_records api repo username since true exclude)
           <-> exists commits,
                 get_commits repo username since = Some commits
                 /\ In c commits
                 /\ (exclude = true -> not_committed_by_GitHub c = true)).
Proof.
  rewrite !fetch_repo_commit_records_spec.
  destruct (get_commits repo username since) as [commits|].
  - split.
    + rewrite filter_map_record. simpl. f_equal.
      induction commits as [|c l IH]; simpl; [reflexivity|].
      destruct (is_not_merge c) eqn:M; simpl.
      * destruct (negb exclude || not_committed_by_GitHub c); simpl;
          rewrite ?M; now rewrite IH.
      * destruct (negb exclude || not_committed_by_GitHub c); simpl;
          rewrite ?M; exact IH.
    + intros c Hc. rewrite !in_map_record, !filter_In.
      assert (M : is_not_merge c = false) by (unfold is_not_merge; now rewrite Hc).
      rewrite M. simpl. split.
      * intros [_ H]. discriminate.
      * split.
        -- intros [Hin Hex]. exists commits. repeat split; [assumption|].
           intros ->. exact Hex.
        -- intros (commits' & [= <-] & Hin & Hex). split; [assumption|].
           destruct exclude; simpl; [now apply Hex|reflexivity].
  - split; [reflexivity|]. intros c Hc. split; [now intros []|].
    split; [now intros []|]. intros (commits & Hget & _). discriminate.
Qed.

Lemma scan_pull_step username since acc pr :
  scan_pull username since acc pr
  = if updated_since since pr
    then if pr_by username pr then Next (acc ++ [pr]) else Next acc
    else Break acc.
Proof.
  unfold scan_pull, updated_since, pr_by.
  destruct (PullRequest.updated_at pr) as [t|]; [|reflexivity].
  rewrite Z.ltb_antisym. destruct (since <=? t)%Z; reflexivity.
Qed.

Lemma for_loop_scan_pull username since feed : forall acc,
  for_loop (scan_pull username since) feed acc
  = (acc ++ filter (pr_by username) (take_while (updated_since since) feed),
     Nat.min (List.length feed)
       (S (List.length (take_while (updated_since since) feed)))).
Proof.
  induction feed as [|pr rest IH]; intros acc.
  - simpl. now rewrite app_nil_r.
  - cbn [for_loop take_while]. rewrite scan_pull_step.
    destruct (updated_since since pr).
    + cbn [filter]. destruct (pr_by username pr); rewrite IH; cbn [List.length].
      * rewrite <- app_assoc. reflexivity.
      * reflexivity.
    + simpl. now rewrite app_nil_r, Nat.min_0_r.
Qed.

Lemma fetch_user_pull_requests_fold username since repos : forall acc,
  fold_left
    (fun all_pull_requests repo =>
       fst (for_loop (scan_pull username since) (get_pulls repo) all_pull_requests))
    repos acc
  = acc ++ flat_map
             (fun repo =>
                filter (pr_by username)
                  (take_while (updated_since since) (get_pulls repo)))
             repos.
Proof.
  induction repos as [|repo repos IH]; intros acc; simpl.
  - now rewrite app_nil_r.
  - rewrite IH, for_loop_scan_pull. simpl. now rewrite <- app_assoc.
Qed.

Lemma scan_repos_counting_fold username since repos : forall st,
  fold_left
    (fun (st : list PullRequest.t * list nat) repo =>
       let (all_pull_requests, taken) :=
         for_loop (scan_pull username since) (get_pulls repo) (fst st) in
       (all_pull_requests, snd st ++ [taken]))
    repos st
  = (fst st ++ flat_map
                 (fun repo =>
                    filter (pr_by username)
                      (take_while (updated_since since) (get_pulls repo)))
                 repos,
     snd st ++ map
                 (fun repo =>
                    Nat.min (List.length (get_pulls repo))
                      (S (List.length
                            (take_while (updated_since since) (get_pulls repo)))))
                 repos).
Proof.
  induction repos as [|repo repos IH]; intros [acc counts]; simpl.
  - now rewrite !app_nil_r.
  - rewrite for_loop_scan_pull, IH. simpl. now rewrite <- !app_assoc.
Qed.

Lemma take_while_prefix {A} (f : A -> bool) l x r :
  forallb f l = true -> f x = false -> take_while f (l ++ x :: r) = l.
Proof.
  induction l as [|a l IH]; simpl; intros Hl Hx.
  - now rewrite Hx.
  - apply andb_prop in Hl as [Ha Hl]. rewrite Ha. now rewrite IH.
Qed.

(** C5.  From each repository's feed the scan returns the pull requests of
    [username] found in the longest prefix of entries updated at [since] or
    later.  It takes from the feed that prefix and, if the feed goes on, the
    one entry that ends it; whatever follows is neither read nor returned. *)
Theorem pull_request_scan_stops_at_first_stale api repos username since :
  fetch_user_pull_requests_in_repos api repos username since
  = flat_map
      (fun repo =>
         filter (pr_by username) (take_while (updated_since since) (get_pulls repo)))
      repos
  /\ fst (scan_repos_counting repos username since)
     = fetch_user_pull_requests_in_repos api repos username since
  /\ pull_requests_consumed repos username since
     = map (fun repo =>
              Nat.min (List.length (get_pulls repo))
                (S (List.length (take_while (updated_since since) (get_pulls repo)))))
         repos
  /\ forall repo fresh stale rest,
       get_pulls repo = fresh ++ stale :: rest ->
       forallb (updated_since since) fresh = true ->
       updated_since since stale = false ->
       fetch_user_pull_requests_in_repos api [repo] username since
       = filter (pr_by username) fresh
       /\ pull_requests_consumed [repo] username since = [S (List.length fresh)].
Proof.
  split; [|split; [|split]].
  - unfold fetch_user_pull_requests_in_repos.
    now rewrite fetch_user_pull_requests_fold.
  - unfold scan_repos_counting, fetch_user_pull_requests_in_repos.
    now rewrite scan_repos_counting_fold, fetch_user_pull_requests_fold.
  - unfold pull_requests_consumed, scan_repos_counting.
    now rewrite scan_repos_counting_fold.
  - intros repo fresh stale rest Hfeed Hfresh Hstale.
    unfold fetch_user_pull_requests_in_repos, pull_requests_consumed,
      scan_repos_counting.
    rewrite fetch_user_pull_requests_fold, scan_repos_counting_fold. simpl.
    rewrite Hfeed, take_while_prefix by assumption.
    rewrite app_nil_r. split; [reflexivity|]. f_equal.
    rewrite length_app. simpl. lia.
Qed.

(** On a feed that is ordered latest first, stopping early loses nothing:
    the prefix scanned holds every pull request updated at [since] or later. *)
Lemma take_while_descending since feed :
  descending feed ->
  take_while (updated_since since) feed = filter (updated_since since) feed.
Proof.
  intros [Hsorted Hstamped].
  induction Hsorted as [|pr rest Hrest IH Hhd]; simpl; [reflexivity|].
  inversion Hstamped as [|? ? Hpr Hstamped']; subst.
  destruct (updated_since since pr) eqn:E; [now rewrite IH|].
  assert (Hall : Forall (fun x => updated_since since x = false) rest).
  { eapply Forall_impl; [|exact Hhd]. intros x Hx.
    unfold updated_since, later_or_same in *.
    destruct (PullRequest.updated_at pr) as [tp|]; [|contradiction].
    destruct (PullRequest.updated_at x) as [tx|]; [|reflexivity].
    apply Z.leb_gt in E. apply Z.leb_gt. lia. }
  clear - Hall. induction Hall as [|x rest Hx _ IHall]; simpl; [reflexivity|].
  now rewrite Hx.
Qed.

Lemma early_exit_exact_on_descending_feed username since repos :
  Forall (fun repo => descending (get_pulls repo)) repos ->
  forall api,
    fetch_user_pull_requests_in_repos api repos username since
    = flat_map
        (fun repo =>
           filter (fun pr => updated_since since pr && pr_by username pr)
             (get_pulls repo))
        repos.
Proof.
  intros Hdesc api. unfold fetch_user_pull_requests_in_repos.
  rewrite fetch_user_pull_requests_fold. simpl.
  induction Hdesc as [|repo repos Hrepo _ IH]; simpl; [reflexivity|].
  rewrite IH, (take_while_descending _ _ Hrepo). f_equal. clear Hrepo.
  induction (get_pulls repo) as [|pr feed IHfeed]; simpl; [reflexivity|].
  destruct (updated_since since pr); simpl; [|exact IHfeed].
  destruct (pr_by username pr); now rewrite IHfeed.
Qed.

Lemma pr_commit_records_fold name username since commits : forall acc,
  fold_left
    (fun user_commit_records c =>
       match Commit.author c with
       | Some a =>
           if NamedUser.login a =? username then
             if (since <=? GitAuthor.date (GitCommit.author (Commit.commit c)))%Z then
               if (1 <? List.length (Commit.parents c))%nat then user_commit_records
               else user_commit_records ++ [Build_CommitRecord name c]
             else user_commit_records
           else user_commit_records
       | None => user_commit_records
       end)
    commits acc
  = acc ++ map (Build_CommitRecord name)
             (filter
                (fun c => authored_by username c
                          && (since <=? author_date c)%Z
                          && is_not_merge c)
                commits).
Proof.
  induction commits as [|c l IH]; intros acc; simpl.
  - now rewrite app_nil_r.
  - rewrite IH. unfold authored_by at 2, author_date at 2, is_not_merge at 2.
    destruct (Commit.author c) as [a|]; simpl; [|reflexivity].
    destruct (NamedUser.login a =? username); simpl; [|reflexivity].
    destruct (since <=? _)%Z; simpl; [|reflexivity].
    rewrite Nat.ltb_antisym.
    destruct (List.length (Commit.parents c) <=? 1)%nat; simpl;
      [now rewrite <- app_assoc|reflexivity].
Qed.

(** C2 (amended).  [fetch_user_commit_records_in_pr_after_date] returns, in
    the order of the pull request's commit list, exactly the commits whose
    author has a GitHub account with login [username], whose author-date is
    [since] or later and which have at most one parent, each tagged with the
    full name of the base repository of the pull request. *)
Theorem pr_commit_records_filter_on_author api pr username since :
  fetch_user_commit_records_in_pr_after_date api pr username since
  = map (Build_CommitRecord (Repository.full_name (PullRequest.base_repo pr)))
      (filter
         (fun c => authored_by username c
                   && (since <=? author_date c)%Z
                   && is_not_merge c)
         (pr_get_commits pr)).
Proof.
  unfold fetch_user_commit_records_in_pr_after_date.
  now rewrite pr_commit_records_fold.
Qed.

End ClientFacts.

Lemma merge_commit_filtering_witness :
  List.length (Commit.parents Sample.c_merge) = 2%nat
  /\ ~ In (Build_CommitRecord "acme/tool" Sample.c_merge)
         (@fetch_repo_commit_records Sample.github (Sample.api "tok")
            Sample.acme_tool "alice" 0%Z false false)
  /\ In (Build_CommitRecord "acme/tool" Sample.c_merge)
       (@fetch_repo_commit_records Sample.github (Sample.api "tok")
          Sample.acme_tool "alice" 0%Z true false).
Proof.
  destruct (@merge_commit_filtering Sample.github (Sample.api "tok")
              Sample.acme_tool "alice" 0%Z false) as [_ H].
  destruct (H Sample.c_merge eq_refl) as [Hout Hin].
  split; [reflexivity|]. split; [exact Hout|].
  apply Hin. eexists. split; [reflexivity|]. split; [|discriminate].
  simpl. tauto.
Defined.

Lemma pull_request_scan_stops_at_first_stale_witness :
  @get_pulls Sample.github Sample.acme_tool
    = [Sample.pr9; Sample.pr8; Sample.pr7] ++ Sample.pr6 :: [Sample.pr5]
  /\ forallb (updated_since 15%Z) [Sample.pr9; Sample.pr8; Sample.pr7] = true
  /\ updated_since 15%Z Sample.pr6 = false
  /\ @fetch_user_pull_requests_in_repos Sample.github (Sample.api "tok")
       [Sample.acme_tool] "alice" 15%Z
     = [Sample.pr9; Sample.pr7]
  /\ @pull_requests_consumed Sample.github [Sample.acme_tool] "alice" 15%Z = [4%nat].
Proof.
  destruct (@pull_request_scan_stops_at_first_stale Sample.github (Sample.api "tok")
              [Sample.acme_tool] "alice" 15%Z) as (_ & _ & _ & H).
  destruct (H Sample.acme_tool [Sample.pr9; Sample.pr8; Sample.pr7] Sample.pr6
              [Sample.pr5] eq_refl eq_refl eq_refl) as [Hres Hcount].
  split; [reflexivity|]. split; [reflexivity|]. split; [reflexivity|].
  split; [exact Hres|exact Hcount].
Defined.

(** C2, as stated, fails: the listing compares the login of the commit's
    author, not of its committer.  In the sample pull request, [b2] was
    written by alice and committed by bob, [b3] the other way round. *)
Lemma pr_commit_records_committer_counterexample :
  map (fun r => Commit.sha (commit r))
    (@fetch_user_commit_records_in_pr_after_date Sample.github (Sample.api "tok")
       Sample.pr9 "alice" 0%Z)
  = ["a1"; "b2"]
  /\ map (fun r => Commit.sha (commit r))
       (@spec_ListUserCommitsInPR Sample.github Sample.pr9 "alice" 0%Z)
     = ["a1"; "b3"]
  /\ @fetch_user_commit_records_in_pr_after_date Sample.github (Sample.api "tok")
       Sample.pr9 "alice" 0%Z
     <> @spec_ListUserCommitsInPR Sample.github Sample.pr9 "alice" 0%Z.
Proof.
  split; [reflexivity|]. split; [reflexivity|].
  intros H. apply (f_equal (map (fun r => Commit.sha (commit r)))) in H.
  vm_compute in H. discriminate H.
Qed.

(** ** Contribution aggregator *)

Lemma forall_set_entry (P : string * CommitRecord -> Prop) d k r :
  Forall P d -> P (k, r) -> (forall r0, P (k, r0) -> P (k, r)) ->
  Forall P (PyDict.set d k r).
Proof.
  intros Hd Hk _. induction d as [|[k0 r0] d IH]; simpl.
  - now constructor.
  - inversion Hd; subst.
    destruct (String.eqb_spec k0 k) as [->|Hne]; constructor; auto.
Qed.

Lemma add_unique_keyed d r : keyed_by_sha d -> keyed_by_sha (add_unique d r).
Proof.
  intros [Hnd Hk]. unfold add_unique.
  destruct (negb _); [|now split].
  split.
  - now apply PyDictFacts.nodup_keys_set.
  - apply forall_set_entry; auto.
Qed.

Lemma fold_add_unique_keyed l : forall d,
  keyed_by_sha d -> keyed_by_sha (fold_left add_unique l d).
Proof.
  induction l as [|r l IH]; intros d Hd; simpl; [exact Hd|].
  apply IH. now apply add_unique_keyed.
Qed.

Lemma fold_add_unique_get l : forall d k,
  PyDict.get (fold_left add_unique l d) k
  = match PyDict.get d k with
    | Some r => Some r
    | None => first_with_sha k l
    end.
Proof.
  unfold first_with_sha.
  induction l as [|r l IH]; intros d k; simpl.
  - destruct (PyDict.get d k); reflexivity.
  - rewrite IH. unfold add_unique, PyDict.mem. fold (sha_of r).
    destruct (PyDict.get d (sha_of r)) as [r0|] eqn:G; simpl.
    + destruct (String.eqb_spec (sha_of r) k) as [<-|Hne]; [now rewrite G|].
      reflexivity.
    + rewrite PyDictFacts.get_set.
      destruct (String.eqb_spec (sha_of r) k) as [<-|Hne]; [now rewrite G|].
      reflexivity.
Qed.

Lemma keyed_values_in d r :
  keyed_by_sha d -> (In r (PyDict.values d) <-> PyDict.get d (sha_of r) = Some r).
Proof.
  intros [Hnd Hk]. unfold PyDict.values. split.
  - intros Hin. apply in_map_iff in Hin as [[k r0] [Heq Hin]]. simpl in Heq. subst r0.
    rewrite Forall_forall in Hk. pose proof (Hk _ Hin) as Hkey. simpl in Hkey.
    subst k. now apply PyDictFacts.in_get_nodup.
  - intros Hget. apply PyDictFacts.get_some_in in Hget.
    apply in_map_iff. now exists (sha_of r, r).
Qed.

Lemma keyed_values_shas d :
  keyed_by_sha d -> map sha_of (PyDict.values d) = PyDict.keys d.
Proof.
  intros [_ Hk]. unfold PyDict.values, PyDict.keys. rewrite map_map.
  apply map_ext_in. intros e He. rewrite Forall_forall in Hk. symmetry. now apply Hk.
Qed.

Lemma first_with_sha_exists r l :
  In r l -> exists kept, first_with_sha (sha_of r) l = Some kept /\ sha_of kept = sha_of r.
Proof.
  intros Hin. unfold first_with_sha.
  destruct (find _ l) as [kept|] eqn:F.
  - exists kept. split; [reflexivity|]. apply find_some in F as [_ F].
    now apply String.eqb_eq in F.
  - pose proof (find_none _ _ F r Hin) as H. simpl in H.
    now rewrite String.eqb_refl in H.
Qed.

(** The deduplication step on its own: first record of each SHA, direct
    list first. *)
Lemma deduplicate_first_wins (direct from_prs : list CommitRecord) :
  let merged := deduplicate direct from_prs in
  NoDup (map sha_of merged)
  /\ (forall r, In r merged <-> first_with_sha (sha_of r) (direct ++ from_prs) = Some r)
  /\ (forall r, first_with_sha (sha_of r) direct = Some r -> In r merged)
  /\ (forall r, In r (direct ++ from_prs) ->
        exists kept, In kept merged /\ sha_of kept = sha_of r).
Proof.
  unfold deduplicate.
  assert (Hkeyed : keyed_by_sha (fold_left add_unique (direct ++ from_prs) PyDict.empty)).
  { apply fold_add_unique_keyed. split; constructor. }
  assert (Hin : forall r,
             In r (PyDict.values (fold_left add_unique (direct ++ from_prs) PyDict.empty))
             <-> first_with_sha (sha_of r) (direct ++ from_prs) = Some r).
  { intros r. rewrite (keyed_values_in _ _ Hkeyed), fold_add_unique_get. reflexivity. }
  cbv zeta. split; [|split; [|split]].
  - rewrite (keyed_values_shas _ Hkeyed). apply Hkeyed.
  - exact Hin.
  - intros r Hr. apply Hin. unfold first_with_sha in *.
    now rewrite find_app_first, Hr.
  - intros r Hr. destruct (first_with_sha_exists r _ Hr) as (kept & Hk & Hsha).
    exists kept. split; [|exact Hsha]. apply Hin. now rewrite Hsha.
Qed.

Section AggregatorFacts.
Context {github : GitHub}.

(** The value returned is the deduplication of the two streams. *)
Lemma process_commits_and_prs_merges repos apis username since fetch_pr include :
  process_commits_and_prs repos apis username since fetch_pr include
  = option_map (fun streams => deduplicate (fst streams) (snd streams))
      (collect_commit_records repos apis username since fetch_pr include).
Proof.
  unfold process_commits_and_prs.
  destruct (collect_commit_records _ _ _ _ _ _) as [[direct from_prs]|]; reflexivity.
Qed.

(** The loop over the repositories: what it has accumulated when it ends
    without exiting. *)
Lemma process_repos_spec apis username since fetch_pr include api repos :
  forall st st',
    for_loop_exit (process_repo apis username since fetch_pr include) repos st = Some st' ->
    all_commit_records st'
    = all_commit_records st
      ++ flat_map
           (fun repo =>
              fetch_repo_commit_records api repo username since include fetch_pr)
           (unique_repos (processed_repo_names st) repos).
Proof.
  induction repos as [|repo repos IH]; intros st st' H; simpl in *.
  - injection H as <-. now rewrite app_nil_r.
  - unfold process_repo in H at 1.
    destruct (in_str_set (Repository.full_name repo) (processed_repo_names st)).
    + now apply IH.
    + destruct (get_api_for_repo apis repo) as [api_client|]; [|discriminate].
      apply IH in H. simpl in H. rewrite H. simpl. now rewrite <- app_assoc.
Qed.

(** C1.  Take any direct-commit list and any pull-request-commit list.
    Whenever the two loops of [process_commits_and_prs] end with these two
    lists, the function returns the list [merged], and in [merged] no two
    records carry the same SHA; a record is in it exactly when it is the
    first with its SHA in the direct list followed by the pull-request
    list; so a SHA present in the direct list is represented by its first
    direct record and by no other record, and every SHA of the two lists
    is represented. *)
Theorem process_commits_and_prs_keeps_first (direct from_prs : list CommitRecord) :
  let merged := deduplicate direct from_prs in
  (forall repos apis username since fetch_pr include,
      collect_commit_records repos apis username since fetch_pr include
        = Some (direct, from_prs) ->
      process_commits_and_prs repos apis username since fetch_pr include
        = Some merged)
  /\ NoDup (map sha_of merged)
  /\ (forall r, In r merged <-> first_with_sha (sha_of r) (direct ++ from_prs) = Some r)
  /\ (forall r, first_with_sha (sha_of r) direct = Some r -> In r merged)
  /\ (forall r, In r merged -> first_with_sha (sha_of r) direct <> None ->
        first_with_sha (sha_of r) direct = Some r)
  /\ (forall r, In r (direct ++ from_prs) ->
        exists kept, In kept merged /\ sha_of kept = sha_of r).
Proof.
  destruct (deduplicate_first_wins direct from_prs) as (Hnd & Hin & Hdirect & Hall).
  cbv zeta in *. split; [|split; [exact Hnd|split; [exact Hin|split; [exact Hdirect|split]]]].
  - intros repos apis username since fetch_pr include Hcollect.
    unfold process_commits_and_prs. now rewrite Hcollect.
  - intros r Hr Hsome. apply Hin in Hr. unfold first_with_sha in *.
    rewrite find_app_first in Hr.
    destruct (find _ direct) as [kept|]; [exact Hr|now contradiction Hsome].
  - exact Hall.
Qed.

(** C4 (amended).  The direct-commit stream that [process_commits_and_prs]
    merges with the pull-request stream is the concatenation, over the
    repositories taken once per full name, of [fetch_repo_commit_records]
    called with [exclude_pr_merge_commits] equal to the [fetch_pr_commits]
    flag.  With the flag set, no record of the stream was committed under
    the name [GitHub]; with the flag clear, every listed commit that passes
    the merge-commit filter (merge commits are included, or the commit has
    at most one parent) is in the stream, whoever committed it. *)
Theorem direct_stream_excludes_pr_merges_iff_fetching_prs
    repos apis username since fetch_pr include direct from_prs :
  collect_commit_records repos apis username since fetch_pr include
    = Some (direct, from_prs) ->
  process_commits_and_prs repos apis username since fetch_pr include
    = Some (deduplicate direct from_prs)
  /\ (forall api,
      direct
      = flat_map
          (fun repo =>
             fetch_repo_commit_records api repo username since include fetch_pr)
          (unique_repos [] repos))
  /\ (fetch_pr = true ->
      Forall (fun r => not_committed_by_GitHub (commit r) = true) direct)
  /\ (fetch_pr = false ->
      forall repo commits c,
        In repo (unique_repos [] repos) ->
        get_commits repo username since = Some commits ->
        In c commits ->
        include || is_not_merge c = true ->
        In (Build_CommitRecord (Repository.full_name repo) c) direct).
Proof.
  intros Hcollect.
  assert (Hdirect : forall api,
             direct
             = flat_map
                 (fun repo =>
                    fetch_repo_commit_records api repo username since include fetch_pr)
                 (unique_repos [] repos)).
  { intros api. unfold collect_commit_records in Hcollect.
    destruct (for_loop_exit (process_repo _ _ _ _ _) repos _) as [st|] eqn:E;
      [|discriminate].
    apply (process_repos_spec _ _ _ _ _ api) in E. simpl in E.
    destruct fetch_pr.
    - destruct (for_loop_exit (process_pr _ _ _) _ _); [|discriminate].
      injection Hcollect as <- _. exact E.
    - injection Hcollect as <- _. exact E. }
  split; [unfold process_commits_and_prs; now rewrite Hcollect|].
  split; [exact Hdirect|]. split.
  - intros ->. rewrite (Hdirect {| token := ""; verify := VerifyOn |}).
    apply Forall_forall. intros r Hr. apply in_flat_map in Hr as (repo & _ & Hr).
    rewrite fetch_repo_commit_records_spec in Hr.
    destruct (get_commits repo username since); [|contradiction].
    apply in_map_iff in Hr as (c & <- & Hc). apply filter_In in Hc as [_ Hc].
    simpl in *. now apply andb_prop in Hc as [_ Hc].
  - intros -> repo commits c Hrepo Hget Hc Hmerge.
    rewrite (Hdirect {| token := ""; verify := VerifyOn |}).
    apply in_flat_map. exists repo. split; [exact Hrepo|].
    rewrite fetch_repo_commit_records_spec, Hget. apply in_map_record.
    apply filter_In. split; [exact Hc|]. simpl. now rewrite Hmerge.
Qed.

End AggregatorFacts.

Lemma process_commits_and_prs_keeps_first_witness :
  @process_commits_and_prs Sample.github [Sample.acme_tool; Sample.acme_tool]
     Sample.acme_apis "alice" 0%Z true false
  = Some (map Sample.record [Sample.c_plain; Sample.c_rebased])
  /\ NoDup (map sha_of (map Sample.record [Sample.c_plain; Sample.c_rebased]))
  /\ In (Sample.record Sample.c_plain)
       (map Sample.record [Sample.c_plain; Sample.c_rebased]).
Proof.
  destruct (@process_commits_and_prs_keeps_first Sample.github
              (map Sample.record [Sample.c_plain; Sample.c_rebased])
              (map Sample.record [Sample.c_plain; Sample.c_rebased]))
    as (Hruns & Hnodup & _ & Hdirect & _).
  split; [|split].
  - exact (Hruns [Sample.acme_tool; Sample.acme_tool] Sample.acme_apis "alice" 0%Z
             true false eq_refl).
  - exact Hnodup.
  - exact (Hdirect (Sample.record Sample.c_plain) eq_refl).
Defined.

(** C4, as stated, fails: with pull-request commits not fetched, a commit
    made by the merge button (two parents, committed under the name
    [GitHub]) is listed by the remote service and still absent from the
    direct-commit stream, because merge commits are not included by
    default. *)
Lemma merge_button_commit_dropped_counterexample :
  @get_commits SampleMerged.github Sample.acme_tool "alice" 0%Z
  = Some [Sample.c_plain; SampleMerged.c_merge_button]
  /\ not_committed_by_GitHub SampleMerged.c_merge_button = false
  /\ @collect_commit_records SampleMerged.github [Sample.acme_tool]
       Sample.acme_apis "alice" 0%Z false false
     = Some ([Sample.record Sample.c_plain], [])
  /\ ~ In (Sample.record SampleMerged.c_merge_button) [Sample.record Sample.c_plain].
Proof.
  split; [reflexivity|]. split; [reflexivity|]. split; [reflexivity|].
  intros [H|[]]. discriminate H.
Qed.

Lemma direct_stream_excludes_pr_merges_iff_fetching_prs_witness :
  @collect_commit_records Sample.github [Sample.acme_tool; Sample.acme_tool]
     Sample.acme_apis "alice" 0%Z false false
  = Some (map Sample.record [Sample.c_plain; Sample.c_web; Sample.c_rebased], [])
  /\ In (Sample.record Sample.c_web)
       (map Sample.record [Sample.c_plain; Sample.c_web; Sample.c_rebased])
  /\ @collect_commit_records Sample.github [Sample.acme_tool; Sample.acme_tool]
       Sample.acme_apis "alice" 0%Z true false
     = Some (map Sample.record [Sample.c_plain; Sample.c_rebased],
             map Sample.record [Sample.c_plain; Sample.c_rebased])
  /\ Forall (fun r => not_committed_by_GitHub (commit r) = true)
       (map Sample.record [Sample.c_plain; Sample.c_rebased]).
Proof.
  pose proof (@direct_stream_excludes_pr_merges_iff_fetching_prs Sample.github
                [Sample.acme_tool; Sample.acme_tool] Sample.acme_apis "alice" 0%Z
                false false _ _ eq_refl) as (_ & _ & _ & Hkept).
  pose proof (@direct_stream_excludes_pr_merges_iff_fetching_prs Sample.github
                [Sample.acme_tool; Sample.acme_tool] Sample.acme_apis "alice" 0%Z
                true false _ _ eq_refl) as (_ & _ & Hdropped & _).
  split; [reflexivity|]. split; [|split; [reflexivity|]].
  - apply (Hkept eq_refl Sample.acme_tool
             [Sample.c_plain; Sample.c_merge; Sample.c_web; Sample.c_rebased]
             Sample.c_web).
    + simpl. tauto.
    + reflexivity.
    + simpl. tauto.
    + reflexivity.
  - exact (Hdropped eq_refl).
Defined.

(** ** Report renderer *)

Section InsertionSort.
Context {A : Type} (le : A -> A -> bool).
Hypothesis le_total : forall a b, le a b = true \/ le b a = true.

Lemma insert_by_perm x l : Permutation (insert_by le x l) (x :: l).
Proof.
  induction l as [|y r IH]; simpl; [reflexivity|].
  destruct (le x y); [reflexivity|].
  rewrite IH. apply perm_swap.
Qed.

Lemma insert_by_hd x y l :
  holds le y x -> HdRel (holds le) y l -> HdRel (holds le) y (insert_by le x l).
Proof.
  intros Hyx Hhd. destruct l as [|z r]; simpl.
  - now constructor.
  - destruct (le x z); constructor; [exact Hyx|now inversion Hhd].
Qed.

Lemma insert_by_sorted x l :
  Sorted (holds le) l -> Sorted (holds le) (insert_by le x l).
Proof.
  induction l as [|y r IH]; simpl; intros Hs.
  - repeat constructor.
  - destruct (le x y) eqn:E.
    + constructor; [exact Hs|]. now constructor.
    + inversion Hs; subst. constructor; [now apply IH|].
      apply insert_by_hd; [|assumption].
      destruct (le_total x y) as [H|H]; [congruence|exact H].
Qed.

Lemma fold_insert_by_sorted l : Sorted (holds le) (fold_right (insert_by le) [] l).
Proof.
  induction l as [|x l IH]; simpl; [constructor|now apply insert_by_sorted].
Qed.

Lemma fold_insert_by_perm l : Permutation (fold_right (insert_by le) [] l) l.
Proof.
  induction l as [|x l IH]; simpl; [reflexivity|].
  rewrite insert_by_perm. now constructor.
Qed.

End InsertionSort.

Lemma sort_by_date_insert_by l : sort_by_date l = fold_right (insert_by date_le) [] l.
Proof.
  unfold sort_by_date. induction l as [|c l IH]; simpl; [reflexivity|].
  rewrite IH. generalize (fold_right (insert_by date_le) [] l) as s.
  induction s as [|x s IHs]; simpl; [reflexivity|].
  unfold date_le at 1. destruct (author_date c <=? author_date x)%Z; [reflexivity|].
  now rewrite IHs.
Qed.

Lemma sorted_strs_insert_by l : sorted_strs l = fold_right (insert_by String.leb) [] l.
Proof.
  unfold sorted_strs. induction l as [|c l IH]; simpl; [reflexivity|].
  rewrite IH. generalize (fold_right (insert_by String.leb) [] l) as s.
  induction s as [|x s IHs]; simpl; [reflexivity|].
  destruct (c <=? x)%string; [reflexivity|]. now rewrite IHs.
Qed.

Lemma date_le_total a b : date_le a b = true \/ date_le b a = true.
Proof. unfold date_le. rewrite !Z.leb_le. lia. Qed.

(** Commits come out of the sort oldest first, none lost, none added. *)
Lemma sort_by_date_sorted l :
  Sorted (fun a b => (author_date a <= author_date b)%Z) (sort_by_date l)
  /\ Permutation (sort_by_date l) l.
Proof.
  rewrite sort_by_date_insert_by. split.
  - pose proof (fold_insert_by_sorted date_le date_le_total l) as H.
    induction H as [|x s Hs IH Hhd]; constructor; [exact IH|].
    destruct Hhd as [|y s' Hxy]; constructor.
    unfold holds, date_le in Hxy. now apply Z.leb_le.
  - apply fold_insert_by_perm.
Qed.

Lemma sorted_strs_sorted l :
  Sorted (holds String.leb) (sorted_strs l) /\ Permutation (sorted_strs l) l.
Proof.
  rewrite sorted_strs_insert_by. split.
  - apply fold_insert_by_sorted. apply String.leb_total.
  - apply fold_insert_by_perm.
Qed.

Lemma set_of_in x l : In x (set_of l) <-> In x l.
Proof.
  induction l as [|y l IH]; simpl; [tauto|].
  destruct (in_str_set y l) eqn:E; simpl; rewrite IH.
  - split; [tauto|]. intros [<-|H]; [|exact H].
    unfold in_str_set in E. apply existsb_exists in E as (z & Hz & Heq).
    apply String.eqb_eq in Heq. now subst.
  - tauto.
Qed.

(** The text and markdown reports walk the repositories in alphabetical
    order of their full names. *)
Lemma groups_sorted_by_name_order (d : PyDict.t (list Commit.t)) :
  map fst (groups_sorted_by_name d) = sorted_strs (set_of (PyDict.keys d))
  /\ Sorted (holds String.leb) (map fst (groups_sorted_by_name d)).
Proof.
  assert (H : map fst (groups_sorted_by_name d) = sorted_strs (set_of (PyDict.keys d))).
  { unfold groups_sorted_by_name.
    assert (Hkeys : forall k, In k (sorted_strs (set_of (PyDict.keys d))) ->
                              PyDict.get d k <> None).
    { intros k Hk Hnone. apply PyDictFacts.get_none_not_key in Hnone. apply Hnone.
      apply set_of_in. eapply Permutation_in; [apply sorted_strs_sorted|exact Hk]. }
    induction (sorted_strs (set_of (PyDict.keys d))) as [|k ks IH]; simpl;
      [reflexivity|].
    rewrite map_app, IH by (intros; apply Hkeys; now right).
    destruct (PyDict.get d k) eqn:G; [reflexivity|].
    exfalso. apply (Hkeys k); [now left|exact G]. }
  split; [exact H|]. rewrite H. apply sorted_strs_sorted.
Qed.

Lemma filed_under_append {A} (d : PyDict.t (list A)) k x k' :
  filed_under (defaultdict_append d k x) k'
  = if k =? k' then filed_under d k ++ [x] else filed_under d k'.
Proof.
  unfold defaultdict_append, filed_under.
  destruct (PyDict.get d k) as [l|] eqn:G; rewrite PyDictFacts.get_set;
    destruct (String.eqb_spec k k') as [<-|Hne]; reflexivity.
Qed.

Lemma fold_append_filed records : forall (d : PyDict.t (list Commit.t)) name,
  filed_under
    (fold_left
       (fun d record => defaultdict_append d (repo_full_name record) (commit record))
       records d) name
  = filed_under d name ++ commits_of name records.
Proof.
  unfold commits_of.
  induction records as [|r records IH]; intros d name; simpl.
  - now rewrite app_nil_r.
  - rewrite IH, filed_under_append.
    destruct (repo_full_name r =? name) eqn:E; simpl; [|reflexivity].
    apply String.eqb_eq in E. subst. now rewrite <- app_assoc.
Qed.

Lemma fold_append_keys_nodup records : forall (d : PyDict.t (list Commit.t)),
  NoDup (PyDict.keys d) ->
  NoDup (PyDict.keys
           (fold_left
              (fun d record =>
                 defaultdict_append d (repo_full_name record) (commit record))
              records d)).
Proof.
  induction records as [|r records IH]; intros d Hd; simpl; [exact Hd|].
  apply IH. unfold defaultdict_append.
  destruct (PyDict.get d (repo_full_name r)); now apply PyDictFacts.nodup_keys_set.
Qed.

(** In every report format, the commits of a group are those of its
    repository, oldest first. *)
Lemma group_commits_sorted_by_date records name commits :
  In (name, commits) (group_commits records) ->
  commits = sort_by_date (commits_of name records)
  /\ Sorted (fun a b => (author_date a <= author_date b)%Z) commits
  /\ Permutation commits (commits_of name records).
Proof.
  unfold group_commits. intros Hin.
  apply in_map_iff in Hin as ([k l] & Heq & Hin). simpl in Heq.
  injection Heq as -> <-.
  assert (Hl : l = commits_of name records).
  { pose proof (fold_append_filed records PyDict.empty name) as H.
    unfold filed_under at 1 in H.
    rewrite (PyDictFacts.in_get_nodup _ _ _
               (fold_append_keys_nodup records PyDict.empty (NoDup_nil _)) Hin) in H.
    exact H. }
  subst l. split; [reflexivity|]. apply sort_by_date_sorted.
Qed.

Lemma mem_in_keys {V} (d : PyDict.t V) k : PyDict.mem d k = in_str_set k (PyDict.keys d).
Proof.
  unfold PyDict.mem, in_str_set.
  induction d as [|[k0 v0] d IH]; simpl; [reflexivity|].
  rewrite (String.eqb_sym k k0). destruct (k0 =? k); [reflexivity|exact IH].
Qed.

Lemma fold_append_keys records : forall (d : PyDict.t (list Commit.t)),
  PyDict.keys
    (fold_left
       (fun d record => defaultdict_append d (repo_full_name record) (commit record))
       records d)
  = PyDict.keys d ++ first_seen (PyDict.keys d) (map repo_full_name records).
Proof.
  induction records as [|r records IH]; intros d; simpl.
  - now rewrite app_nil_r.
  - rewrite IH. rewrite <- mem_in_keys.
    assert (Hkeys : PyDict.keys
                      (defaultdict_append d (repo_full_name r) (commit r))
                    = if PyDict.mem d (repo_full_name r) then PyDict.keys d
                      else PyDict.keys d ++ [repo_full_name r]).
    { unfold defaultdict_append, PyDict.mem.
      destruct (PyDict.get d (repo_full_name r)) eqn:G;
        rewrite PyDictFacts.keys_set; unfold PyDict.mem; now rewrite G. }
    rewrite Hkeys. destruct (PyDict.mem d (repo_full_name r)); [reflexivity|].
    now rewrite <- app_assoc.
Qed.

(** The JSON report walks the repositories in the order in which the
    commit records first mention them. *)
Lemma json_groups_first_seen_order records :
  map fst (json_groups (group_commits records))
  = first_seen [] (map repo_full_name records).
Proof.
  unfold json_groups, groups_in_dict_order, PyDict.items, group_commits.
  rewrite map_map. simpl.
  change (map (fun x : string * list Commit.t => fst x) ?d) with (PyDict.keys d).
  now rewrite fold_append_keys.
Qed.

(** C3, at the input where it fails.  Given one commit in [zeta/lib]
    followed by one in [acme/tool], the text and markdown reports walk the
    repositories in alphabetical order, while the JSON report lists them in
    the order in which they were first met: [zeta/lib] before [acme/tool]. *)
Theorem json_report_keeps_first_seen_order :
  map fst (text_groups (group_commits unsorted_records)) = ["acme/tool"; "zeta/lib"]
  /\ map fst (markdown_groups (group_commits unsorted_records))
     = ["acme/tool"; "zeta/lib"]
  /\ map fst (json_groups (group_commits unsorted_records)) = ["zeta/lib"; "acme/tool"]
  /\ ("zeta/lib" <=? "acme/tool")%string = false
  /\ @generate_reports Sample.host (fst (ReportGenerator_init "out" (Some ["sha"])))
       unsorted_records None (Some ["json"])
     = [WriteFile "out/report.json"
          [Dumps
             (JArr
                [JObj
                   [("name", JStr "zeta/lib"); ("description", JStr "");
                    ("commits", JArr [JObj [("sha", JStr "w1")]])];
                 JObj
                   [("name", JStr "acme/tool"); ("description", JStr "");
                    ("commits", JArr [JObj [("sha", JStr "a1")]])]])]].
Proof.
  split; [reflexivity|]. split; [reflexivity|]. split; [reflexivity|].
  split; reflexivity.
Qed.

(** ** Diff archiver *)

(** The walk over the changed files, started with [n] files counted. *)
Lemma walk_from self files : forall n,
  (0 <= n <= limit_files self)%Z ->
  for_loop (count_file self) files (n, false)
  = if (n + Z.of_nat (List.length files) <=? limit_files self)%Z
    then ((n + Z.of_nat (List.length files), false)%Z, List.length files)
    else ((limit_files self + 1, true)%Z, Z.to_nat (limit_files self - n + 1)).
Proof.
  induction files as [|f files IH]; intros n Hn.
  - simpl. rewrite Z.add_0_r. destruct (Z.leb_spec n (limit_files self)); [reflexivity|lia].
  - cbn [for_loop]. unfold count_file at 1. cbn [fst snd].
    destruct (Z.ltb_spec (limit_files self) (n + 1)) as [Hover|Hfits].
    + assert (n = limit_files self) by lia. subst n.
      destruct (Z.leb_spec (limit_files self + Z.of_nat (List.length (f :: files)))
                  (limit_files self)) as [H|H].
      * simpl List.length in H. lia.
      * f_equal. replace (limit_files self - limit_files self + 1)%Z with 1%Z by lia.
        reflexivity.
    + rewrite IH by lia. simpl List.length. rewrite Nat2Z.inj_succ.
      replace (n + 1 + Z.of_nat (List.length files))%Z
        with (n + Z.succ (Z.of_nat (List.length files)))%Z by lia.
      destruct (_ <=? _)%Z; [reflexivity|].
      f_equal. replace (limit_files self - n + 1)%Z
        with (Z.succ (limit_files self - (n + 1) + 1)) by lia.
      rewrite Z2Nat.inj_succ by lia. reflexivity.
Qed.

(** The outcome of the walk: whether the ceiling was crossed, and how many
    files were taken from the list. *)
Lemma walk_files_spec self record :
  (0 <= limit_files self)%Z \/ Commit.files (commit record) <> [] ->
  snd (fst (walk_files self record))
  = negb (changed_files record <=? limit_files self)%Z
  /\ snd (walk_files self record)
     = Nat.min (List.length (Commit.files (commit record)))
         (S (Z.to_nat (limit_files self))).
Proof.
  intros Hdomain. unfold walk_files, changed_files.
  destruct (Z.le_gt_cases 0 (limit_files self)) as [Hlimit|Hneg].
  - rewrite walk_from by lia. rewrite Z.add_0_l, Z.sub_0_r.
    destruct (Z.leb_spec (Z.of_nat (List.length (Commit.files (commit record))))
                (limit_files self)); cbn [fst snd negb]; split; try reflexivity; lia.
  - destruct Hdomain as [Hlimit|Hfiles]; [lia|].
    destruct (Commit.files (commit record)) as [|f files]; [contradiction|].
    cbn [for_loop]. unfold count_file. cbn [fst snd].
    destruct (Z.ltb_spec (limit_files self) (0 + 1)); [|lia].
    cbn [fst snd]. split.
    + destruct (Z.leb_spec (Z.of_nat (List.length (f :: files))) (limit_files self));
        [|reflexivity]. simpl List.length in *. lia.
    + simpl List.length. destruct (limit_files self); try lia; reflexivity.
Qed.

(** C7, as stated, fails when the file ceiling is negative: an empty commit
    changes no file, which is more than a ceiling of -1, and its diff file
    is written all the same, since the walk never meets a file to count. *)
Lemma diff_negative_ceiling_counterexample :
  ~ (forall self record,
       PyStr.truthy (Commit.sha (commit record)) = true ->
       PyStr.truthy (repo_name_of record) = true ->
       (In (diff_file self record) (save_commit_diff self record)
        <-> (changed_lines record <= limit_lines_changed self)%Z
            /\ (changed_files record <= limit_files self)%Z)).
Proof.
  intros H.
  destruct (H Sample.diffs_negative (Sample.record Sample.c_empty) eq_refl eq_refl)
    as [Hwritten _].
  assert (Hin : In (diff_file Sample.diffs_negative (Sample.record Sample.c_empty))
                  (save_commit_diff Sample.diffs_negative (Sample.record Sample.c_empty)))
    by (left; reflexivity).
  apply Hwritten in Hin as [_ Hfiles]. vm_compute in Hfiles. now apply Hfiles.
Qed.

(** C7 (amended).  Unless the file ceiling is negative and the commit
    changes no file, for a commit record with a non-empty SHA and repository
    name [save_commit_diffs] writes the diff file of the commit, whole, if
    the changed-line count is at most the line ceiling and the number of
    changed files at most the file ceiling, and writes nothing for it
    otherwise.  The walk over the changed files takes at most one file more
    than the ceiling.  With a ceiling of 30 files, a commit with 31 files
    gets no file and a commit with 30 files, within the line ceiling, gets
    its diff. *)
Theorem diff_written_iff_within_limits self record :
  (0 <= limit_files self)%Z \/ Commit.files (commit record) <> [] ->
  PyStr.truthy (Commit.sha (commit record)) = true ->
  PyStr.truthy (repo_name_of record) = true ->
  save_commit_diff self record
  = (if (changed_lines record <=? limit_lines_changed self)%Z
        && (changed_files record <=? limit_files self)%Z
     then [diff_file self record]
     else [])
  /\ snd (walk_files self record)
     = Nat.min (List.length (Commit.files (commit record)))
         (S (Z.to_nat (limit_files self)))
  /\ (limit_files self = 30%Z -> changed_files record = 31%Z ->
      save_commit_diff self record = [])
  /\ (limit_files self = 30%Z -> changed_files record = 30%Z ->
      (changed_lines record <= limit_lines_changed self)%Z ->
      save_commit_diff self record = [diff_file self record]).
Proof.
  intros Hdomain Hsha Hrepo.
  destruct (walk_files_spec self record Hdomain) as [Hcrossed Htaken].
  assert (Hsave : save_commit_diff self record
                  = if (changed_lines record <=? limit_lines_changed self)%Z
                       && (changed_files record <=? limit_files self)%Z
                    then [diff_file self record]
                    else []).
  { unfold save_commit_diff. fold (changed_lines record) (repo_name_of record).
    rewrite Z.ltb_antisym.
    destruct (changed_lines record <=? limit_lines_changed self)%Z; [|reflexivity].
    cbn [negb andb]. rewrite Hcrossed.
    destruct (changed_files record <=? limit_files self)%Z; [|reflexivity].
    cbn [negb]. rewrite Hsha, Hrepo. reflexivity. }
  split; [exact Hsave|]. split; [exact Htaken|]. split.
  - intros H30 H31. rewrite Hsave, H30, H31.
    now rewrite andb_false_r.
  - intros H30 Hfiles Hlines. rewrite Hsave, H30, Hfiles.
    apply Z.leb_le in Hlines. now rewrite Hlines.
Qed.

Lemma diff_written_iff_within_limits_witness :
  (0 <= limit_files Sample.diffs)%Z
  /\ PyStr.truthy (Commit.sha Sample.c_31_files) = true
  /\ PyStr.truthy (repo_name_of (Sample.record Sample.c_31_files)) = true
  /\ save_commit_diffs Sample.diffs
       [Sample.record Sample.c_31_files; Sample.record Sample.c_30_files]
     = [diff_file Sample.diffs (Sample.record Sample.c_30_files)]
  /\ snd (walk_files Sample.diffs (Sample.record Sample.c_31_files)) = 31%nat.
Proof.
  assert (Hlimit : (0 <= limit_files Sample.diffs)%Z) by (simpl; lia).
  destruct (diff_written_iff_within_limits Sample.diffs
              (Sample.record Sample.c_31_files) (or_introl Hlimit) eq_refl eq_refl)
    as (_ & Hwalk & H31 & _).
  destruct (diff_written_iff_within_limits Sample.diffs
              (Sample.record Sample.c_30_files) (or_introl Hlimit) eq_refl eq_refl)
    as (_ & _ & _ & H30).
  split; [exact Hlimit|]. split; [reflexivity|]. split; [reflexivity|]. split.
  - unfold save_commit_diffs. cbn [flat_map].
    rewrite (H31 eq_refl eq_refl).
    rewrite (H30 eq_refl eq_refl ltac:(vm_compute; discriminate)).
    reflexivity.
  - rewrite Hwalk. reflexivity.
Defined.

(** ** The command line *)

Section MainFacts.
Context {host : Host} {github : GitHub}.

(** C9.  When the run gets as far as the aggregator and the deduplicated
    collection comes back empty, the process ends with exit code 0; by then
    it has created the output directory and written [metadata.json] with
    the user name, the repository list and the since-date, and it has
    written nothing else: no report file and no diff file. *)
Theorem empty_result_exits_zero args since_date ssl_verify apis repos :
  PyStr.truthy (Args.username args) = true ->
  validate_args args = Some (since_date, ssl_verify) ->
  PyStr.truthy (token_str_of args) = true ->
  initialize_apis (parse_token_map (token_str_of args)) ssl_verify = Some apis ->
  is_empty apis = false ->
  is_empty (repo_full_names_of args) = false ->
  fetch_repositories apis (group_repos_by_owner (repo_full_names_of args)) = Some repos ->
  is_empty repos = false ->
  process_commits_and_prs repos apis (Args.username args) since_date
    (Args.fetch_pr_commits args) (Args.include_merge_commits args) = Some [] ->
  main args
  = {| exit_code := 0;
       effects := [MakeDirs (output_path_of args);
                   MakeDirs (output_path_of args);
                   metadata_file args since_date] |}
  /\ forall path content,
       In (WriteFile path content) (effects (main args)) ->
       WriteFile path content = metadata_file args since_date.
Proof.
  intros Huser Hargs Htoken Hapis Hsome Hnames Hrepos Hany Hempty.
  assert (Hmain : main args
                  = {| exit_code := 0;
                       effects := [MakeDirs (output_path_of args);
                                   MakeDirs (output_path_of args);
                                   metadata_file args since_date] |}).
  { unfold main, token_str_of, repo_full_names_of in *.
    rewrite Huser. cbn [negb]. rewrite Hargs, Htoken. cbn [negb].
    rewrite Hapis, Hsome, Hnames, Hrepos, Hany, Hempty. reflexivity. }
  split; [exact Hmain|].
  intros path content Hin. rewrite Hmain in Hin. cbn [effects In] in Hin.
  destruct Hin as [H|[H|[H|[]]]]; try discriminate H. now symmetry.
Qed.

End MainFacts.

Lemma empty_result_exits_zero_witness :
  exit_code (@main Sample.host Sample.github Sample.args) = 0%Z
  /\ effects (@main Sample.host Sample.github Sample.args)
     = [MakeDirs "output/20240701_120000";
        MakeDirs "output/20240701_120000";
        WriteFile "output/20240701_120000/metadata.json"
          [Dumps (JObj [("username", JStr "alice");
                        ("repositories", JArr [JStr "acme/tool"; JStr "zeta/lib"]);
                        ("since", JStr "2024-06-01T00:00:00")])]].
Proof.
  destruct (@empty_result_exits_zero Sample.host Sample.github Sample.args
              100%Z VerifyOn
              [("alice", Sample.api "tok"); ("_default", Sample.api "tok")]
              [Sample.acme_tool; Sample.zeta_lib]
              eq_refl eq_refl eq_refl eq_refl eq_refl eq_refl eq_refl eq_refl eq_refl)
    as [Hmain _].
  rewrite Hmain. split; reflexivity.
Defined.

(* ================================================================= *)
(** * Part III. Further properties of the code *)
(* ================================================================= *)

(** ** Strings *)

Module StripFacts.

Lemma lstrip_no_leading_space s : no_leading_space (PyStr.lstrip s).
Proof.
  induction s as [|c r IH]; simpl; [exact I|].
  destruct (PyStr.is_space c) eqn:E; [exact IH|exact E].
Qed.

Lemma lstrip_fixed s : no_leading_space s -> PyStr.lstrip s = s.
Proof. destruct s as [|c r]; simpl; [reflexivity|]. now intros ->. Qed.

Lemma rstrip_cons c r :
  PyStr.rstrip (String c r)
  = match PyStr.rstrip r with
    | EmptyString => if PyStr.is_space c then EmptyString else String c EmptyString
    | r' => String c r'
    end.
Proof. reflexivity. Qed.

Lemma rstrip_idem s : PyStr.rstrip (PyStr.rstrip s) = PyStr.rstrip s.
Proof.
  induction s as [|c r IH]; [reflexivity|].
  rewrite rstrip_cons. destruct (PyStr.rstrip r) as [|c' r'] eqn:E.
  - destruct (PyStr.is_space c) eqn:S; [reflexivity|].
    rewrite rstrip_cons. simpl. now rewrite S.
  - rewrite rstrip_cons, IH. reflexivity.
Qed.

Lemma rstrip_no_leading_space s :
  no_leading_space s -> no_leading_space (PyStr.rstrip s).
Proof.
  destruct s as [|c r]; [trivial|]. rewrite rstrip_cons. simpl. intros Hc.
  destruct (PyStr.rstrip r); [now rewrite Hc|exact Hc].
Qed.

(** [strip] applied twice is [strip]. *)
Lemma strip_idem s : PyStr.strip (PyStr.strip s) = PyStr.strip s.
Proof.
  unfold PyStr.strip.
  rewrite (lstrip_fixed (PyStr.rstrip (PyStr.lstrip s))).
  - apply rstrip_idem.
  - apply rstrip_no_leading_space, lstrip_no_leading_space.
Qed.

Lemma contains_lstrip sep s :
  PyStr.contains sep s = false -> PyStr.contains sep (PyStr.lstrip s) = false.
Proof.
  induction s as [|c r IH]; simpl; [trivial|].
  destruct (c =? sep)%char eqn:E; [discriminate|]. intros H.
  destruct (PyStr.is_space c); [now apply IH|]. simpl. now rewrite E.
Qed.

Lemma contains_rstrip sep s :
  PyStr.contains sep s = false -> PyStr.contains sep (PyStr.rstrip s) = false.
Proof.
  induction s as [|c r IH]; [trivial|]. rewrite rstrip_cons. cbn [PyStr.contains].
  destruct (c =? sep)%char eqn:E; [discriminate|]. intros H.
  specialize (IH H). destruct (PyStr.rstrip r) as [|c' r'].
  - destruct (PyStr.is_space c); cbn [PyStr.contains]; [reflexivity|now rewrite E].
  - cbn [PyStr.contains] in *. now rewrite E.
Qed.

Lemma contains_strip sep s :
  PyStr.contains sep s = false -> PyStr.contains sep (PyStr.strip s) = false.
Proof. intros H. now apply contains_rstrip, contains_lstrip. Qed.

Lemma lower_char_idem c : PyStr.lower_char (PyStr.lower_char c) = PyStr.lower_char c.
Proof.
  destruct c as [[] [] [] [] [] [] [] []]; reflexivity.
Qed.

Lemma lower_idem s : PyStr.lower (PyStr.lower s) = PyStr.lower s.
Proof.
  induction s as [|c r IH]; simpl; [reflexivity|].
  now rewrite lower_char_idem, IH.
Qed.

End StripFacts.

(** ** Dictionaries, continued *)

Lemma forall_set_gen {V} (P : string * V -> Prop) (d : PyDict.t V) k v :
  Forall P d -> P (k, v) -> Forall P (PyDict.set d k v).
Proof.
  intros Hd Hk. induction d as [|[k0 v0] d IH]; simpl.
  - now constructor.
  - inversion Hd; subst.
    destruct (String.eqb_spec k0 k) as [->|Hne]; constructor; auto.
Qed.

Lemma set_not_empty {V} (d : PyDict.t V) k v : PyDict.set d k v <> [].
Proof. destruct d as [|[k0 v0] d]; simpl; [discriminate|]. destruct (k0 =? k); discriminate. Qed.

Lemma length_set {V} (d : PyDict.t V) k v :
  (List.length (PyDict.set d k v) <= S (List.length d))%nat.
Proof.
  induction d as [|[k0 v0] d IH]; simpl; [lia|].
  destruct (k0 =? k); simpl; lia.
Qed.

Lemma keys_defaultdict_append {A} (d : PyDict.t (list A)) k x :
  PyDict.keys (defaultdict_append d k x)
  = if PyDict.mem d k then PyDict.keys d else PyDict.keys d ++ [k].
Proof.
  unfold defaultdict_append, PyDict.mem.
  destruct (PyDict.get d k) eqn:G; rewrite PyDictFacts.keys_set;
    unfold PyDict.mem; now rewrite G.
Qed.

Lemma nodup_defaultdict_append {A} (d : PyDict.t (list A)) k x :
  NoDup (PyDict.keys d) -> NoDup (PyDict.keys (defaultdict_append d k x)).
Proof.
  unfold defaultdict_append.
  destruct (PyDict.get d k); now apply PyDictFacts.nodup_keys_set.
Qed.

(** ** Parsing the command line *)

(** X1.  [parse_repo_list] returns the trimmed comma-separated pieces of
    its argument that are not blank: every entry is non-empty, carries no
    white space at either end and no comma, and the empty string needs no
    special case. *)
Theorem parse_repo_list_entries (repos_str : string) :
  parse_repo_list repos_str
  = map PyStr.strip
      (filter (fun piece => PyStr.truthy (PyStr.strip piece))
         (PyStr.split "," repos_str))
  /\ Forall
       (fun repo =>
          repo <> "" /\ PyStr.strip repo = repo /\ PyStr.contains "," repo = false)
       (parse_repo_list repos_str).
Proof.
  assert (Heq : parse_repo_list repos_str
                = map PyStr.strip
                    (filter (fun piece => PyStr.truthy (PyStr.strip piece))
                       (PyStr.split "," repos_str))).
  { unfold parse_repo_list. destruct (PyStr.truthy repos_str) eqn:E; [reflexivity|].
    unfold PyStr.truthy in E. apply negb_false_iff, String.eqb_eq in E. now subst. }
  split; [exact Heq|]. rewrite Heq. apply Forall_forall. intros repo Hin.
  apply in_map_iff in Hin as (piece & <- & Hin). apply filter_In in Hin as [Hin Hne].
  split; [|split].
  - unfold PyStr.truthy in Hne. apply negb_true_iff, String.eqb_neq in Hne. exact Hne.
  - apply StripFacts.strip_idem.
  - apply StripFacts.contains_strip.
    pose proof (PyStrFacts.split_pieces_no_sep "," repos_str) as Hall.
    rewrite Forall_forall in Hall. now apply Hall.
Qed.

(** ** Credential router, continued *)

Lemma fold_parse_not_empty pairs : forall tokens,
  (pairs <> [] \/ tokens <> []) -> fold_left parse_token_pair pairs tokens <> [].
Proof.
  induction pairs as [|p pairs IH]; intros tokens H; simpl.
  - destruct H as [H|H]; [contradiction|exact H].
  - apply IH. right. rewrite parse_token_pair_set. apply set_not_empty.
Qed.

Lemma fold_parse_length pairs : forall tokens,
  (List.length (fold_left parse_token_pair pairs tokens)
   <= List.length tokens + List.length pairs)%nat.
Proof.
  induction pairs as [|p pairs IH]; intros tokens; simpl; [lia|].
  specialize (IH (parse_token_pair tokens p)).
  rewrite parse_token_pair_set in *.
  pose proof (length_set tokens (token_key p) (token_value p)). lia.
Qed.

(** X2.  The map that [parse_token_map] returns is never empty, not even
    for the empty string; its keys are distinct and already in lower case,
    so that a lookup by a lowercased owner name finds them; its values
    carry no white space at either end; and it has at most one entry per
    comma-separated piece. *)
Theorem parse_token_map_normal_form (token_str : string) :
  parse_token_map token_str <> []
  /\ NoDup (PyDict.keys (parse_token_map token_str))
  /\ Forall
       (fun entry =>
          PyStr.lower (fst entry) = fst entry /\ PyStr.strip (snd entry) = snd entry)
       (parse_token_map token_str)
  /\ (List.length (parse_token_map token_str)
      <= List.length (PyStr.split "," token_str))%nat.
Proof.
  split; [|split; [|split]].
  - apply fold_parse_not_empty. left. apply PyStrFacts.split_nonempty.
  - apply parse_token_map_keys_nodup.
  - unfold parse_token_map.
    assert (H : forall pairs tokens,
               Forall (fun entry : string * string =>
                         PyStr.lower (fst entry) = fst entry
                         /\ PyStr.strip (snd entry) = snd entry) tokens ->
               Forall (fun entry : string * string =>
                         PyStr.lower (fst entry) = fst entry
                         /\ PyStr.strip (snd entry) = snd entry)
                 (fold_left parse_token_pair pairs tokens)).
    { induction pairs as [|p pairs IH]; intros tokens Ht; simpl; [exact Ht|].
      apply IH. rewrite parse_token_pair_set. apply forall_set_gen; [exact Ht|].
      simpl. unfold token_key, token_value.
      destruct (PyStr.contains ":" p); split;
        auto using StripFacts.lower_idem, StripFacts.strip_idem. }
    apply H. constructor.
  - unfold parse_token_map. apply (fold_parse_length _ []).
Qed.

(** ** Grouping repositories by owner *)

Lemma group_repos_step (d : PyDict.t (list string)) name :
  (if PyStr.contains "/" name then
     let (owner, _) := PyStr.split1 "/" name in
     defaultdict_append d (PyStr.lower owner) name
   else d)
  = if PyStr.contains "/" name then defaultdict_append d (owner_key name) name else d.
Proof.
  unfold owner_key. destruct (PyStr.contains "/" name); [|reflexivity].
  destruct (PyStr.split1 "/" name); reflexivity.
Qed.

Lemma defaultdict_append_keys_filed {A} (d : PyDict.t (list A)) k x :
  keys_are_filed d -> keys_are_filed (defaultdict_append d k x).
Proof.
  intros Hd k'. rewrite keys_defaultdict_append, filed_under_append.
  destruct (String.eqb_spec k k') as [<-|Hne].
  - split; [intros _; now destruct (filed_under d k)|]. intros _.
    unfold PyDict.mem. destruct (PyDict.get d k) as [l|] eqn:G.
    + apply PyDictFacts.get_some_in in G. unfold PyDict.keys.
      change k with (fst (k, l)). now apply in_map.
    + apply in_or_app. right. now left.
  - rewrite <- (Hd k'). destruct (PyDict.mem d k); [reflexivity|].
    rewrite in_app_iff. simpl. tauto.
Qed.

Lemma group_repos_fold names : forall (d : PyDict.t (list string)),
  let grouped :=
    fold_left
      (fun grouped_repos repo_full_name =>
         if PyStr.contains "/" repo_full_name then
           let (owner, _) := PyStr.split1 "/" repo_full_name in
           defaultdict_append grouped_repos (PyStr.lower owner) repo_full_name
         else grouped_repos)
      names d in
  (forall owner,
      filed_under grouped owner
      = filed_under d owner
        ++ filter (fun n => PyStr.contains "/" n && (owner_key n =? owner)) names)
  /\ PyDict.keys grouped
     = PyDict.keys d
       ++ first_seen (PyDict.keys d)
            (map owner_key (filter (PyStr.contains "/") names))
  /\ (NoDup (PyDict.keys d) -> NoDup (PyDict.keys grouped))
  /\ (keys_are_filed d -> keys_are_filed grouped).
Proof.
  induction names as [|n names IH]; intros d; cbn zeta.
  - simpl. split; [intros; now rewrite app_nil_r|].
    split; [now rewrite app_nil_r|auto].
  - cbn [fold_left]. rewrite group_repos_step.
    destruct (IH (if PyStr.contains "/" n
                  then defaultdict_append d (owner_key n) n else d))
      as (Hfiled & Hkeys & Hnodup & Hkf).
    cbn zeta in *. split; [|split; [|split]].
    + intros owner. rewrite Hfiled. cbn [filter].
      destruct (PyStr.contains "/" n); cbn [andb]; [|reflexivity].
      rewrite filed_under_append.
      destruct (String.eqb_spec (owner_key n) owner) as [<-|Hne]; [|reflexivity].
      now rewrite <- app_assoc.
    + rewrite Hkeys. cbn [filter].
      destruct (PyStr.contains "/" n); [|reflexivity].
      cbn [map first_seen]. rewrite keys_defaultdict_append, <- mem_in_keys.
      destruct (PyDict.mem d (owner_key n)); [reflexivity|].
      now rewrite <- app_assoc.
    + intros Hd. apply Hnodup.
      destruct (PyStr.contains "/" n); [|exact Hd].
      now apply nodup_defaultdict_append.
    + intros Hd. apply Hkf.
      destruct (PyStr.contains "/" n); [|exact Hd].
      now apply defaultdict_append_keys_filed.
Qed.

(** X3.  [group_repos_by_owner] files every name that contains a slash
    under the lowercased text before its first slash, keeping the order of
    the input inside each group; names without a slash are left out; the
    owners are distinct and appear in the order in which they are first
    met, and an owner is absent exactly when no name is filed under it. *)
Theorem group_repos_by_owner_groups (repo_full_names : list string) :
  (forall owner,
      filed_under (group_repos_by_owner repo_full_names) owner
      = filter (fun n => PyStr.contains "/" n && (owner_key n =? owner))
          repo_full_names)
  /\ PyDict.keys (group_repos_by_owner repo_full_names)
     = first_seen [] (map owner_key (filter (PyStr.contains "/") repo_full_names))
  /\ NoDup (PyDict.keys (group_repos_by_owner repo_full_names))
  /\ (forall owner,
        PyDict.get (group_repos_by_owner repo_full_names) owner = None
        <-> filter (fun n => PyStr.contains "/" n && (owner_key n =? owner))
              repo_full_names = []).
Proof.
  destruct (group_repos_fold repo_full_names PyDict.empty)
    as (Hfiled & Hkeys & Hnodup & Hkf).
  cbn zeta in *. fold (group_repos_by_owner repo_full_names) in *.
  assert (Hfiled' : forall owner,
             filed_under (group_repos_by_owner repo_full_names) owner
             = filter (fun n => PyStr.contains "/" n && (owner_key n =? owner))
                 repo_full_names)
    by (intros owner; exact (Hfiled owner)).
  split; [exact Hfiled'|]. split; [exact Hkeys|]. split; [apply Hnodup; constructor|].
  intros owner. rewrite PyDictFacts.get_none_not_key, <- Hfiled'.
  assert (Hempty : keys_are_filed (@PyDict.empty (list string))).
  { intros k. simpl. unfold filed_under. simpl. tauto. }
  specialize (Hkf Hempty owner). rewrite Hkf.
  destruct (filed_under (group_repos_by_owner repo_full_names) owner);
    split; try tauto; try discriminate. intros H. exfalso. apply H. discriminate.
Qed.

(** ** Clients *)

Section ClientTable.
Context {host : Host} {github : GitHub}.

(** X4.  [GitHubAPI.__init__] raises exactly when neither its argument nor
    the environment holds a non-empty token.  Otherwise the client carries
    a non-empty token, the argument if it is non-empty and the environment
    variable if not, and an SSL mode given as off or as a bundle is kept:
    the environment's CA bundle is consulted only in the default mode, and
    then only if the file exists. *)
Theorem GitHubAPI_init_token (tok : option string) (ssl_verify : SslVerify) :
  (GitHubAPI_init tok ssl_verify = None
   <-> match str_or tok GITHUB_TOKEN with
       | Some t => PyStr.truthy t = false
       | None => True
       end)
  /\ forall api,
       GitHubAPI_init tok ssl_verify = Some api ->
       PyStr.truthy (token api) = true
       /\ str_or tok GITHUB_TOKEN = Some (token api)
       /\ (ssl_verify <> VerifyOn -> verify api = ssl_verify)
       /\ (forall bundle,
             ssl_verify = VerifyOn -> verify api = VerifyBundle bundle ->
             path_exists bundle = true
             /\ str_or REQUESTS_CA_BUNDLE SSL_CERT_FILE = Some bundle).
Proof.
  unfold GitHubAPI_init, str_or.
  set (self_token := match tok with
                     | Some t => if PyStr.truthy t then Some t else GITHUB_TOKEN
                     | None => GITHUB_TOKEN
                     end).
  destruct self_token as [t|]; [|split; [tauto|discriminate]].
  destruct (PyStr.truthy t) eqn:Et; cbn [negb].
  - split; [split; [discriminate|congruence]|].
    intros api [= <-]. cbn [token verify]. split; [exact Et|]. split; [reflexivity|].
    split.
    + destruct ssl_verify; [congruence|reflexivity|reflexivity].
    + intros bundle -> Hb.
      destruct (match REQUESTS_CA_BUNDLE with
                | Some b => if PyStr.truthy b then Some b else SSL_CERT_FILE
                | None => SSL_CERT_FILE
                end) as [b|]; [|discriminate].
      destruct (PyStr.truthy b && path_exists b) eqn:E; [|discriminate].
      injection Hb as ->. apply andb_prop in E as [_ E]. now split.
  - split; [tauto|discriminate].
Qed.

Lemma GitHubAPI_init_some_token tok ssl_verify :
  PyStr.truthy tok = true ->
  exists api, GitHubAPI_init (Some tok) ssl_verify = Some api /\ token api = tok.
Proof.
  intros Ht. unfold GitHubAPI_init. rewrite Ht. cbv beta iota zeta.
  rewrite Ht. cbn [negb]. eexists. split; reflexivity.
Qed.

Lemma GitHubAPI_init_truthy tok ssl_verify api :
  GitHubAPI_init tok ssl_verify = Some api -> PyStr.truthy (token api) = true.
Proof.
  unfold GitHubAPI_init.
  destruct (match tok with
            | Some t => if PyStr.truthy t then Some t else GITHUB_TOKEN
            | None => GITHUB_TOKEN
            end) as [t|]; [|discriminate].
  destruct (PyStr.truthy t) eqn:Et; cbn [negb]; [|discriminate].
  now intros [= <-].
Qed.

Lemma initialize_owner_api_authenticated ssl_verify apis entry :
  Forall (fun e => authenticated (snd e)) apis ->
  Forall (fun e => authenticated (snd e)) (initialize_owner_api ssl_verify apis entry).
Proof.
  intros Hall. unfold initialize_owner_api. destruct entry as [owner tok].
  destruct (PyDict.mem apis owner); [exact Hall|].
  destruct (GitHubAPI_init (Some tok) ssl_verify) as [api|] eqn:E; [|exact Hall].
  destruct (get_user_login api) eqn:L; [|exact Hall].
  apply forall_set_gen; [exact Hall|]. simpl. split.
  - now apply (GitHubAPI_init_truthy (Some tok) ssl_verify).
  - congruence.
Qed.

Lemma initialize_default_api_authenticated default_token ssl_verify default_api by_login :
  initialize_default_api default_token ssl_verify = Some (default_api, by_login) ->
  Forall (fun e => authenticated (snd e)) by_login
  /\ match default_api with
     | Some api =>
         authenticated api
         /\ (exists tok, default_token = Some tok /\ PyStr.truthy tok = true
                         /\ token api = tok)
         /\ exists login, get_user_login api = Some login
                          /\ by_login = [(PyStr.lower login, api)]
     | None =>
         by_login = []
         /\ match default_token with
            | Some tok => PyStr.truthy tok = false
            | None => True
            end
     end.
Proof.
  unfold initialize_default_api.
  destruct default_token as [tok|];
    [|intros [= <- <-]; split; [constructor|split; [reflexivity|exact I]]].
  destruct (PyStr.truthy tok) eqn:Et;
    [|intros [= <- <-]; split; [constructor|split; reflexivity]].
  destruct (GitHubAPI_init_some_token tok ssl_verify Et) as (api & -> & Htok).
  destruct (get_user_login api) as [login|] eqn:L; [|discriminate].
  intros [= <- <-].
  assert (Hauth : authenticated api).
  { split; [now rewrite Htok|congruence]. }
  split; [constructor; [exact Hauth|constructor]|].
  split; [exact Hauth|]. split; [now exists tok|]. now exists login.
Qed.

(** X5.  Every client in the table that [initialize_apis] returns holds a
    non-empty token, and the remote service answered its request for the
    login: no client with an empty or a rejected token is in the table,
    under any key. *)
Theorem initialize_apis_all_authenticated token_map ssl_verify apis :
  initialize_apis token_map ssl_verify = Some apis ->
  Forall (fun entry => authenticated (snd entry)) apis.
Proof.
  unfold initialize_apis, PyDict.pop.
  destruct (initialize_default_api _ ssl_verify) as [[default_api by_login]|] eqn:E;
    [|discriminate].
  apply initialize_default_api_authenticated in E as [Hlogin Hdefault].
  assert (Hloop : forall entries table,
             Forall (fun e => authenticated (snd e)) table ->
             Forall (fun e => authenticated (snd e))
               (fold_left (initialize_owner_api ssl_verify) entries table)).
  { induction entries as [|e entries IH]; intros table Ht; simpl; [exact Ht|].
    apply IH. now apply initialize_owner_api_authenticated. }
  specialize (Hloop (PyDict.items (PyDict.remove token_map "_default")) by_login Hlogin).
  destruct default_api as [api|].
  - destruct (negb _); intros [= <-]; [|exact Hloop].
    apply forall_set_gen; [exact Hloop|]. apply Hdefault.
  - intros [= <-]. exact Hloop.
Qed.

(** X6.  [initialize_apis] exits exactly when the map holds a non-empty
    default token that the remote service rejects.  No owner token can make
    it exit. *)
Theorem initialize_apis_exits_on_bad_default token_map ssl_verify :
  initialize_apis token_map ssl_verify = None
  <-> exists tok api,
        PyDict.get token_map "_default" = Some tok
        /\ PyStr.truthy tok = true
        /\ GitHubAPI_init (Some tok) ssl_verify = Some api
        /\ get_user_login api = None.
Proof.
  unfold initialize_apis, PyDict.pop, initialize_default_api.
  destruct (PyDict.get token_map "_default") as [tok|].
  - destruct (PyStr.truthy tok) eqn:Et.
    + destruct (GitHubAPI_init_some_token tok ssl_verify Et) as (api & Hinit & Htok).
      rewrite Hinit. destruct (get_user_login api) as [login|] eqn:L.
      * split.
        -- destruct (negb _); discriminate.
        -- intros (tok' & api' & [= <-] & _ & Hinit' & Hl).
           rewrite Hinit in Hinit'. injection Hinit' as <-. congruence.
      * split; [|reflexivity]. intros _. now exists tok, api.
    + split; [discriminate|]. intros (tok' & api' & [= <-] & Ht & _). congruence.
  - split; [discriminate|]. intros (tok' & api' & H & _). discriminate.
Qed.

Lemma initialize_owner_apis_keep ssl_verify k api entries : forall apis,
  PyDict.get apis k = Some api ->
  PyDict.get (fold_left (initialize_owner_api ssl_verify) entries apis) k = Some api.
Proof.
  induction entries as [|[owner tok] entries IH]; intros apis Hk; simpl; [exact Hk|].
  apply IH. unfold initialize_owner_api.
  destruct (PyDict.mem apis owner) eqn:M; [exact Hk|].
  destruct (GitHubAPI_init (Some tok) ssl_verify) as [a|]; [|exact Hk].
  destruct (get_user_login a); [|exact Hk].
  rewrite PyDictFacts.get_set.
  destruct (String.eqb_spec owner k) as [->|Hne]; [|exact Hk].
  unfold PyDict.mem in M. now rewrite Hk in M.
Qed.

(** X7.  With a non-empty default token in the map, the table that
    [initialize_apis] returns holds the client of that token under
    [_default] and under the lowercased login of its user, even when the
    map also gives that owner a token of its own; and every owner then
    resolves to a client. *)
Theorem initialize_apis_default_covers_all token_map ssl_verify apis tok :
  initialize_apis token_map ssl_verify = Some apis ->
  PyDict.get token_map "_default" = Some tok ->
  PyStr.truthy tok = true ->
  exists default_api login,
    token default_api = tok
    /\ get_user_login default_api = Some login
    /\ PyDict.get apis "_default" = Some default_api
    /\ PyDict.get apis (PyStr.lower login) = Some default_api
    /\ forall owner, api_for_owner apis owner <> None.
Proof.
  intros Hinit Htok Ht.
  destruct (initialize_apis_default_slot _ _ _ Hinit)
    as (default_api & by_login & Hdef & Hslot).
  pose proof (initialize_default_api_authenticated _ _ _ _ Hdef) as [_ Hd].
  rewrite Htok in Hd. destruct default_api as [api|]; [|destruct Hd; congruence].
  destruct Hd as (_ & (tok' & [= <-] & _ & Htoken) & login & Hlogin & Htable).
  exists api, login. split; [exact Htoken|]. split; [exact Hlogin|].
  split; [exact Hslot|]. split.
  - unfold initialize_apis, PyDict.pop in Hinit. rewrite Hdef in Hinit.
    assert (Hfirst : PyDict.get by_login (PyStr.lower login) = Some api).
    { rewrite Htable. cbn [PyDict.get]. now rewrite String.eqb_refl. }
    pose proof (initialize_owner_apis_keep ssl_verify (PyStr.lower login) api
                  (PyDict.items (PyDict.remove token_map "_default")) by_login Hfirst)
      as Hkeep.
    destruct (negb _) eqn:M; injection Hinit as <-; [|exact Hkeep].
    rewrite PyDictFacts.get_set.
    destruct (String.eqb_spec "_default" (PyStr.lower login)) as [_|Hne];
      [reflexivity|exact Hkeep].
  - intros owner. unfold api_for_owner. rewrite Hslot.
    destruct (PyDict.get apis owner); discriminate.
Qed.

End ClientTable.

(** ** Fetching repositories *)

Section Fetching.
Context {github : GitHub}.

Lemma fetch_owner_repos_fold api names : forall repos,
  fold_left
    (fun repos repo_full_name =>
       match fetch_repo_by_full_name api repo_full_name with
       | Some repo => repos ++ [repo]
       | None => repos
       end)
    names repos
  = repos ++ fetched_by api names.
Proof.
  unfold fetched_by.
  induction names as [|n names IH]; intros repos; simpl; [now rewrite app_nil_r|].
  rewrite IH. destruct (fetch_repo_by_full_name api n); simpl;
    [now rewrite <- app_assoc|reflexivity].
Qed.

Lemma fetch_repositories_loop apis entries : forall repos,
  for_loop_exit
    (fun repos (entry : string * list string) =>
       let (owner, owner_repos) := entry in
       match api_for_owner apis owner with
       | None => None
       | Some api =>
           Some (fold_left
                   (fun repos repo_full_name =>
                      match fetch_repo_by_full_name api repo_full_name with
                      | Some repo => repos ++ [repo]
                      | None => repos
                      end)
                   owner_repos repos)
       end)
    entries repos
  = if forallb
         (fun entry =>
            match api_for_owner apis (fst entry) with Some _ => true | None => false end)
         entries
    then Some (repos
               ++ flat_map
                    (fun entry =>
                       match api_for_owner apis (fst entry) with
                       | Some api => fetched_by api (snd entry)
                       | None => []
                       end)
                    entries)
    else None.
Proof.
  induction entries as [|[owner names] entries IH]; intros repos; simpl.
  - now rewrite app_nil_r.
  - destruct (api_for_owner apis owner) as [api|]; simpl; [|reflexivity].
    rewrite IH, fetch_owner_repos_fold.
    destruct (forallb _ entries); [now rewrite <- app_assoc|reflexivity].
Qed.

(** X8.  [fetch_repositories] exits exactly when some owner of the grouping
    has neither a client of its own nor a default client.  Otherwise it
    returns, owner by owner and name by name in the order of the grouping,
    the repositories that the owner's client could fetch; a name that
    cannot be fetched is left out and stops nothing. *)
Theorem fetch_repositories_result apis (repos_by_owner : PyDict.t (list string)) :
  (fetch_repositories apis repos_by_owner = None
   <-> exists entry, In entry repos_by_owner /\ api_for_owner apis (fst entry) = None)
  /\ (forall repos,
        fetch_repositories apis repos_by_owner = Some repos ->
        repos
        = flat_map
            (fun entry =>
               match api_for_owner apis (fst entry) with
               | Some api => fetched_by api (snd entry)
               | None => []
               end)
            repos_by_owner)
  /\ (PyDict.get apis "_default" <> None ->
      fetch_repositories apis repos_by_owner <> None).
Proof.
  unfold fetch_repositories, PyDict.items. rewrite fetch_repositories_loop.
  destruct (forallb _ repos_by_owner) eqn:E.
  - rewrite forallb_forall in E. split; [|split].
    + split; [discriminate|]. intros (entry & Hin & Hnone).
      specialize (E entry Hin). now rewrite Hnone in E.
    + intros repos [= <-]. reflexivity.
    + discriminate.
  - split; [|split].
    + split; [|reflexivity]. intros _.
      apply not_true_iff_false in E. rewrite forallb_forall in E.
      assert (Hex : Exists (fun entry => api_for_owner apis (fst entry) = None)
                      repos_by_owner).
      { apply Exists_exists.
        induction repos_by_owner as [|e l IH].
        - exfalso. apply E. intros x [].
        - destruct (api_for_owner apis (fst e)) eqn:A.
          + destruct IH as (x & Hx & Hn).
            * intros Hall. apply E. intros x [<-|Hx]; [now rewrite A|now apply Hall].
            * exists x. split; [now right|exact Hn].
          + exists e. split; [now left|exact A]. }
      apply Exists_exists in Hex. exact Hex.
    + discriminate.
    + intros Hdefault. exfalso.
      apply not_true_iff_false in E. apply E. apply forallb_forall.
      intros entry _. unfold api_for_owner.
      destruct (PyDict.get apis (fst entry)); [reflexivity|].
      destruct (PyDict.get apis "_default"); [reflexivity|contradiction].
Qed.

End Fetching.

(** ** Contribution aggregator, continued *)

Section AggregatorLoops.
Context {github : GitHub}.

Lemma get_api_has_client apis repo :
  has_client apis repo
  = match get_api_for_repo apis repo with Some _ => true | None => false end.
Proof. reflexivity. Qed.

(** The loop over the repositories, in full. *)
Lemma process_repos_loop apis username since fetch_pr include api repos : forall st,
  let kept := unique_repos (processed_repo_names st) repos in
  match for_loop_exit (process_repo apis username since fetch_pr include) repos st with
  | Some st' =>
      forallb (has_client apis) kept = true
      /\ all_commit_records st'
         = all_commit_records st
           ++ flat_map
                (fun repo =>
                   fetch_repo_commit_records api repo username since include fetch_pr)
                kept
      /\ all_pull_requests st'
         = all_pull_requests st
           ++ (if fetch_pr
               then fetch_user_pull_requests_in_repos api kept username since
               else [])
  | None => forallb (has_client apis) kept = false
  end.
Proof.
  induction repos as [|repo repos IH]; intros st; cbn zeta.
  - simpl. split; [reflexivity|]. rewrite app_nil_r. split; [reflexivity|].
    destruct fetch_pr; now rewrite app_nil_r.
  - cbn [for_loop_exit unique_repos]. unfold process_repo at 1.
    destruct (in_str_set (Repository.full_name repo) (processed_repo_names st)).
    + apply IH.
    + cbn [forallb]. rewrite get_api_has_client.
      destruct (get_api_for_repo apis repo) as [api_client|]; [|reflexivity].
      match goal with |- context [for_loop_exit _ repos ?s] => specialize (IH s) end.
      cbn zeta in IH. cbn [processed_repo_names all_commit_records all_pull_requests] in IH.
      destruct (for_loop_exit _ repos _) as [st'|]; [|exact IH].
      destruct IH as (Hall & Hcommits & Hpulls). cbn [andb].
      split; [exact Hall|]. split.
      * rewrite Hcommits. cbn [flat_map]. now rewrite <- app_assoc.
      * rewrite Hpulls. destruct fetch_pr; [|now rewrite !app_nil_r].
        unfold fetch_user_pull_requests_in_repos.
        rewrite !fetch_user_pull_requests_fold. cbn [flat_map app].
        now rewrite app_nil_r, <- app_assoc.
Qed.

(** The loop over the pull requests, in full. *)
Lemma process_prs_loop apis username since api prs : forall st,
  let kept := unique_prs (processed_pr_numbers st) prs in
  match for_loop_exit (process_pr apis username since) prs st with
  | Some st' =>
      forallb (fun pr => has_client apis (PullRequest.base_repo pr)) kept = true
      /\ all_pr_commit_records st'
         = all_pr_commit_records st
           ++ flat_map
                (fun pr =>
                   fetch_user_commit_records_in_pr_after_date api pr username since)
                kept
  | None =>
      forallb (fun pr => has_client apis (PullRequest.base_repo pr)) kept = false
  end.
Proof.
  induction prs as [|pr prs IH]; intros st; cbn zeta.
  - simpl. split; [reflexivity|]. now rewrite app_nil_r.
  - cbn [for_loop_exit unique_prs]. unfold process_pr at 1. fold (pr_key pr).
    destruct (in_pr_set (pr_key pr) (processed_pr_numbers st)).
    + apply IH.
    + cbn [forallb]. rewrite get_api_has_client.
      destruct (get_api_for_repo apis (PullRequest.base_repo pr)) as [pr_api|];
        [|reflexivity].
      match goal with |- context [for_loop_exit _ prs ?s] => specialize (IH s) end.
      cbn zeta in IH. cbn [processed_pr_numbers all_pr_commit_records] in IH.
      destruct (for_loop_exit _ prs _) as [st'|]; [|exact IH].
      destruct IH as (Hall & Hrecords). cbn [andb].
      split; [exact Hall|]. rewrite Hrecords. cbn [flat_map].
      now rewrite <- app_assoc.
Qed.

(** The two streams of [process_commits_and_prs], and when it exits. *)
Lemma collect_commit_records_char repos apis username since fetch_pr include api :
  let kept := unique_repos [] repos in
  let pulls :=
    unique_prs [] (fetch_user_pull_requests_in_repos api kept username since) in
  collect_commit_records repos apis username since fetch_pr include
  = if forallb (has_client apis) kept
       && (negb fetch_pr
           || forallb (fun pr => has_client apis (PullRequest.base_repo pr)) pulls)
    then Some
           (flat_map
              (fun repo =>
                 fetch_repo_commit_records api repo username since include fetch_pr)
              kept,
            if fetch_pr
            then flat_map
                   (fun pr =>
                      fetch_user_commit_records_in_pr_after_date api pr username since)
                   pulls
            else [])
    else None.
Proof.
  cbn zeta. unfold collect_commit_records.
  pose proof (process_repos_loop apis username since fetch_pr include api repos
                {| all_commit_records := []; all_pull_requests := [];
                   processed_repo_names := [] |}) as Hrepos.
  cbn zeta in Hrepos. cbn [processed_repo_names all_commit_records all_pull_requests] in Hrepos.
  destruct (for_loop_exit (process_repo _ _ _ _ _) repos _) as [st|];
    [|now rewrite Hrepos].
  destruct Hrepos as (Hall & Hcommits & Hpulls). rewrite Hall. cbn [andb app] in *.
  destruct fetch_pr; cbn [negb orb].
  - pose proof (process_prs_loop apis username since api (all_pull_requests st)
                  {| all_pr_commit_records := []; processed_pr_numbers := [] |}) as Hprs.
    cbn zeta in Hprs. cbn [processed_pr_numbers all_pr_commit_records app] in Hprs.
    rewrite Hpulls in *.
    destruct (for_loop_exit (process_pr _ _ _) _ _) as [st'|]; [|now rewrite Hprs].
    destruct Hprs as (Hall' & Hrecords). now rewrite Hall', Hcommits, Hrecords.
  - now rewrite Hcommits.
Qed.

End AggregatorLoops.

Lemma forallb_false_exists {A} (f : A -> bool) l :
  forallb f l = false <-> exists x, In x l /\ f x = false.
Proof.
  induction l as [|a l IH]; simpl.
  - split; [discriminate|]. now intros (x & [] & _).
  - destruct (f a) eqn:E; simpl.
    + rewrite IH. split.
      * intros (x & Hx & Hf). exists x. split; [now right|exact Hf].
      * intros (x & [<-|Hx] & Hf); [congruence|]. now exists x.
    + split; [|reflexivity]. intros _. exists a. split; [now left|exact E].
Qed.

Lemma has_client_false apis repo :
  has_client apis repo = false <-> get_api_for_repo apis repo = None.
Proof.
  rewrite get_api_has_client. destruct (get_api_for_repo apis repo);
    split; congruence.
Qed.

Lemma unique_repos_idem repos : forall seen,
  unique_repos seen (unique_repos seen repos) = unique_repos seen repos.
Proof.
  induction repos as [|repo repos IH]; intros seen; simpl; [reflexivity|].
  destruct (in_str_set (Repository.full_name repo) seen) eqn:E; [apply IH|].
  simpl. rewrite E. now rewrite IH.
Qed.

(** The records that the deduplication keeps come from its input. *)
Lemma deduplicate_incl direct from_prs r :
  In r (deduplicate direct from_prs) -> In r (direct ++ from_prs).
Proof.
  unfold deduplicate. intros Hin.
  assert (Hkeyed : keyed_by_sha (fold_left add_unique (direct ++ from_prs) PyDict.empty)).
  { apply fold_add_unique_keyed. split; constructor. }
  apply (keyed_values_in _ _ Hkeyed) in Hin. rewrite fold_add_unique_get in Hin.
  simpl in Hin. unfold first_with_sha in Hin. now apply find_some in Hin as [Hin _].
Qed.

Lemma fold_add_unique_keys l : forall d,
  PyDict.keys (fold_left add_unique l d)
  = PyDict.keys d ++ first_seen (PyDict.keys d) (map sha_of l).
Proof.
  induction l as [|r l IH]; intros d; simpl; [now rewrite app_nil_r|].
  rewrite IH. unfold add_unique. fold (sha_of r). rewrite <- mem_in_keys.
  destruct (PyDict.mem d (sha_of r)) eqn:M; cbn [negb]; [reflexivity|].
  rewrite PyDictFacts.keys_set, M. now rewrite <- app_assoc.
Qed.

Lemma fold_add_unique_fresh l : forall d,
  NoDup (PyDict.keys d ++ map sha_of l) ->
  fold_left add_unique l d = d ++ map (fun r => (sha_of r, r)) l.
Proof.
  induction l as [|r l IH]; intros d Hnd; simpl; [now rewrite app_nil_r|].
  assert (Hfresh : PyDict.get d (sha_of r) = None).
  { apply PyDictFacts.get_none_not_key. intros Hin.
    apply NoDup_remove_2 in Hnd. apply Hnd. apply in_or_app. now left. }
  assert (Hset : add_unique d r = d ++ [(sha_of r, r)]).
  { unfold add_unique, PyDict.mem. fold (sha_of r). rewrite Hfresh. cbn [negb].
    clear Hnd. induction d as [|[k0 v0] d IHd]; simpl; [reflexivity|].
    simpl in Hfresh. destruct (k0 =? sha_of r); [discriminate|]. now rewrite IHd. }
  rewrite Hset, IH.
  - now rewrite <- app_assoc.
  - unfold PyDict.keys. rewrite map_app. simpl. rewrite <- app_assoc. exact Hnd.
Qed.

(** X9.  The collection that the deduplication returns lists the SHAs of
    its input in the order in which they are first met, the direct commits
    first; on an input whose SHAs are already distinct it changes nothing,
    and applied to its own result it changes nothing. *)
Theorem deduplicate_order (direct from_prs : list CommitRecord) :
  map sha_of (deduplicate direct from_prs)
  = first_seen [] (map sha_of (direct ++ from_prs))
  /\ (NoDup (map sha_of (direct ++ from_prs)) ->
      deduplicate direct from_prs = direct ++ from_prs)
  /\ deduplicate (deduplicate direct from_prs) [] = deduplicate direct from_prs.
Proof.
  assert (Hkeyed : keyed_by_sha (fold_left add_unique (direct ++ from_prs) PyDict.empty)).
  { apply fold_add_unique_keyed. split; constructor. }
  assert (Hfresh : forall l, NoDup (map sha_of l) -> deduplicate l [] = l).
  { intros l Hl. unfold deduplicate. rewrite app_nil_r, fold_add_unique_fresh by exact Hl.
    unfold PyDict.values. simpl. rewrite map_map. simpl. apply map_id. }
  split; [|split].
  - unfold deduplicate. rewrite (keyed_values_shas _ Hkeyed).
    now rewrite fold_add_unique_keys.
  - intros Hnd. unfold deduplicate. rewrite fold_add_unique_fresh by exact Hnd.
    unfold PyDict.values. simpl. rewrite map_map. simpl. apply map_id.
  - apply Hfresh. unfold deduplicate. rewrite (keyed_values_shas _ Hkeyed).
    apply Hkeyed.
Qed.

Section AggregatorResult.
Context {github : GitHub}.

(** X10.  What [process_commits_and_prs] returns when it returns: the
    deduplication of the direct commits of the repositories, each taken
    once per full name, followed, if pull-request commits are asked for, by
    the commits of the user's pull requests in those repositories, each
    pull request taken once per base repository and number; without the
    flag no pull request contributes. *)
Theorem process_commits_and_prs_result
    repos apis username since fetch_pr include api out :
  process_commits_and_prs repos apis username since fetch_pr include = Some out ->
  out
  = deduplicate
      (flat_map
         (fun repo =>
            fetch_repo_commit_records api repo username since include fetch_pr)
         (unique_repos [] repos))
      (if fetch_pr
       then flat_map
              (fun pr =>
                 fetch_user_commit_records_in_pr_after_date api pr username since)
              (unique_prs []
                 (fetch_user_pull_requests_in_repos api (unique_repos [] repos)
                    username since))
       else []).
Proof.
  unfold process_commits_and_prs.
  rewrite (collect_commit_records_char _ _ _ _ _ _ api). cbn zeta.
  destruct (_ && _); [|discriminate]. now intros [= <-].
Qed.

(** X11.  [process_commits_and_prs] exits exactly when a repository of the
    list, or with the flag set the base repository of one of the user's
    pull requests, belongs to an owner without a client while the table
    has no default client.  With a default client it never exits. *)
Theorem process_commits_and_prs_exits
    repos apis username since fetch_pr include api :
  (process_commits_and_prs repos apis username since fetch_pr include = None
   <-> (exists repo,
          In repo (unique_repos [] repos) /\ get_api_for_repo apis repo = None)
       \/ (fetch_pr = true
           /\ exists pr,
                In pr (unique_prs []
                         (fetch_user_pull_requests_in_repos api
                            (unique_repos [] repos) username since))
                /\ get_api_for_repo apis (PullRequest.base_repo pr) = None))
  /\ (PyDict.get apis "_default" <> None ->
      process_commits_and_prs repos apis username since fetch_pr include <> None).
Proof.
  assert (Hiff : process_commits_and_prs repos apis username since fetch_pr include = None
                 <-> (exists repo,
                        In repo (unique_repos [] repos)
                        /\ get_api_for_repo apis repo = None)
                     \/ (fetch_pr = true
                         /\ exists pr,
                              In pr (unique_prs []
                                       (fetch_user_pull_requests_in_repos api
                                          (unique_repos [] repos) username since))
                              /\ get_api_for_repo apis (PullRequest.base_repo pr) = None)).
  { unfold process_commits_and_prs.
    rewrite (collect_commit_records_char _ _ _ _ _ _ api). cbn zeta.
    destruct (forallb (has_client apis) (unique_repos [] repos)) eqn:Erepos; cbn [andb].
    - destruct fetch_pr; cbn [negb orb].
      + destruct (forallb _ (unique_prs [] _)) eqn:Eprs.
        * split; [discriminate|]. intros [(repo & Hin & Hnone)|(_ & pr & Hin & Hnone)].
          -- rewrite forallb_forall in Erepos. specialize (Erepos repo Hin).
             apply has_client_false in Hnone. congruence.
          -- rewrite forallb_forall in Eprs. specialize (Eprs pr Hin). simpl in Eprs.
             apply has_client_false in Hnone. congruence.
        * split; [|reflexivity]. intros _. right. split; [reflexivity|].
          apply forallb_false_exists in Eprs as (pr & Hin & Hf).
          exists pr. split; [exact Hin|]. now apply has_client_false.
      + split; [discriminate|]. intros [(repo & Hin & Hnone)|(Hflag & _)];
          [|discriminate].
        rewrite forallb_forall in Erepos. specialize (Erepos repo Hin).
        apply has_client_false in Hnone. congruence.
    - split; [|reflexivity]. intros _. left.
      apply forallb_false_exists in Erepos as (repo & Hin & Hf).
      exists repo. split; [exact Hin|]. now apply has_client_false. }
  split; [exact Hiff|]. intros Hdefault Hnone. apply Hiff in Hnone.
  assert (Hany : forall repo, get_api_for_repo apis repo <> None).
  { intros repo. unfold get_api_for_repo, api_for_owner.
    destruct (PyDict.get apis (PyStr.lower (NamedUser.login (Repository.owner repo))));
      [discriminate|exact Hdefault]. }
  destruct Hnone as [(repo & _ & Hnone)|(_ & pr & _ & Hnone)]; now apply Hany in Hnone.
Qed.

(** X12.  Naming a repository more than once changes nothing: the list of
    repositories and the list with every later repetition of a full name
    removed give the same result. *)
Theorem process_commits_and_prs_ignores_repeats
    repos apis username since fetch_pr include :
  process_commits_and_prs repos apis username since fetch_pr include
  = process_commits_and_prs (unique_repos [] repos) apis username since
      fetch_pr include.
Proof.
  unfold process_commits_and_prs.
  rewrite !(collect_commit_records_char _ _ _ _ _ _ {| token := ""; verify := VerifyOn |}).
  cbn zeta. now rewrite unique_repos_idem.
Qed.

(** X13.  When merge commits are not to be included, no record that
    [process_commits_and_prs] returns is a merge commit, whichever stream it
    came from. *)
Theorem process_commits_and_prs_without_merges
    repos apis username since fetch_pr out :
  process_commits_and_prs repos apis username since fetch_pr false = Some out ->
  Forall (fun r => is_not_merge (commit r) = true) out.
Proof.
  intros Hout. unfold process_commits_and_prs in Hout.
  rewrite (collect_commit_records_char _ _ _ _ _ _ {| token := ""; verify := VerifyOn |})
    in Hout.
  cbn zeta in Hout. destruct (_ && _) in Hout; [|discriminate]. injection Hout as <-.
  apply Forall_forall. intros r Hin. apply deduplicate_incl in Hin.
  apply in_app_or in Hin as [Hin|Hin].
  - apply in_flat_map in Hin as (repo & _ & Hin).
    rewrite fetch_repo_commit_records_spec in Hin.
    destruct (get_commits repo username since); [|contradiction].
    apply in_map_iff in Hin as (c & <- & Hc). apply filter_In in Hc as [_ Hc].
    simpl in *. now apply andb_prop in Hc as [Hc _].
  - destruct fetch_pr; [|contradiction].
    apply in_flat_map in Hin as (pr & _ & Hin).
    unfold fetch_user_commit_records_in_pr_after_date in Hin.
    rewrite pr_commit_records_fold in Hin. simpl in Hin.
    apply in_map_iff in Hin as (c & <- & Hc). apply filter_In in Hc as [_ Hc].
    simpl. now apply andb_prop in Hc as [_ Hc].
Qed.

End AggregatorResult.

(** ** Report renderer, continued *)

Lemma insert_by_date_dated t c l :
  dated t (insert_by_date c l) = dated t [c] ++ dated t l.
Proof.
  unfold dated. induction l as [|x l IH]; simpl; [now rewrite app_nil_r|].
  destruct (Z.leb_spec (author_date c) (author_date x)) as [Hle|Hgt]; simpl.
  - destruct (author_date c =? t)%Z; reflexivity.
  - rewrite IH. simpl.
    destruct (Z.eqb_spec (author_date c) t) as [Hc|Hc];
      destruct (Z.eqb_spec (author_date x) t) as [Hx|Hx]; simpl; try reflexivity.
    lia.
Qed.

(** X14.  The sort of [generate_reports] puts the commits of a repository
    in ascending order of author date, loses and adds none, and keeps
    commits of equal date in the order in which they came. *)
Theorem sort_by_date_stable (l : list Commit.t) :
  Sorted (fun a b => (author_date a <= author_date b)%Z) (sort_by_date l)
  /\ Permutation (sort_by_date l) l
  /\ forall t, dated t (sort_by_date l) = dated t l.
Proof.
  split; [apply sort_by_date_sorted|]. split; [apply sort_by_date_sorted|].
  intros t. unfold sort_by_date. induction l as [|c l IH]; simpl; [reflexivity|].
  rewrite insert_by_date_dated, IH. unfold dated. simpl.
  destruct (author_date c =? t)%Z; reflexivity.
Qed.

Lemma in_str_set_app x l k :
  in_str_set x (l ++ [k]) = in_str_set x l || (x =? k).
Proof.
  unfold in_str_set. rewrite existsb_app. simpl. now rewrite orb_false_r.
Qed.

Lemma first_seen_in x names : forall seen,
  In x (first_seen seen names) <-> In x names /\ in_str_set x seen = false.
Proof.
  induction names as [|k names IH]; intros seen; simpl; [tauto|].
  destruct (in_str_set k seen) eqn:E.
  - rewrite IH. split; [tauto|]. intros [[<-|H] Hs]; [congruence|tauto].
  - simpl. rewrite IH, in_str_set_app. split.
    + intros [<-|[H Hs]]; [tauto|]. apply orb_false_iff in Hs. tauto.
    + intros [[<-|H] Hs]; [tauto|].
      destruct (String.eqb_spec x k) as [->|Hne]; [tauto|].
      right. split; [exact H|]. now rewrite Hs.
Qed.

Lemma set_of_nodup l : NoDup l -> set_of l = l.
Proof.
  induction l as [|x l IH]; simpl; intros Hnd; [reflexivity|].
  inversion Hnd; subst. destruct (in_str_set x l) eqn:E.
  - unfold in_str_set in E. apply existsb_exists in E as (y & Hy & Heq).
    apply String.eqb_eq in Heq. subst. contradiction.
  - now rewrite IH.
Qed.

Lemma group_commits_keys records :
  PyDict.keys (group_commits records) = first_seen [] (map repo_full_name records)
  /\ NoDup (PyDict.keys (group_commits records)).
Proof.
  assert (Hk : PyDict.keys (group_commits records)
               = PyDict.keys
                   (fold_left
                      (fun d record =>
                         defaultdict_append d (repo_full_name record) (commit record))
                      records PyDict.empty)).
  { unfold group_commits, PyDict.keys. rewrite map_map. reflexivity. }
  rewrite Hk. split.
  - now rewrite fold_append_keys.
  - apply fold_append_keys_nodup. constructor.
Qed.

Lemma groups_sorted_by_name_in (d : PyDict.t (list Commit.t)) name commits :
  In (name, commits) (groups_sorted_by_name d) -> In (name, commits) d.
Proof.
  unfold groups_sorted_by_name. intros Hin.
  apply in_flat_map in Hin as (k & _ & Hin).
  destruct (PyDict.get d k) as [l|] eqn:G; [|contradiction].
  destruct Hin as [[= <- <-]|[]]. now apply PyDictFacts.get_some_in.
Qed.

Lemma group_commits_groups records :
  group_commits records = map (group_of records) (repositories_named records).
Proof.
  destruct (group_commits_keys records) as [Hkeys _].
  unfold repositories_named. rewrite <- Hkeys. unfold PyDict.keys. rewrite map_map.
  assert (H : forall l, incl l (group_commits records) ->
                        l = map (fun e => group_of records (fst e)) l).
  { induction l as [|[k v] l IH]; intros Hincl; simpl; [reflexivity|].
    f_equal.
    - destruct (group_commits_sorted_by_date records k v) as [-> _];
        [apply Hincl; now left|reflexivity].
    - apply IH. intros e He. apply Hincl. now right. }
  apply H, incl_refl.
Qed.

Lemma groups_sorted_by_name_groups records :
  groups_sorted_by_name (group_commits records)
  = map (group_of records) (sorted_strs (repositories_named records)).
Proof.
  destruct (group_commits_keys records) as [Hkeys Hnodup].
  unfold groups_sorted_by_name. rewrite (set_of_nodup _ Hnodup), Hkeys.
  fold (repositories_named records).
  assert (Hget : forall k,
             In k (sorted_strs (repositories_named records)) ->
             PyDict.get (group_commits records) k
             = Some (sort_by_date (commits_of k records))).
  { intros k Hk. apply (Permutation_in _ (proj2 (sorted_strs_sorted _))) in Hk.
    apply PyDictFacts.in_get_nodup; [exact Hnodup|].
    rewrite group_commits_groups. apply in_map_iff. exists k.
    split; [reflexivity|exact Hk]. }
  induction (sorted_strs (repositories_named records)) as [|k ks IH]; simpl;
    [reflexivity|].
  rewrite Hget by now left. simpl. f_equal. apply IH. intros; apply Hget; now right.
Qed.

Lemma repositories_named_in records name :
  In name (repositories_named records)
  <-> exists r, In r records /\ repo_full_name r = name.
Proof.
  unfold repositories_named. rewrite first_seen_in. split.
  - intros [Hin _]. apply in_map_iff in Hin as (r & Hr & Hin). now exists r.
  - intros (r & Hin & Hr). split; [|reflexivity]. rewrite <- Hr. now apply in_map.
Qed.

Lemma repositories_named_nodup records : NoDup (repositories_named records).
Proof.
  destruct (group_commits_keys records) as [Hkeys Hnodup].
  unfold repositories_named. now rewrite <- Hkeys.
Qed.

Section ReportText.
Context {host : Host}.

(** X15.  When the request names the text format, [generate_reports]
    writes to the text report one section for each repository that the
    commit records name and no other, in ascending order of the full
    names, each with the commits of its repository, oldest first; when the
    request names the markdown format, it writes the markdown report with
    the same groups in the same order. *)
Theorem text_and_markdown_reports_by_name (self : ReportGenerator)
    (records : list CommitRecord) (descriptions : option (PyDict.t string))
    (formats : option (list string)) :
  let requested := match formats with Some f => f | None => ["text"] end in
  let described := match descriptions with Some d => d | None => PyDict.empty end in
  let names := sorted_strs (repositories_named records) in
  let groups := map (group_of records) names in
  Sorted (holds String.leb) names
  /\ NoDup names
  /\ (forall name,
        In name names <-> exists r, In r records /\ repo_full_name r = name)
  /\ (in_str_set "text" requested = true ->
      In (WriteFile (text_report_path self)
            (flat_map (text_section self described) groups))
        (generate_reports self records descriptions formats))
  /\ (in_str_set "markdown" requested = true ->
      In (WriteFile (md_report_path self)
            (flat_map (markdown_section self described) groups))
        (generate_reports self records descriptions formats)).
Proof.
  cbn zeta.
  destruct (sorted_strs_sorted (repositories_named records)) as [Hsorted Hperm].
  split; [exact Hsorted|]. split; [|split; [|split]].
  - eapply Permutation_NoDup; [symmetry; exact Hperm|].
    apply repositories_named_nodup.
  - intros name. rewrite <- repositories_named_in. split.
    + apply Permutation_in, Hperm.
    + apply Permutation_in. symmetry. exact Hperm.
  - intros Htext. unfold generate_reports. rewrite Htext.
    apply in_or_app. right. apply in_or_app. left. left.
    unfold _generate_text_report, text_groups.
    rewrite groups_sorted_by_name_groups. f_equal.
    apply flat_map_ext. intros [name commits]. reflexivity.
  - intros Hmd. unfold generate_reports. rewrite Hmd.
    apply in_or_app. left. left.
    unfold _generate_markdown_report, markdown_groups.
    rewrite groups_sorted_by_name_groups. f_equal.
    apply flat_map_ext. intros [name commits]. reflexivity.
Qed.

(** X22.  When the request names the JSON format, [generate_reports]
    writes to the JSON report one object for each repository that the
    commit records name and no other, in the order in which the records
    first name them, each with the commits of its repository, oldest
    first. *)
Theorem json_report_by_repository (self : ReportGenerator)
    (records : list CommitRecord) (descriptions : option (PyDict.t string))
    (formats : option (list string)) :
  let requested := match formats with Some f => f | None => ["text"] end in
  let described := match descriptions with Some d => d | None => PyDict.empty end in
  let names := repositories_named records in
  let groups := map (group_of records) names in
  NoDup names
  /\ (forall name,
        In name names <-> exists r, In r records /\ repo_full_name r = name)
  /\ (in_str_set "json" requested = true ->
      In (WriteFile (json_report_path self)
            [Dumps (JArr (map (json_entry self described) groups))])
        (generate_reports self records descriptions formats)).
Proof.
  cbn zeta. split; [apply repositories_named_nodup|].
  split; [apply repositories_named_in|].
  intros Hjson. unfold generate_reports. rewrite Hjson.
  apply in_or_app. right. apply in_or_app. right. left.
  unfold _generate_json_report, json_groups, groups_in_dict_order, PyDict.items.
  rewrite group_commits_groups. do 4 f_equal.
  apply map_ext. intros [name commits]. reflexivity.
Qed.

End ReportText.

Lemma permutation_flat_map {A B} (f : A -> list B) l l' :
  Permutation l l' -> Permutation (flat_map f l) (flat_map f l').
Proof.
  induction 1 as [|x l l' _ IH|x y l|l l' l'' _ IH1 _ IH2]; simpl.
  - constructor.
  - now apply Permutation_app_head.
  - rewrite !app_assoc. apply Permutation_app_tail, Permutation_app_comm.
  - now transitivity (flat_map f l').
Qed.

Lemma set_append_commits (d : PyDict.t (list Commit.t)) k l x :
  PyDict.get d k = Some l ->
  Permutation (flat_map snd (PyDict.set d k (l ++ [x]))) (x :: flat_map snd d).
Proof.
  induction d as [|[k0 v0] d IH]; simpl; [discriminate|].
  destruct (k0 =? k).
  - intros [= ->]. simpl. rewrite <- app_assoc. simpl.
    symmetry. apply Permutation_middle.
  - intros Hget. simpl. rewrite (IH Hget). symmetry. apply Permutation_middle.
Qed.

Lemma set_new_commits (d : PyDict.t (list Commit.t)) k x :
  PyDict.get d k = None ->
  Permutation (flat_map snd (PyDict.set d k [x])) (x :: flat_map snd d).
Proof.
  induction d as [|[k0 v0] d IH]; simpl; [reflexivity|].
  destruct (k0 =? k); [discriminate|].
  intros Hget. simpl. rewrite (IH Hget). symmetry. apply Permutation_middle.
Qed.

Lemma fold_append_commits records : forall (d : PyDict.t (list Commit.t)),
  Permutation
    (flat_map snd
       (fold_left
          (fun d record => defaultdict_append d (repo_full_name record) (commit record))
          records d))
    (flat_map snd d ++ map commit records).
Proof.
  induction records as [|r records IH]; intros d; simpl.
  - now rewrite app_nil_r.
  - rewrite IH. unfold defaultdict_append.
    destruct (PyDict.get d (repo_full_name r)) as [l|] eqn:G.
    + rewrite (set_append_commits _ _ _ _ G). apply Permutation_middle.
    + rewrite (set_new_commits _ _ _ G). apply Permutation_middle.
Qed.

Lemma groups_sorted_by_name_perm (d : PyDict.t (list Commit.t)) :
  NoDup (PyDict.keys d) -> Permutation (groups_sorted_by_name d) d.
Proof.
  intros Hnd. unfold groups_sorted_by_name.
  transitivity
    (flat_map
       (fun repo_full_name =>
          match PyDict.get d repo_full_name with
          | Some commits => [(repo_full_name, commits)]
          | None => []
          end)
       (PyDict.keys d)).
  - apply permutation_flat_map. rewrite (set_of_nodup _ Hnd). apply sorted_strs_sorted.
  - assert (H : forall l, incl l d ->
                  flat_map
                    (fun repo_full_name =>
                       match PyDict.get d repo_full_name with
                       | Some commits => [(repo_full_name, commits)]
                       | None => []
                       end)
                    (PyDict.keys l) = l).
    { induction l as [|[k v] l IH]; intros Hincl; simpl; [reflexivity|].
      rewrite (PyDictFacts.in_get_nodup d k v Hnd) by (apply Hincl; now left).
      simpl. f_equal. apply IH. intros e He. apply Hincl. now right. }
    rewrite (H d (incl_refl d)). reflexivity.
Qed.

(** X16.  Grouping loses nothing and repeats nothing: in each report
    format, the commits of all groups taken together are the commits of the
    records, each as often as it occurs there. *)
Theorem reports_hold_every_commit (records : list CommitRecord) :
  Permutation (flat_map snd (json_groups (group_commits records))) (map commit records)
  /\ Permutation (flat_map snd (text_groups (group_commits records)))
       (map commit records)
  /\ Permutation (flat_map snd (markdown_groups (group_commits records)))
       (map commit records).
Proof.
  assert (Hjson : Permutation (flat_map snd (group_commits records)) (map commit records)).
  { unfold group_commits.
    transitivity
      (flat_map snd
         (fold_left
            (fun d record =>
               defaultdict_append d (repo_full_name record) (commit record))
            records PyDict.empty)).
    - generalize (fold_left
                    (fun d record =>
                       defaultdict_append d (repo_full_name record) (commit record))
                    records PyDict.empty) as d.
      induction d as [|[k v] d IH]; simpl; [reflexivity|].
      apply Permutation_app; [apply sort_by_date_sorted|exact IH].
    - apply (fold_append_commits records PyDict.empty). }
  assert (Htext : Permutation (flat_map snd (groups_sorted_by_name (group_commits records)))
                    (map commit records)).
  { rewrite <- Hjson. apply permutation_flat_map, groups_sorted_by_name_perm.
    apply group_commits_keys. }
  split; [exact Hjson|]. split; exact Htext.
Qed.

Section CommitData.
Context {host : Host}.

(** X17.  The object that [_build_commit_data] builds for a commit has
    exactly the requested fields among the six that it knows, in its own
    fixed order whatever the order of the request; fields it does not know
    are ignored, and without a request the fields are date, url and
    message. *)
Theorem build_commit_data_fields (self : ReportGenerator) (c : Commit.t) :
  PyDict.keys (_build_commit_data self c)
  = filter (fun field => in_str_set field (commit_fields self)) known_fields
  /\ (forall output_path,
        commit_fields (fst (ReportGenerator_init output_path None))
        = ["date"; "url"; "message"]
        /\ commit_fields (fst (ReportGenerator_init output_path (Some [])))
           = ["date"; "url"; "message"]).
Proof.
  split; [|intros; split; reflexivity].
  unfold _build_commit_data, known_fields. cbn [filter].
  destruct (in_str_set "date" (commit_fields self)),
           (in_str_set "url" (commit_fields self)),
           (in_str_set "message" (commit_fields self)),
           (in_str_set "sha" (commit_fields self)),
           (in_str_set "stats" (commit_fields self)),
           (in_str_set "files_changed" (commit_fields self)); reflexivity.
Qed.

End CommitData.

(** ** Diff archiver, continued *)

Lemma walk_files_crossed self record :
  snd (fst (walk_files self record))
  = negb ((changed_files record <=? limit_files self)%Z
          || match Commit.files (commit record) with [] => true | _ => false end).
Proof.
  destruct (Commit.files (commit record)) as [|f files] eqn:E.
  - unfold walk_files. rewrite E. simpl. now rewrite orb_true_r.
  - rewrite orb_false_r. apply walk_files_spec. right. rewrite E. discriminate.
Qed.

Lemma save_commit_diff_within self record :
  save_commit_diff self record
  = if within_limits self record then [diff_file self record] else [].
Proof.
  unfold save_commit_diff, within_limits.
  fold (changed_lines record) (repo_name_of record).
  rewrite Z.ltb_antisym.
  destruct (changed_lines record <=? limit_lines_changed self)%Z; [|reflexivity].
  cbn [negb andb]. rewrite walk_files_crossed.
  destruct (_ || _); [|reflexivity]. cbn [negb andb].
  destruct (PyStr.truthy (repo_name_of record)); [|reflexivity].
  destruct (PyStr.truthy (Commit.sha (commit record))); reflexivity.
Qed.

(** X18.  [save_commit_diffs] writes, in the order of the records, the
    complete diff of each record that is within the line ceiling, within
    the file ceiling or without changed files, and has a non-empty SHA and
    repository name, one file per such record under [<sha>.diff] in the
    commits directory; it writes nothing for the others and creates no
    directory. *)
Theorem save_commit_diffs_writes (self : DiffGenerator) (records : list CommitRecord) :
  save_commit_diffs self records
  = map (diff_file self) (filter (within_limits self) records)
  /\ (List.length (save_commit_diffs self records) <= List.length records)%nat
  /\ forall path content,
       In (WriteFile path content) (save_commit_diffs self records) ->
       exists record,
         In record records
         /\ path = path_join (files_dir self) (Commit.sha (commit record) ++ ".diff")
         /\ content = flat_map diff_of_file (Commit.files (commit record))
         /\ (changed_lines record <= limit_lines_changed self)%Z
         /\ Commit.sha (commit record) <> "".
Proof.
  assert (Heq : save_commit_diffs self records
                = map (diff_file self) (filter (within_limits self) records)).
  { unfold save_commit_diffs. induction records as [|r records IH]; simpl; [reflexivity|].
    rewrite IH, save_commit_diff_within. destruct (within_limits self r); reflexivity. }
  split; [exact Heq|]. split.
  - rewrite Heq, length_map. apply filter_length_le.
  - intros path content Hin. rewrite Heq in Hin.
    apply in_map_iff in Hin as (record & Hfile & Hin).
    apply filter_In in Hin as [Hin Hok]. exists record. split; [exact Hin|].
    unfold diff_file in Hfile. injection Hfile as <- <-.
    split; [reflexivity|]. split; [reflexivity|].
    unfold within_limits in Hok.
    apply andb_prop in Hok as [Hok Hsha]. apply andb_prop in Hok as [Hok _].
    apply andb_prop in Hok as [Hlines _]. split; [now apply Z.leb_le|].
    unfold PyStr.truthy in Hsha. now apply negb_true_iff, String.eqb_neq in Hsha.
Qed.

(** ** The command line, continued *)

Section CommandLine.
Context {host : Host} {github : GitHub}.

(** X19.  [validate_args] exits when the since-date parses under neither
    format, when it lies after the present, or when a CA bundle is named
    that does not exist while SSL verification is not switched off.  The
    date it accepts is not in the future; switching verification off takes
    precedence over a bundle, and a bundle that is accepted exists. *)
Theorem validate_args_accepts (args : Args.t) :
  (validate_args args = None
   <-> parse_date (Args.since args) = None
       \/ (exists d, parse_date (Args.since args) = Some d /\ (now < d)%Z)
       \/ (Args.no_verify_ssl args = false
           /\ exists bundle,
                Args.ca_bundle args = Some bundle /\ bundle <> ""
                /\ path_exists bundle = false))
  /\ forall since_date ssl_verify,
       validate_args args = Some (since_date, ssl_verify) ->
       parse_date (Args.since args) = Some since_date
       /\ (since_date <= now)%Z
       /\ (Args.no_verify_ssl args = true -> ssl_verify = VerifyOff)
       /\ (forall bundle,
             ssl_verify = VerifyBundle bundle ->
             Args.no_verify_ssl args = false
             /\ Args.ca_bundle args = Some bundle /\ path_exists bundle = true).
Proof.
  unfold validate_args.
  destruct (parse_date (Args.since args)) as [d|].
  2:{ split; [split; [now left|reflexivity]|discriminate]. }
  destruct (Z.ltb_spec now d) as [Hfuture|Hpast].
  { split; [|discriminate]. split; [|reflexivity]. intros _. right. left. now exists d. }
  destruct (Args.no_verify_ssl args).
  { split.
    - split; [discriminate|]. intros [H|[(d' & [= <-] & H)|(H & _)]];
        [discriminate|lia|discriminate].
    - intros since_date ssl_verify [= <- <-]. split; [reflexivity|]. split; [exact Hpast|].
      split; [reflexivity|]. discriminate. }
  destruct (Args.ca_bundle args) as [bundle|].
  2:{ split.
      - split; [discriminate|]. intros [H|[(d' & [= <-] & H)|(_ & b & H & _)]];
          [discriminate|lia|discriminate].
      - intros since_date ssl_verify [= <- <-]. split; [reflexivity|].
        split; [exact Hpast|]. split; discriminate. }
  destruct (PyStr.truthy bundle) eqn:Et.
  - destruct (path_exists bundle) eqn:Ex; cbn [negb].
    + split.
      * split; [discriminate|].
        intros [H|[(d' & [= <-] & H)|(_ & b & [= <-] & _ & H)]];
          [discriminate|lia|congruence].
      * intros since_date ssl_verify [= <- <-]. split; [reflexivity|].
        split; [exact Hpast|]. split; [discriminate|].
        intros b [= <-]. now repeat split.
    + split; [|discriminate]. split; [|reflexivity]. intros _. right. right.
      split; [reflexivity|]. exists bundle. split; [reflexivity|]. split; [|exact Ex].
      unfold PyStr.truthy in Et. now apply negb_true_iff, String.eqb_neq in Et.
  - split.
    + split; [discriminate|].
      intros [H|[(d' & [= <-] & H)|(_ & b & [= <-] & Hne & _)]];
        [discriminate|lia|].
      unfold PyStr.truthy in Et. apply negb_false_iff, String.eqb_eq in Et. contradiction.
    + intros since_date ssl_verify [= <- <-]. split; [reflexivity|].
      split; [exact Hpast|]. split; discriminate.
Qed.



End CommandLine.

(** ** Pull requests on a feed in the promised order *)

Section SortedFeed.
Context {github : GitHub}.

(** X21.  What the scan returns was written by the user and updated at
    [since] or later, whatever the order of the feed.  On feeds that are
    ordered latest first, as the remote service promises, nothing is
    missed: every pull request of the user in a listed repository that was
    updated at [since] or later is returned. *)
Theorem pull_request_scan_sound_and_complete api repos username since :
  Forall (fun pr => pr_by username pr = true /\ updated_since since pr = true)
    (fetch_user_pull_requests_in_repos api repos username since)
  /\ (Forall (fun repo => descending (get_pulls repo)) repos ->
      forall repo pr,
        In repo repos -> In pr (get_pulls repo) ->
        pr_by username pr = true -> updated_since since pr = true ->
        In pr (fetch_user_pull_requests_in_repos api repos username since)).
Proof.
  split.
  - unfold fetch_user_pull_requests_in_repos. rewrite fetch_user_pull_requests_fold.
    simpl. apply Forall_forall. intros pr Hin.
    apply in_flat_map in Hin as (repo & _ & Hin).
    apply filter_In in Hin as [Hin Hby]. split; [exact Hby|].
    induction (get_pulls repo) as [|x feed IH]; simpl in Hin; [contradiction|].
    destruct (updated_since since x) eqn:E; [|contradiction].
    destruct Hin as [<-|Hin]; [exact E|now apply IH].
  - intros Hdesc repo pr Hrepo Hpr Hby Hsince.
    rewrite (early_exit_exact_on_descending_feed username since repos Hdesc api).
    apply in_flat_map. exists repo. split; [exact Hrepo|].
    apply filter_In. split; [exact Hpr|]. now rewrite Hby, Hsince.
Qed.

End SortedFeed.

Section ReportFiles.
Context {host : Host}.

(** X24.  [generate_reports] writes one file for each of the formats
    markdown, text and JSON that the request names, in that order whatever
    the order of the request and however often a format is named; a format
    it does not know writes nothing, an empty request writes nothing, and
    without a request it writes the text report alone.  It creates no
    directory. *)
Theorem generate_reports_files (self : ReportGenerator)
    (records : list CommitRecord) (descriptions : option (PyDict.t string))
    (formats : option (list string)) :
  let requested := match formats with Some f => f | None => ["text"] end in
  map effect_path (generate_reports self records descriptions formats)
  = map snd
      (filter (fun entry => in_str_set (fst entry) requested)
         [("markdown", md_report_path self); ("text", text_report_path self);
          ("json", json_report_path self)])
  /\ forallb is_write (generate_reports self records descriptions formats) = true.
Proof.
  cbn zeta. unfold generate_reports. cbn [filter fst snd].
  destruct (in_str_set "markdown" _), (in_str_set "text" _), (in_str_set "json" _);
    split; reflexivity.
Qed.

End ReportFiles.

(** ** One bare token *)

Section SingleToken.
Context {host : Host} {github : GitHub}.

(** X23.  For a token specification that is one bare token, the client
    table is decided by that token alone: if the remote service rejects it
    the program exits, and otherwise the table holds the one client under
    the lowercased login of its user and under [_default], so that every
    owner resolves to it. *)
Theorem single_token_table (token_str : string) (ssl_verify : SslVerify) :
  PyStr.contains "," token_str = false ->
  PyStr.contains ":" token_str = false ->
  PyStr.truthy (PyStr.strip token_str) = true ->
  exists api,
    GitHubAPI_init (Some (PyStr.strip token_str)) ssl_verify = Some api
    /\ token api = PyStr.strip token_str
    /\ initialize_apis (parse_token_map token_str) ssl_verify
       = match get_user_login api with
         | None => None
         | Some login =>
             Some (if PyStr.lower login =? "_default"
                   then [(PyStr.lower login, api)]
                   else [(PyStr.lower login, api); ("_default", api)])
         end.
Proof.
  intros Hcomma Hcolon Htruthy.
  destruct (GitHubAPI_init_some_token _ ssl_verify Htruthy) as (api & Hinit & Htok).
  exists api. split; [exact Hinit|]. split; [exact Htok|].
  unfold parse_token_map. rewrite (PyStrFacts.split_no_sep _ _ Hcomma).
  cbn [fold_left]. unfold parse_token_pair. rewrite Hcolon.
  unfold initialize_apis, PyDict.pop. cbn [PyDict.set PyDict.empty PyDict.get].
  rewrite String.eqb_refl. unfold initialize_default_api. rewrite Htruthy, Hinit.
  destruct (get_user_login api) as [login|]; [|reflexivity].
  unfold PyDict.remove. cbn [filter fst negb]. rewrite String.eqb_refl.
  cbn [negb PyDict.items fold_left PyDict.set PyDict.empty].
  unfold PyDict.mem. cbn [PyDict.get].
  destruct (PyStr.lower login =? "_default") eqn:E; cbn [negb]; [reflexivity|].
  cbn [PyDict.set]. rewrite ?E. reflexivity.
Qed.

End SingleToken.

(** ** The further properties at work in the sample worlds *)

Lemma GitHubAPI_init_token_witness :
  @GitHubAPI_init Sample.host (Some "tok") VerifyOff
    = Some {| token := "tok"; verify := VerifyOff |}
  /\ PyStr.truthy (token {| token := "tok"; verify := VerifyOff |}) = true
  /\ @GitHubAPI_init Sample.host (Some "") VerifyOn = None.
Proof.
  destruct (@GitHubAPI_init_token Sample.host (Some "tok") VerifyOff) as [_ Hsome].
  destruct (Hsome _ eq_refl) as (Htruthy & _).
  destruct (@GitHubAPI_init_token Sample.host (Some "") VerifyOn) as [[_ Hnone] _].
  split; [reflexivity|]. split; [exact Htruthy|]. apply Hnone. exact I.
Defined.

Lemma initialize_apis_all_authenticated_witness :
  @initialize_apis Sample.host Sample.github
     (parse_token_map "tok,acme:t-acme,zeta:bad,Alice:t-acme") VerifyOn
  = Some [("alice", Sample.api "tok"); ("acme", Sample.api "t-acme");
          ("_default", Sample.api "tok")]
  /\ Forall (fun entry => @authenticated Sample.github (snd entry))
       [("alice", Sample.api "tok"); ("acme", Sample.api "t-acme");
        ("_default", Sample.api "tok")].
Proof.
  split; [reflexivity|].
  exact (@initialize_apis_all_authenticated Sample.host Sample.github
           (parse_token_map "tok,acme:t-acme,zeta:bad,Alice:t-acme") VerifyOn _ eq_refl).
Defined.

Lemma initialize_apis_default_covers_all_witness :
  PyDict.get (parse_token_map "tok,acme:t-acme,zeta:bad,Alice:t-acme") "_default"
    = Some "tok"
  /\ PyStr.truthy "tok" = true
  /\ api_for_owner
       [("alice", Sample.api "tok"); ("acme", Sample.api "t-acme");
        ("_default", Sample.api "tok")] "nobody" <> None.
Proof.
  destruct (@initialize_apis_default_covers_all Sample.host Sample.github
              (parse_token_map "tok,acme:t-acme,zeta:bad,Alice:t-acme") VerifyOn
              _ "tok" eq_refl eq_refl eq_refl)
    as (default_api & login & _ & _ & _ & _ & Hall).
  split; [reflexivity|]. split; [reflexivity|]. apply Hall.
Defined.

Lemma fetch_repositories_result_witness :
  @fetch_repositories Sample.github [("acme", Sample.api "t-acme")]
     (group_repos_by_owner ["Acme/tool"; "zeta/lib"]) = None
  /\ @fetch_repositories Sample.github [("acme", Sample.api "t-acme")]
       (group_repos_by_owner ["acme/tool"; "acme/none"]) = Some [Sample.acme_tool].
Proof.
  destruct (@fetch_repositories_result Sample.github [("acme", Sample.api "t-acme")]
              (group_repos_by_owner ["Acme/tool"; "zeta/lib"])) as ([_ Hnone] & _).
  destruct (@fetch_repositories_result Sample.github [("acme", Sample.api "t-acme")]
              (group_repos_by_owner ["acme/tool"; "acme/none"])) as (_ & Hsome & _).
  split.
  - apply Hnone. exists ("zeta", ["zeta/lib"]). split; [|reflexivity].
    right. left. reflexivity.
  - rewrite (Hsome [Sample.acme_tool] eq_refl) at 1. reflexivity.
Defined.

Lemma deduplicate_order_witness :
  NoDup (map sha_of ([Sample.record Sample.c_plain] ++ [Sample.record Sample.c_rebased]))
  /\ deduplicate [Sample.record Sample.c_plain] [Sample.record Sample.c_rebased]
     = [Sample.record Sample.c_plain; Sample.record Sample.c_rebased].
Proof.
  assert (Hnd : NoDup (map sha_of ([Sample.record Sample.c_plain]
                                   ++ [Sample.record Sample.c_rebased]))).
  { simpl. constructor; [|constructor; [|constructor]]; simpl; intuition discriminate. }
  destruct (deduplicate_order [Sample.record Sample.c_plain]
              [Sample.record Sample.c_rebased]) as (_ & Hid & _).
  split; [exact Hnd|]. exact (Hid Hnd).
Defined.

Lemma process_commits_and_prs_result_witness :
  @process_commits_and_prs Sample.github [Sample.acme_tool; Sample.acme_tool]
     Sample.acme_apis "alice" 0%Z true false
  = Some [Sample.record Sample.c_plain; Sample.record Sample.c_rebased]
  /\ [Sample.record Sample.c_plain; Sample.record Sample.c_rebased]
     = deduplicate
         [Sample.record Sample.c_plain; Sample.record Sample.c_rebased]
         [Sample.record Sample.c_plain; Sample.record Sample.c_rebased].
Proof.
  split; [reflexivity|].
  exact (@process_commits_and_prs_result Sample.github
           [Sample.acme_tool; Sample.acme_tool] Sample.acme_apis "alice" 0%Z true false
           (Sample.api "tok") _ eq_refl).
Defined.

Lemma process_commits_and_prs_exits_witness :
  @get_api_for_repo Sample.acme_apis Sample.zeta_lib = None
  /\ @process_commits_and_prs Sample.github [Sample.acme_tool; Sample.zeta_lib]
       Sample.acme_apis "alice" 0%Z false false = None.
Proof.
  destruct (@process_commits_and_prs_exits Sample.github
              [Sample.acme_tool; Sample.zeta_lib] Sample.acme_apis "alice" 0%Z
              false false (Sample.api "tok")) as [[_ Hnone] _].
  split; [reflexivity|]. apply Hnone. left. exists Sample.zeta_lib.
  split; [|reflexivity]. right. left. reflexivity.
Defined.

Lemma process_commits_and_prs_without_merges_witness :
  @process_commits_and_prs Sample.github [Sample.acme_tool] Sample.acme_apis
     "alice" 0%Z false false
  = Some [Sample.record Sample.c_plain; Sample.record Sample.c_web;
          Sample.record Sample.c_rebased]
  /\ Forall (fun r => is_not_merge (commit r) = true)
       [Sample.record Sample.c_plain; Sample.record Sample.c_web;
        Sample.record Sample.c_rebased].
Proof.
  split; [reflexivity|].
  exact (@process_commits_and_prs_without_merges Sample.github [Sample.acme_tool]
           Sample.acme_apis "alice" 0%Z false _ eq_refl).
Defined.

Lemma text_and_markdown_reports_by_name_witness :
  In (WriteFile "out/report.txt"
        (flat_map
           (@text_section Sample.host (fst (ReportGenerator_init "out" (Some ["sha"])))
              PyDict.empty)
           [("acme/tool", [Sample.c_plain]); ("zeta/lib", [Sample.c_web])]))
    (@generate_reports Sample.host (fst (ReportGenerator_init "out" (Some ["sha"])))
       unsorted_records None None).
Proof.
  destruct (@text_and_markdown_reports_by_name Sample.host
              (fst (ReportGenerator_init "out" (Some ["sha"])))
              unsorted_records None None) as (_ & _ & _ & Htext & _).
  exact (Htext eq_refl).
Defined.

Lemma json_report_by_repository_witness :
  In (WriteFile "out/report.json"
        [Dumps
           (JArr
              (map
                 (@json_entry Sample.host
                    (fst (ReportGenerator_init "out" (Some ["sha"]))) PyDict.empty)
                 [("zeta/lib", [Sample.c_web]); ("acme/tool", [Sample.c_plain])]))])
    (@generate_reports Sample.host (fst (ReportGenerator_init "out" (Some ["sha"])))
       unsorted_records None (Some ["json"])).
Proof.
  destruct (@json_report_by_repository Sample.host
              (fst (ReportGenerator_init "out" (Some ["sha"])))
              unsorted_records None (Some ["json"])) as (_ & _ & Hjson).
  exact (Hjson eq_refl).
Defined.

Lemma save_commit_diffs_writes_witness :
  In (diff_file SampleSorted.diffs_two_lines (Sample.record Sample.c_plain))
    (save_commit_diffs SampleSorted.diffs_two_lines
       [Sample.record Sample.c_31_files; Sample.record Sample.c_plain])
  /\ (changed_lines (Sample.record Sample.c_plain)
      <= limit_lines_changed SampleSorted.diffs_two_lines)%Z.
Proof.
  destruct (save_commit_diffs_writes SampleSorted.diffs_two_lines
              [Sample.record Sample.c_31_files; Sample.record Sample.c_plain])
    as (_ & _ & Hsound).
  assert (Hin : In (diff_file SampleSorted.diffs_two_lines (Sample.record Sample.c_plain))
                  (save_commit_diffs SampleSorted.diffs_two_lines
                     [Sample.record Sample.c_31_files; Sample.record Sample.c_plain]))
    by (left; reflexivity).
  split; [exact Hin|].
  destruct (Hsound _ _ Hin) as (record & _ & _ & _ & _ & _).
  vm_compute. discriminate.
Defined.

Lemma validate_args_accepts_witness :
  @validate_args Sample.host Sample.args = Some (100%Z, VerifyOn)
  /\ (100 <= @now Sample.host)%Z
  /\ @validate_args Sample.host SampleSorted.args_bad_date = None.
Proof.
  destruct (@validate_args_accepts Sample.host Sample.args) as [_ Hsome].
  destruct (Hsome _ _ eq_refl) as (_ & Hnow & _).
  destruct (@validate_args_accepts Sample.host SampleSorted.args_bad_date)
    as [[_ Hnone] _].
  split; [reflexivity|]. split; [exact Hnow|]. apply Hnone. left. reflexivity.
Defined.


Lemma pull_request_scan_sound_and_complete_witness :
  Forall (fun repo => descending (@get_pulls SampleSorted.github repo)) [Sample.acme_tool]
  /\ In Sample.pr7
       (@fetch_user_pull_requests_in_repos SampleSorted.github (Sample.api "tok")
          [Sample.acme_tool] "alice" 15%Z).
Proof.
  assert (Hdesc : Forall (fun repo => descending (@get_pulls SampleSorted.github repo))
                    [Sample.acme_tool]).
  { constructor; [|constructor].
    change (descending [Sample.pr9; Sample.pr8; Sample.pr7; Sample.pr6]). split.
    - repeat first [apply SSorted_nil | apply SSorted_cons
                   | apply Forall_nil | apply Forall_cons];
        unfold later_or_same; simpl; lia.
    - repeat first [apply Forall_nil | apply Forall_cons]; discriminate. }
  destruct (@pull_request_scan_sound_and_complete SampleSorted.github (Sample.api "tok")
              [Sample.acme_tool] "alice" 15%Z) as [_ Hcomplete].
  split; [exact Hdesc|].
  apply (Hcomplete Hdesc Sample.acme_tool Sample.pr7).
  - now left.
  - simpl. tauto.
  - reflexivity.
  - reflexivity.
Defined.

Lemma single_token_table_witness :
  PyStr.contains "," " tok " = false
  /\ PyStr.contains ":" " tok " = false
  /\ PyStr.truthy (PyStr.strip " tok ") = true
  /\ @initialize_apis Sample.host Sample.github (parse_token_map " tok ") VerifyOn
     = Some [("alice", Sample.api "tok"); ("_default", Sample.api "tok")].
Proof.
  destruct (@single_token_table Sample.host Sample.github " tok " VerifyOn
              eq_refl eq_refl eq_refl) as (api & Hinit & _ & Htable).
  split; [reflexivity|]. split; [reflexivity|]. split; [reflexivity|].
  vm_compute in Hinit. injection Hinit as <-. exact Htable.
Defined.
